(** * The channel manager of the remote server: a shallow embedding

    Source: [src/services/channelManager.js].

    The module keeps three module-level [Map]s
    - [channels]      : channel -> Set of SSE response objects,
    - [clientMap]     : response -> { clientId, channel, ip },
    - [ipConnections] : ip -> Set of { res, channel },
    and offers [subscribeClient], [unsubscribeClient], [sendToChannel]
    (through the private [broadcastToChannel]), [getConnectedClients] and
    [getChannelStats].

    JavaScript [Map]s and [Set]s iterate in insertion order, so they are
    embedded as insertion-ordered lists.  The message objects handed to
    [sendToChannel] live in a store of objects addressed by location, so
    that "the caller's object" is something a statement can talk about; a
    message may also be [undefined], [null] or a primitive value.
    Calls on the collaborators (the response objects, [logChannel],
    [console.error], [rewriteImageUrls]) are recorded in a trace. *)

From Stdlib Require Import ZArith String Ascii List Lia.
From stdpp Require Import base option list strings gmap pretty.

Set Warnings "-register-all,-clear-no-such-hyp".
Open Scope string_scope.

(** ** JavaScript [Map], as an insertion-ordered association list *)

Module JsMap.
Section ops.
Context {K V : Type} `{EqDecision K}.

(** [m.get(k)]; [None] stands for [undefined]. *)
Fixpoint get (k : K) (m : list (K * V)) : option V :=
  match m with
  | [] => None
  | (k', v) :: m' => if decide (k = k') then Some v else get k m'
  end.

(** [m.has(k)] *)
Definition has (k : K) (m : list (K * V)) : bool :=
  match get k m with Some _ => true | None => false end.

(** [m.set(k, v)]: an existing key keeps its place, a new key goes last. *)
Fixpoint set (k : K) (v : V) (m : list (K * V)) : list (K * V) :=
  match m with
  | [] => [(k, v)]
  | (k', v') :: m' =>
      if decide (k = k') then (k, v) :: m' else (k', v') :: set k v m'
  end.

(** [m.delete(k)] *)
Fixpoint delete (k : K) (m : list (K * V)) : list (K * V) :=
  match m with
  | [] => []
  | (k', v') :: m' =>
      if decide (k = k') then delete k m' else (k', v') :: delete k m'
  end.
End ops.
End JsMap.

(** ** JavaScript [Set] of primitive-like handles, insertion ordered *)

Module JsSet.
Section ops.
Context {A : Type} `{EqDecision A}.

Definition has (x : A) (s : list A) : bool := bool_decide (x ∈ s).

(** [s.add(x)] *)
Definition add (x : A) (s : list A) : list A :=
  if has x s then s else s ++ [x].

(** [s.delete(x)] *)
Fixpoint delete (x : A) (s : list A) : list A :=
  match s with
  | [] => []
  | y :: s' => if decide (x = y) then delete x s' else y :: delete x s'
  end.

(** [s.size] *)
Definition size (s : list A) : nat := length s.
End ops.
End JsSet.

(** ** JavaScript values, objects and the object store *)

(** Numbers are kept to the integers and [NaN]; that is all the message
    fields inspected by the code need ([type] is compared with strings,
    [view] is tested for truthiness). *)
Inductive value : Type :=
| VUndefined
| VNull
| VBool (b : bool)
| VNumber (n : Z)
| VNaN
| VString (s : string)
| VArray (items : list value)
| VObject (fields : list (string * value)).

(** An object: its own enumerable properties, in insertion order. *)
Definition object : Type := list (string * value).

(** [o.name] *)
Definition prop (name : string) (o : object) : value :=
  match JsMap.get name o with Some v => v | None => VUndefined end.

(** ToBoolean *)
Definition truthy (v : value) : bool :=
  match v with
  | VUndefined | VNull | VNaN => false
  | VBool b => b
  | VNumber n => negb (n =? 0)%Z
  | VString s => negb (String.eqb s "")
  | VArray _ | VObject _ => true
  end.

(** [v === s] for a string literal [s] *)
Definition strict_eq_string (v : value) (s : string) : bool :=
  match v with VString s' => String.eqb s' s | _ => false end.

Definition loc : Type := nat.

(** What a caller hands over as the message: an object of the store,
    [undefined], [null], or a boolean, a number or a string.  Of a
    primitive the code uses nothing but its JSON text: it has no property
    [type] and no property [view].  A location that holds no object reads
    as [undefined]. *)
Inductive message_value : Type :=
| Ref (l : nat) (* a location of the store *)
| Undefined
| Null
| Primitive (json : string).

(** A location stands for the object it holds. *)
Coercion Ref : nat >-> message_value.

(** Thrown errors: the constructor name and the message. *)
Record error : Type := Error { error_name : string; error_message : string }.

(** ** The collaborators *)

(** A response object is known by its identity. *)
Definition response : Type := nat.

Module ClientInfo.
Record t : Type := Make { clientId : string; channel : string; ip : string }.
End ClientInfo.

Module ConnInfo.
Record t : Type := Make { res : response; channel : string }.
End ConnInfo.

(** What the response objects do during one call of the manager:
    [write r chunk] and [destroy r] answer [None] when the call returns and
    [Some e] when it throws [e]; [destroyed r] is the flag [r.destroyed]. *)
Record transport : Type := Transport {
  write : response -> string -> option error;
  destroyed : response -> bool;
  destroy : response -> option error
}.

(** The third argument of [logChannel]: an object literal or the message. *)
Inductive context : Type :=
| Literal (o : object)
| Reference (message : message_value).

Inductive event : Type :=
| Write (res : response) (chunk : string)
| WriteThrew (res : response) (chunk : string) (err : error)
| Destroy (res : response)
| DestroyThrew (res : response) (err : error)
| OnClose (res : response) (channel : string)
| RewriteImageUrls (view : value)
| LogChannel (text : string) (channel : string) (ctx : context)
| ConsoleError (text : string) (err : error).

(** ** The state *)

Record registry : Type := Registry {
  channels : list (string * list response);
  clientMap : list (response * ClientInfo.t);
  ipConnections : list (string * list ConnInfo.t)
}.

Record world : Type := World {
  reg : registry;
  heap : gmap loc object;
  trace : list event
}.

Definition empty_registry : registry := Registry [] [] [].

(** ** Statements that return or throw, over the state *)

Inductive outcome (A : Type) : Type :=
| Return (a : A)
| Throw (e : error).
Arguments Return {A} a.
Arguments Throw {A} e.

(** A throw does not roll the state back.  The methods of the manager
    are [async]: what is a throw here reaches their caller as the rejection
    of the promise the call returns. *)
Definition M (A : Type) : Type := world -> outcome A * world.

Definition ret {A} (a : A) : M A := fun w => (Return a, w).

Definition bind {A B} (m : M A) (k : A -> M B) : M B :=
  fun w =>
    match m w with
    | (Return a, w') => k a w'
    | (Throw e, w') => (Throw e, w')
    end.

Definition throw {A} (e : error) : M A := fun w => (Throw e, w).

(** [try { body } catch (err) { handler }] *)
Definition try_catch {A} (body : M A) (handler : error -> M A) : M A :=
  fun w =>
    match body w with
    | (Return a, w') => (Return a, w')
    | (Throw e, w') => handler e w'
    end.

Declare Scope js_scope.
Delimit Scope js_scope with js.
Notation "x <- m ;; k" := (bind m (fun x => k))
  (at level 100, m at next level, k at level 200, right associativity) : js_scope.
Notation "m ;; k" := (bind m (fun _ => k))
  (at level 100, k at level 200, right associativity) : js_scope.
Open Scope js_scope.

Definition gets {A} (f : registry -> A) : M A := fun w => (Return (f (reg w)), w).

Definition set_channels (f : list (string * list response) -> list (string * list response)) : M unit :=
  fun w => (Return tt,
            World (Registry (f (channels (reg w))) (clientMap (reg w)) (ipConnections (reg w)))
                  (heap w) (trace w)).

Definition set_clientMap (f : list (response * ClientInfo.t) -> list (response * ClientInfo.t)) : M unit :=
  fun w => (Return tt,
            World (Registry (channels (reg w)) (f (clientMap (reg w))) (ipConnections (reg w)))
                  (heap w) (trace w)).

Definition set_ipConnections (f : list (string * list ConnInfo.t) -> list (string * list ConnInfo.t)) : M unit :=
  fun w => (Return tt,
            World (Registry (channels (reg w)) (clientMap (reg w)) (f (ipConnections (reg w))))
                  (heap w) (trace w)).

Definition emit (e : event) : M unit :=
  fun w => (Return tt, World (reg w) (heap w) (trace w ++ [e])).

(** Reading a property of what [l] holds: a [TypeError] when that is
    [undefined]. *)
Definition deref (l : loc) : M object :=
  fun w =>
    match heap w !! l with
    | Some o => (Return o, w)
    | None =>
        (Throw (Error "TypeError" "Cannot read properties of undefined (reading 'type')"), w)
    end.

(** [message.type], the first property read off the message (line 13),
    throws a [TypeError] on [undefined] and [null]; on a boolean, a number
    or a string the properties [type] and [view] are [undefined]. *)
Definition properties_of (message : message_value) : M object :=
  match message with
  | Ref l => deref l
  | Undefined =>
      throw (Error "TypeError" "Cannot read properties of undefined (reading 'type')")
  | Null => throw (Error "TypeError" "Cannot read properties of null (reading 'type')")
  | Primitive _ => ret []
  end.

Definition get_heap : M (gmap loc object) := fun w => (Return (heap w), w).

(** An object literal allocates a new object. *)
Definition alloc (o : object) : M loc :=
  fun w => let l := fresh (dom (heap w)) in
           (Return l, World (reg w) (<[l := o]> (heap w)) (trace w)).

(** [for (const x of xs) body] and [xs.forEach(body)] *)
Fixpoint forEach {A} (xs : list A) (body : A -> M unit) : M unit :=
  match xs with
  | [] => ret tt
  | x :: xs' => body x ;; forEach xs' body
  end.

(** ** Strings: [split('-')] and [parseInt] *)

(** A string is a sequence of code units; those of a client id are taken
    below 256. *)

(** [s.split(sep)] for a one-character separator: never empty. *)
Fixpoint split (sep : ascii) (s : string) : list string :=
  match s with
  | EmptyString => [""]
  | String c s' =>
      if Ascii.eqb c sep then "" :: split sep s'
      else match split sep s' with
           | [] => [String c ""]
           | p :: ps => String c p :: ps
           end
  end.

(** [parts[parts.length - 1]]; [None] stands for [undefined]. *)
Definition last_part (parts : list string) : option string :=
  parts !! (length parts - 1)%nat.

(** White space and line terminators that [parseInt] skips, among the
    code units below 256. *)
Definition is_white_space (c : ascii) : bool :=
  let n := nat_of_ascii c in
  (n =? 9)%nat || (n =? 10)%nat || (n =? 11)%nat || (n =? 12)%nat
  || (n =? 13)%nat || (n =? 32)%nat || (n =? 160)%nat.

Fixpoint trim_start (s : string) : string :=
  match s with
  | String c s' => if is_white_space c then trim_start s' else s
  | EmptyString => EmptyString
  end.

(** The value of a digit in the radixes up to 36. *)
Definition digit_value (c : ascii) : option Z :=
  let n := Z.of_nat (nat_of_ascii c) in
  if (48 <=? n)%Z && (n <=? 57)%Z then Some (n - 48)%Z
  else if (97 <=? n)%Z && (n <=? 122)%Z then Some (n - 87)%Z
  else if (65 <=? n)%Z && (n <=? 90)%Z then Some (n - 55)%Z
  else None.

(** The longest prefix of radix-[R] digits, read as an integer; [acc] is
    [None] until a digit has been read. *)
Fixpoint parse_digits (R : Z) (s : string) (acc : option Z) : option Z :=
  match s with
  | EmptyString => acc
  | String c s' =>
      match digit_value c with
      | Some d =>
          if (d <? R)%Z
          then parse_digits R s' (Some (default 0%Z acc * R + d)%Z)
          else acc
      | None => acc
      end
  end.

(** [parseInt(s)] without a radix; [None] stands for [NaN].  The result
    is the integer the digits denote.  Up to 2^53 that integer is the
    Number [parseInt] returns; beyond, the Number is a rounding of it.
    The tests made on the result below ([> 0], the range of time values)
    compare it with integers that are exact as Numbers, so rounding does
    not change their outcome, and every value that passes them is below
    2^53. *)
Definition parseInt (s : string) : option Z :=
  let s1 := trim_start s in
  let '(sign, s2) :=
    match s1 with
    | String "-" r => ((-1)%Z, r)
    | String "+" r => (1%Z, r)
    | _ => (1%Z, s1)
    end in
  let '(R, s3) :=
    match s2 with
    | String "0" (String "x" r) => (16%Z, r)
    | String "0" (String "X" r) => (16%Z, r)
    | _ => (10%Z, s2)
    end in
  match parse_digits R s3 None with
  | Some n => Some (sign * n)%Z
  | None => None
  end.

(** The decimal digits. *)
Definition is_decimal_digit (c : ascii) : bool :=
  (48 <=? nat_of_ascii c)%nat && (nat_of_ascii c <=? 57)%nat.

(** A string of decimal digits. *)
Fixpoint all_digits (s : string) : bool :=
  match s with
  | EmptyString => true
  | String c s' => is_decimal_digit c && all_digits s'
  end.

(** ** Property names of a plain object *)

(** An array index: the canonical decimal form of an integer below
    2^32 - 1. *)
Definition array_index (name : string) : option Z :=
  match name with
  | EmptyString => None
  | String c rest =>
      if all_digits name && (negb (Ascii.eqb c "0") || String.eqb rest "")
      then match parse_digits 10 name None with
           | Some n => if (n <? 4294967295)%Z then Some n else None
           | None => None
           end
      else None
  end.

Fixpoint insert_index (i : Z) (name : string) (sorted : list (Z * string)) : list (Z * string) :=
  match sorted with
  | [] => [(i, name)]
  | (j, other) :: rest =>
      if (i <? j)%Z then (i, name) :: sorted else (j, other) :: insert_index i name rest
  end.

(** The order in which the own properties of an object are enumerated
    ([Object.keys], [JSON.stringify]): the array indexes in ascending
    order, then the other names in the order of their creation. *)
Definition enumeration_order (names : list string) : list string :=
  (map snd
     (foldr (fun name sorted =>
               match array_index name with
               | Some i => insert_index i name sorted
               | None => sorted
               end) [] names)
   ++ filter (fun name => array_index name = None) names)%list.

(** The largest time value of a valid [Date]. *)
Definition max_time_value : Z := 8640000000000000.

Definition LF : string := String "010" "".

(** ** The channel manager *)

(** [for (const connInfo of ipConns) if (connInfo.res === res) {
    ipConns.delete(connInfo); break; }] on a [Set] of objects: the first
    entry for [res] goes, the others stay. *)
Fixpoint delete_first_res (res : response) (ipConns : list ConnInfo.t) : list ConnInfo.t :=
  match ipConns with
  | [] => []
  | connInfo :: rest =>
      if decide (ConnInfo.res connInfo = res) then rest
      else connInfo :: delete_first_res res rest
  end.

Definition number_of_nat (n : nat) : value := VNumber (Z.of_nat n).

(** The views built by [getConnectedClients] and [getChannelStats]. *)
Module ClientView.
Record t : Type := Make {
  clientId : string;
  channel : string;
  ip : string;
  connectedAt : option string;
  connectedAtTimestamp : option Z
}.
End ClientView.

Module StatsClient.
Record t : Type := Make {
  clientId : string;
  ip : string;
  connectedAt : option string;
  connectedAtTimestamp : option Z
}.
End StatsClient.

Module ChannelStats.
Record t : Type := Make { clientCount : nat; clients : list StatsClient.t }.
End ChannelStats.

(** The plain object [stats] that [getChannelStats] fills and returns:
    its own properties in the order of their creation, and the entry its
    prototype was set to, if it was set. *)
Module StatsObject.
Record t : Type := Make {
  properties : list (string * ChannelStats.t);
  prototype : option ChannelStats.t
}.

(** [Object.keys(stats)] *)
Definition ownKeys (stats : t) : list string :=
  enumeration_order (map fst (properties stats)).
End StatsObject.

(** [stats[channel] = entry] on a plain object: the name [__proto__] sets
    the prototype and creates no property; any other name creates the
    property, or overwrites it where it is. *)
Definition assign (channel : string) (entry : ChannelStats.t)
    (stats : StatsObject.t) : StatsObject.t :=
  if String.eqb channel "__proto__"
  then StatsObject.Make (StatsObject.properties stats) (Some entry)
  else StatsObject.Make (JsMap.set channel entry (StatsObject.properties stats))
         (StatsObject.prototype stats).

Section ChannelManager.

(** [rewriteImageUrls] of [utils/imageProxy.js]: a pure function of the
    view, as the specification has it (section 6). *)
Variable rewriteImageUrls : value -> value.
(** [JSON.stringify] on message objects; it returns on all the values
    modelled here (trees of plain data). *)
Variable JSON_stringify : object -> string.
(** [new Date(t).toISOString()] for a valid time value [t]. *)
Variable toISOString : Z -> string.
(** The response objects as they behave during the call. *)
Variable env : transport.

Definition logChannel (text channel : string) (ctx : context) : M unit :=
  emit (LogChannel text channel ctx).

Definition console_error (text : string) (err : error) : M unit :=
  emit (ConsoleError text err).

(** [res.write(chunk)] *)
Definition res_write (res : response) (chunk : string) : M unit :=
  match write env res chunk with
  | None => emit (Write res chunk)
  | Some err => emit (WriteThrew res chunk err) ;; throw err
  end.

(** [res.destroy()] *)
Definition res_destroy (res : response) : M unit :=
  match destroy env res with
  | None => emit (Destroy res)
  | Some err => emit (DestroyThrew res err) ;; throw err
  end.

(** [message.type === 'initial_view' || message.type === 'view_change'] *)
Definition is_view_message (message : object) : bool :=
  strict_eq_string (prop "type" message) "initial_view"
  || strict_eq_string (prop "type" message) "view_change".

(** [${JSON.stringify(processedMessage)}] in the template of line 25,
    in the store [h]. *)
Definition JSON_text (h : gmap loc object) (processedMessage : message_value) : string :=
  match processedMessage with
  | Ref l => match h !! (l : loc) with Some o => JSON_stringify o | None => "undefined" end
  | Undefined => "undefined"
  | Null => "null"
  | Primitive json => json
  end.

(** Lines 22-44: the callback of [clients.forEach]. *)
Definition sendToClient (channel : string) (processedMessage : message_value)
    (res : response) : M unit :=
  try_catch
    (clientInfo <- gets (fun r => JsMap.get res (clientMap r)) ;;
     h <- get_heap ;;
     res_write res ("data: " +:+ JSON_text h processedMessage +:+ LF +:+ LF))
    (fun err =>
       console_error "Error sending to client:" err ;;
       clientInfo <- gets (fun r => JsMap.get res (clientMap r)) ;;
       match clientInfo with
       | Some clientInfo =>
           logChannel "Error sending to client, removing" channel
             (Literal [("clientId", VString (ClientInfo.clientId clientInfo));
                       ("error", VString (error_message err))])
       | None => ret tt
       end ;;
       channelClients <- gets (fun r => JsMap.get channel (channels r)) ;;
       match channelClients with
       | Some channelClients =>
           set_channels (JsMap.set channel (JsSet.delete res channelClients))
       | None => ret tt
       end ;;
       set_clientMap (JsMap.delete res)).

(** Lines 12-20: the message that goes out. *)
Definition processMessage (message : message_value) (msg : object) : M message_value :=
  if is_view_message msg then
    if truthy (prop "view" msg) then
      emit (RewriteImageUrls (prop "view" msg)) ;;
      copy <- alloc (JsMap.set "view" (rewriteImageUrls (prop "view" msg)) msg) ;;
      ret (Ref copy)
    else ret message
  else ret message.

(** Lines 8-46.  [forEach] walks the members the set had on entry: the
    callback deletes no member but the one it is visiting. *)
Definition broadcastToChannel (channel : string) (message : message_value) : M unit :=
  clients <- gets (fun r => JsMap.get channel (channels r)) ;;
  match clients with
  | Some clients =>
      msg <- properties_of message ;;
      processedMessage <- processMessage message msg ;;
      forEach clients (sendToClient channel processedMessage)
  | None => ret tt
  end.

(** Lines 59-73: the body of the loop over the connections of an
    address. *)
Definition closeExisting (connInfo : ConnInfo.t) : M unit :=
  try_catch
    (if negb (destroyed env (ConnInfo.res connInfo))
     then res_destroy (ConnInfo.res connInfo)
     else ret tt)
    (fun err => ret tt) ;;
  channelClients <- gets (fun r => JsMap.get (ConnInfo.channel connInfo) (channels r)) ;;
  match channelClients with
  | Some channelClients =>
      set_channels (JsMap.set (ConnInfo.channel connInfo)
                      (JsSet.delete (ConnInfo.res connInfo) channelClients))
  | None => ret tt
  end ;;
  set_clientMap (JsMap.delete (ConnInfo.res connInfo)).

(** Lines 50-75: close what the address has open. *)
Definition closeSameIp (channel clientId ip : string) : M unit :=
  existing <- gets (fun r => JsMap.get ip (ipConnections r)) ;;
  match existing with
  | Some existingConnections =>
      logChannel
        ("Closing " +:+ pretty (JsSet.size existingConnections)
           +:+ " existing connection(s) from same IP")
        channel (Literal [("ip", VString ip); ("clientId", VString clientId)]) ;;
      forEach existingConnections closeExisting ;;
      set_ipConnections (JsMap.delete ip)
  | None => ret tt
  end.

(** Lines 77-98: enter the new client in the three maps. *)
Definition register (channel : string) (res : response) (clientId ip : string) : M unit :=
  hasChannel <- gets (fun r => JsMap.has channel (channels r)) ;;
  (if negb hasChannel then set_channels (JsMap.set channel []) else ret tt) ;;
  set_channels (fun chs =>
    JsMap.set channel (JsSet.add res (default [] (JsMap.get channel chs))) chs) ;;
  set_clientMap (JsMap.set res (ClientInfo.Make clientId channel ip)) ;;
  hasIp <- gets (fun r => JsMap.has ip (ipConnections r)) ;;
  (if negb hasIp then set_ipConnections (JsMap.set ip []) else ret tt) ;;
  set_ipConnections (fun ips =>
    JsMap.set ip (default [] (JsMap.get ip ips) ++ [ConnInfo.Make res channel])%list ips) ;;
  total <- gets (fun r => JsSet.size (default [] (JsMap.get channel (channels r)))) ;;
  logChannel "Client subscribed" channel
    (Literal [("clientId", VString clientId); ("ip", VString ip);
              ("totalClients", number_of_nat total)]) ;;
  emit (OnClose res channel).

(** Lines 49-99. *)
Definition subscribeClient (channel : string) (res : response)
    (clientId ip : string) : M unit :=
  closeSameIp channel clientId ip ;;
  register channel res clientId ip.

(** Lines 101-138. *)
Definition unsubscribeClient (channel : string) (res : response) : M unit :=
  clients <- gets (fun r => JsMap.get channel (channels r)) ;;
  clientInfo <- gets (fun r => JsMap.get res (clientMap r)) ;;
  match clients with
  | Some clients =>
      let clients := JsSet.delete res clients in
      set_channels (JsMap.set channel clients) ;;
      match clientInfo with
      | Some info =>
          if negb (String.eqb (ClientInfo.ip info) "") then
            ipConns <- gets (fun r => JsMap.get (ClientInfo.ip info) (ipConnections r)) ;;
            match ipConns with
            | Some ipConns =>
                let ipConns := delete_first_res res ipConns in
                set_ipConnections (JsMap.set (ClientInfo.ip info) ipConns) ;;
                if (JsSet.size ipConns =? 0)%nat
                then set_ipConnections (JsMap.delete (ClientInfo.ip info))
                else ret tt
            | None => ret tt
            end
          else ret tt
      | None => ret tt
      end ;;
      set_clientMap (JsMap.delete res) ;;
      match clientInfo with
      | Some info =>
          logChannel "Client unsubscribed" channel
            (Literal [("clientId", VString (ClientInfo.clientId info));
                      ("ip", VString (ClientInfo.ip info));
                      ("remainingClients", number_of_nat (JsSet.size clients))])
      | None => ret tt
      end ;;
      if (JsSet.size clients =? 0)%nat
      then set_channels (JsMap.delete channel)
      else ret tt
  | None => ret tt
  end.

(** Lines 140-143. *)
Definition sendToChannel (channel : string) (message : message_value) : M unit :=
  logChannel "Publishing message to channel" channel (Reference message) ;;
  broadcastToChannel channel message.

(** Lines 151-161 and 204-213: the time stamp read off a client id. *)
Definition extractTimestamp (clientId : string) : option Z :=
  match last_part (split "-" clientId) with
  | Some lastPart =>
      match parseInt lastPart with
      | Some parsed => if (0 <? parsed)%Z then Some parsed else None
      | None => None
      end
  | None => None
  end.

(** Lines 163, 169 and 215, 220: [new Date(timestamp)] is made for a
    truthy [timestamp], and [toISOString] throws a [RangeError] on an
    invalid date, one whose time value is beyond [max_time_value]. *)
Definition connectedAtOf (timestamp : option Z) : M (option string) :=
  match timestamp with
  | Some t =>
      if (t =? 0)%Z then ret None
      else if (Z.abs t <=? max_time_value)%Z then ret (Some (toISOString t))
      else throw (Error "RangeError" "Invalid time value")
  | None => ret None
  end.

(** Lines 148-172. *)
Definition extractClientInfo (clientInfo : ClientInfo.t) : M ClientView.t :=
  let timestamp := extractTimestamp (ClientInfo.clientId clientInfo) in
  connectedAt <- connectedAtOf timestamp ;;
  ret (ClientView.Make (ClientInfo.clientId clientInfo) (ClientInfo.channel clientInfo)
         (ClientInfo.ip clientInfo) connectedAt timestamp).

(** [xs.forEach(x => { ...; clients.push(view) })]: the views pushed, in
    order. *)
Fixpoint collect {A B} (xs : list A) (body : A -> M (option B)) : M (list B) :=
  match xs with
  | [] => ret []
  | x :: xs' =>
      pushed <- body x ;;
      others <- collect xs' body ;;
      ret (match pushed with Some b => b :: others | None => others end)
  end.

(** Lines 178-183: the callback of [channelClients.forEach]. *)
Definition pushClient (res : response) : M (option ClientView.t) :=
  clientInfo <- gets (fun r => JsMap.get res (clientMap r)) ;;
  match clientInfo with
  | Some clientInfo => view <- extractClientInfo clientInfo ;; ret (Some view)
  | None => ret None
  end.

(** Lines 145-193; [channel] is [None] for [null]. *)
Definition getConnectedClients (channel : option string) : M (list ClientView.t) :=
  match channel with
  | Some (String c s) =>
      channelClients <- gets (fun r => JsMap.get (String c s) (channels r)) ;;
      match channelClients with
      | Some channelClients => collect channelClients pushClient
      | None => ret []
      end
  | _ =>
      all <- gets clientMap ;;
      collect all (fun entry => view <- extractClientInfo (snd entry) ;; ret (Some view))
  end.

(** Lines 200-224: the callback of [channelClients.forEach]. *)
Definition pushStatsClient (res : response) : M (option StatsClient.t) :=
  clientInfo <- gets (fun r => JsMap.get res (clientMap r)) ;;
  match clientInfo with
  | Some clientInfo =>
      let timestamp := extractTimestamp (ClientInfo.clientId clientInfo) in
      connectedAt <- connectedAtOf timestamp ;;
      ret (Some (StatsClient.Make (ClientInfo.clientId clientInfo)
                   (ClientInfo.ip clientInfo) connectedAt timestamp))
  | None => ret None
  end.

(** Lines 195-233: [stats] starts as [{}] and gets one assignment for each
    entry of the channel index. *)
Fixpoint statsOf (chs : list (string * list response))
    (stats : StatsObject.t) : M StatsObject.t :=
  match chs with
  | [] => ret stats
  | (channel, channelClients) :: chs' =>
      clientList <- collect channelClients pushStatsClient ;;
      statsOf chs'
        (assign channel (ChannelStats.Make (JsSet.size channelClients) clientList) stats)
  end.

Definition getChannelStats : M StatsObject.t :=
  chs <- gets channels ;;
  statsOf chs (StatsObject.Make [] None).

End ChannelManager.

(** ** Sequences of operations *)

Inductive operation : Type :=
| Subscribe (channel : string) (res : response) (clientId ip : string)
| Unsubscribe (channel : string) (res : response)
| Broadcast (channel : string) (message : message_value).

(** One operation, with the behaviour of the response objects while it
    runs. *)
Definition run_operation (rewriteImageUrls : value -> value)
    (JSON_stringify : object -> string) (step : transport * operation) : M unit :=
  match snd step with
  | Subscribe channel res clientId ip => subscribeClient (fst step) channel res clientId ip
  | Unsubscribe channel res => unsubscribeClient channel res
  | Broadcast channel message =>
      sendToChannel rewriteImageUrls JSON_stringify (fst step) channel message
  end.

Definition run_operations (rewriteImageUrls : value -> value)
    (JSON_stringify : object -> string) (steps : list (transport * operation)) : M unit :=
  forEach steps (run_operation rewriteImageUrls JSON_stringify).

(** ** What the trace says *)

(** Whether a call on a response object throws. *)
Definition throws (result : option error) : bool :=
  match result with Some _ => true | None => false end.

(** The calls of [res.write], whether they returned or threw. *)
Definition write_attempt (e : event) : option (response * string) :=
  match e with
  | Write res chunk => Some (res, chunk)
  | WriteThrew res chunk _ => Some (res, chunk)
  | _ => None
  end.

(** The calls of [res.write] that returned: what the client received. *)
Definition write_done (e : event) : option (response * string) :=
  match e with
  | Write res chunk => Some (res, chunk)
  | _ => None
  end.

(** The calls of [res.destroy], whether they returned or threw. *)
Definition destroy_call (e : event) : option response :=
  match e with
  | Destroy res => Some res
  | DestroyThrew res _ => Some res
  | _ => None
  end.

(** The calls of [rewriteImageUrls]. *)
Definition rewrite_call (e : event) : option value :=
  match e with
  | RewriteImageUrls view => Some view
  | _ => None
  end.

(** The chunk written for a message object. *)
Definition sse_chunk (JSON_stringify : object -> string) (o : object) : string :=
  "data: " +:+ JSON_stringify o +:+ LF +:+ LF.

(** The chunk written for a message, in the store [h]. *)
Definition message_chunk (JSON_stringify : object -> string) (h : gmap loc object)
    (message : message_value) : string :=
  "data: " +:+ JSON_text JSON_stringify h message +:+ LF +:+ LF.

(** ** The invariants of the data model, in the words of the specification *)

(** Invariant 1: a subscriber is in the set of its own channel or in none,
    never in the set of another channel. *)
Definition invariant1 (r : registry) : Prop :=
  forall res info channel clients,
    JsMap.get res (clientMap r) = Some info ->
    JsMap.get channel (channels r) = Some clients ->
    res ∈ clients ->
    channel = ClientInfo.channel info.

(** Invariant 2: a subscriber is in the address binding of its own source
    address or in none. *)
Definition invariant2 (r : registry) : Prop :=
  forall res info ip conns connInfo,
    JsMap.get res (clientMap r) = Some info ->
    JsMap.get ip (ipConnections r) = Some conns ->
    connInfo ∈ conns ->
    ConnInfo.res connInfo = res ->
    ip = ClientInfo.ip info.

(** The address binding holds the currently active subscribers of an
    address: each member has a metadata record. *)
Definition binding_members_active (r : registry) : Prop :=
  forall ip conns connInfo,
    JsMap.get ip (ipConnections r) = Some conns ->
    connInfo ∈ conns ->
    is_Some (JsMap.get (ConnInfo.res connInfo) (clientMap r)).

(** Invariant 3: a channel has an entry exactly when it has subscribers;
    an entry is never empty. *)
Definition invariant3 (r : registry) : Prop :=
  forall channel clients,
    JsMap.get channel (channels r) = Some clients -> clients <> [].

(** A client id whose time stamp, if it has one, is a valid time value. *)
Definition valid_clientId (clientId : string) : Prop :=
  match extractTimestamp clientId with
  | Some t => (Z.abs t <= max_time_value)%Z
  | None => True
  end.

(** ** Sample data *)

Module Sample.
(** A transformer that marks the strings it has seen. *)
Definition rewrite (v : value) : value :=
  match v with
  | VString s => VString ("/proxy?url=" +:+ s)
  | _ => v
  end.

(** A serializer that shows the type and the view of a message. *)
Definition stringify (o : object) : string :=
  match prop "type" o, prop "view" o with
  | VString t, VString v => t +:+ ":" +:+ v
  | VString t, _ => t
  | _, _ => "{}"
  end.

Definition iso (t : Z) : string := "@" +:+ pretty t.

(** Every call on a response object returns. *)
Definition healthy : transport :=
  Transport (fun _ _ => None) (fun _ => false) (fun _ => None).

(** The writes on response [1] throw, [destroy] throws on all. *)
Definition broken1 : transport :=
  Transport
    (fun res _ => if decide (res = 1%nat) then Some (Error "Error" "write after end") else None)
    (fun _ => false)
    (fun _ => Some (Error "Error" "socket gone")).

Definition view_message : object :=
  [("type", VString "initial_view"); ("view", VString "a.png"); ("id", VNumber 7)].

Definition bare_view_message : object :=
  [("type", VString "view_change"); ("view", VString "")].

Definition ping_message : object :=
  [("type", VString "ping"); ("view", VString "a.png")].

(** The start: no subscriber, three message objects in the store. *)
Definition start : world :=
  World empty_registry
    (<[0%nat := view_message]> (<[1%nat := bare_view_message]> (<[2%nat := ping_message]> ∅)))
    [].

Definition after (steps : list (transport * operation)) : world :=
  snd (run_operations rewrite stringify steps start).

(** One subscriber on "news". *)
Definition one : world :=
  after [(healthy, Subscribe "news" 1%nat "10.0.0.1-1700000000000" "10.0.0.1")].

(** Two subscribers on "news", from two addresses. *)
Definition two : world :=
  after [(healthy, Subscribe "news" 1%nat "10.0.0.1-1700000000000" "10.0.0.1");
         (healthy, Subscribe "news" 2%nat "10.0.0.2-1700000000001" "10.0.0.2")].

(** A subscriber on "news", then one from the same address on "sport". *)
Definition moved : world :=
  after [(healthy, Subscribe "news" 1%nat "10.0.0.1-1700000000000" "10.0.0.1");
         (healthy, Subscribe "sport" 2%nat "10.0.0.1-1700000000001" "10.0.0.1")].

(** One subscriber on "news" whose write throws during a broadcast of
    the view message. *)
Definition dropped : world :=
  after [(healthy, Subscribe "news" 1%nat "10.0.0.1-1700000000000" "10.0.0.1");
         (broken1, Broadcast "news" 0%nat)].

(** Two subscribers on "news"; the write to the first throws during a
    broadcast of the view message. *)
Definition half_sent : world :=
  after [(healthy, Subscribe "news" 1%nat "10.0.0.1-1700000000000" "10.0.0.1");
         (healthy, Subscribe "news" 2%nat "10.0.0.2-1700000000001" "10.0.0.2");
         (broken1, Broadcast "news" 0%nat)].

(** The same, followed by a broadcast of the ping message. *)
Definition sent_again : world :=
  after [(healthy, Subscribe "news" 1%nat "10.0.0.1-1700000000000" "10.0.0.1");
         (healthy, Subscribe "news" 2%nat "10.0.0.2-1700000000001" "10.0.0.2");
         (broken1, Broadcast "news" 0%nat);
         (healthy, Broadcast "news" 2%nat)].

(** One subscriber whose client id ends in a number just beyond the
    largest time value. *)
Definition late : world :=
  after [(healthy, Subscribe "news" 1%nat "10.0.0.1-8640000000000001" "10.0.0.1")].

(** The subscriber of "news" has left. *)
Definition left : world :=
  after [(healthy, Subscribe "news" 1%nat "10.0.0.1-1700000000000" "10.0.0.1");
         (healthy, Unsubscribe "news" 1%nat)].

(** Then "news" gets a subscriber whose client id ends in a number just
    beyond the largest time value. *)
Definition back_late : world :=
  after [(healthy, Subscribe "news" 1%nat "10.0.0.1-1700000000000" "10.0.0.1");
         (healthy, Unsubscribe "news" 1%nat);
         (healthy, Subscribe "news" 2%nat "10.0.0.2-8640000000000001" "10.0.0.2")].

(** Channels "news" (left empty by an eviction), "sport", [__proto__] and
    "7", in that order. *)
Definition mixed : world :=
  after [(healthy, Subscribe "news" 1%nat "10.0.0.1-1700000000000" "10.0.0.1");
         (healthy, Subscribe "sport" 2%nat "10.0.0.1-1700000000001" "10.0.0.1");
         (healthy, Subscribe "__proto__" 3%nat "10.0.0.3-1700000000003" "10.0.0.3");
         (healthy, Subscribe "7" 4%nat "10.0.0.4-1700000000004" "10.0.0.4")].

(** The same life of a channel named [__proto__], with client ids that
    carry valid times. *)
Definition proto_one : world :=
  after [(healthy, Subscribe "__proto__" 1%nat "10.0.0.1-1700000000000" "10.0.0.1")].

Definition proto_left : world :=
  after [(healthy, Subscribe "__proto__" 1%nat "10.0.0.1-1700000000000" "10.0.0.1");
         (healthy, Unsubscribe "__proto__" 1%nat)].

Definition proto_back : world :=
  after [(healthy, Subscribe "__proto__" 1%nat "10.0.0.1-1700000000000" "10.0.0.1");
         (healthy, Unsubscribe "__proto__" 1%nat);
         (healthy, Subscribe "__proto__" 2%nat "10.0.0.2-1700000000001" "10.0.0.2")].
End Sample.

(** ** Requests served one after the other *)

(** Each operation is a task of its own: a throw ends the task, not the
    server, and the next operation finds the state the previous one left. *)
Definition serve (rewriteImageUrls : value -> value)
    (JSON_stringify : object -> string) (steps : list (transport * operation))
    (w : world) : world :=
  foldl (fun w step => snd (run_operation rewriteImageUrls JSON_stringify step w)) w steps.

(** Every client with a metadata record sits in the set of the channel its
    record names, and is the one binding of the address its record names. *)
Definition linked (r : registry) : Prop :=
  forall res info,
    JsMap.get res (clientMap r) = Some info ->
    (exists clients,
        JsMap.get (ClientInfo.channel info) (channels r) = Some clients
        /\ res ∈ clients)
    /\ JsMap.get (ClientInfo.ip info) (ipConnections r)
       = Some [ConnInfo.Make res (ClientInfo.channel info)].

(** Bindings are compared by what they hold. *)
#[global] Instance ConnInfo_eq_dec : EqDecision ConnInfo.t.
Proof. solve_decision. Defined.

(** The registration of a handler for ['close']. *)
Definition close_handler (e : event) : option (response * string) :=
  match e with
  | OnClose res channel => Some (res, channel)
  | _ => None
  end.

(** No key occurs twice: the list stands for a [Map]. *)
Definition unique_keys {K V : Type} (m : list (K * V)) : Prop := NoDup (map fst m).

(** The entry of a client in the statistics and in the list of clients,
    for a client id that [toISOString] accepts. *)
Definition stats_client (toISOString : Z -> string) (info : ClientInfo.t) : StatsClient.t :=
  StatsClient.Make (ClientInfo.clientId info) (ClientInfo.ip info)
    (toISOString <$> extractTimestamp (ClientInfo.clientId info))
    (extractTimestamp (ClientInfo.clientId info)).

(** The statistics of a channel whose set is [clients], for client ids
    that [toISOString] accepts: the size of the set, and the entries of the
    members that have a record. *)
Definition channel_stats (toISOString : Z -> string) (r : registry)
    (clients : list response) : ChannelStats.t :=
  ChannelStats.Make (JsSet.size clients)
    (omap (fun res => stats_client toISOString <$> JsMap.get res (clientMap r)) clients).

Definition client_view (toISOString : Z -> string) (info : ClientInfo.t) : ClientView.t :=
  ClientView.Make (ClientInfo.clientId info) (ClientInfo.channel info) (ClientInfo.ip info)
    (toISOString <$> extractTimestamp (ClientInfo.clientId info))
    (extractTimestamp (ClientInfo.clientId info)).

(** Every address that has a binding has exactly one. *)
Definition single_bindings (r : registry) : Prop :=
  forall ip conns, JsMap.get ip (ipConnections r) = Some conns -> length conns = 1%nat.

(** More sample data: the steps of [Sample.moved], served one after the
    other. *)
Module Served.
Definition steps : list (transport * operation) :=
  [(Sample.healthy, Subscribe "news" 1%nat "10.0.0.1-1700000000000" "10.0.0.1");
   (Sample.healthy, Subscribe "sport" 2%nat "10.0.0.1-1700000000001" "10.0.0.1")].
End Served.

(** * Properties *)

(** ** Maps and sets *)

Module JsMapFacts.
Section facts.
Context {K V : Type} `{EqDecision K}.
Implicit Types (k : K) (v : V) (m : list (K * V)).

Lemma get_set_eq k v m : JsMap.get k (JsMap.set k v m) = Some v.
  Proof.
    induction m as [|[k' v'] m IH]; simpl.
    - by rewrite decide_True.
    - destruct (decide (k = k')) as [->|Hne]; simpl.
      + by rewrite decide_True.
      + by rewrite decide_False.
  Qed.

Lemma get_set_ne k k' v m : k <> k' -> JsMap.get k' (JsMap.set k v m) = JsMap.get k' m.
  Proof.
    intros Hne. induction m as [|[k0 v0] m IH]; simpl.
    - rewrite decide_False; [done | congruence].
    - destruct (decide (k = k0)) as [->|Hk]; simpl.
      + rewrite !decide_False; [done | congruence | congruence].
      + destruct (decide (k' = k0)); [done | exact IH].
  Qed.

Lemma get_delete_eq k m : JsMap.get k (JsMap.delete k m) = None.
  Proof.
    induction m as [|[k' v'] m IH]; simpl; [done|].
    destruct (decide (k = k')); simpl; [done|].
    by rewrite decide_False.
  Qed.

Lemma get_delete_ne k k' m : k <> k' -> JsMap.get k' (JsMap.delete k m) = JsMap.get k' m.
  Proof.
    intros Hne. induction m as [|[k0 v0] m IH]; simpl; [done|].
    destruct (decide (k = k0)) as [->|Hk]; simpl.
    - rewrite decide_False; [done | congruence].
    - destruct (decide (k' = k0)); [done | exact IH].
  Qed.

Lemma get_delete_Some k k' v m :
    JsMap.get k' (JsMap.delete k m) = Some v -> k <> k' /\ JsMap.get k' m = Some v.
  Proof.
    destruct (decide (k = k')) as [->|Hne].
    - by rewrite get_delete_eq.
    - by rewrite get_delete_ne.
  Qed.

Lemma set_same k v m : JsMap.get k m = Some v -> JsMap.set k v m = m.
  Proof.
    induction m as [|[k' v'] m IH]; simpl; [done|].
    destruct (decide (k = k')) as [->|Hne].
    - by intros [= ->].
    - intros Hget. by rewrite IH.
  Qed.

Lemma delete_absent k m : JsMap.get k m = None -> JsMap.delete k m = m.
  Proof.
    induction m as [|[k' v'] m IH]; simpl; [done|].
    destruct (decide (k = k')); [done|].
    intros Hget. by rewrite IH.
  Qed.

Lemma set_absent k v m : JsMap.get k m = None -> JsMap.set k v m = (m ++ [(k, v)])%list.
  Proof.
    induction m as [|[k' v'] m IH]; simpl; [done|].
    destruct (decide (k = k')); [done|].
    intros Hget. by rewrite IH.
  Qed.

Lemma get_app k m1 m2 :
  JsMap.get k (m1 ++ m2) =
  match JsMap.get k m1 with Some v => Some v | None => JsMap.get k m2 end.
Proof.
  induction m1 as [|[k' v'] m1 IH]; simpl; [done|].
  by destruct (decide (k = k')).
Qed.

Lemma get_rev_None k m : JsMap.get k (rev m) = None <-> JsMap.get k m = None.
Proof.
  induction m as [|[k' v'] m IH]; simpl; [done|].
  rewrite get_app. simpl.
  destruct (decide (k = k')) as [->|Hne].
  - split; [|done]. by destruct (JsMap.get k' (rev m)).
  - rewrite <- IH. by destruct (JsMap.get k (rev m)).
Qed.

End facts.
End JsMapFacts.

Module JsSetFacts.
Section facts.
Context {A : Type} `{EqDecision A}.
Implicit Types (x y : A) (s : list A).

Lemma elem_of_delete x y s : y ∈ JsSet.delete x s <-> y ∈ s /\ y <> x.
  Proof.
    induction s as [|z s IH]; simpl.
    - split; [by intros ?%elem_of_nil | by intros [?%elem_of_nil _]].
    - destruct (decide (x = z)) as [->|Hne].
      + rewrite IH, elem_of_cons. naive_solver.
      + rewrite !elem_of_cons, IH. naive_solver.
  Qed.

Lemma not_elem_of_delete x s : x ∉ JsSet.delete x s.
  Proof. rewrite elem_of_delete. naive_solver. Qed.

Lemma delete_not_elem x s : x ∉ s -> JsSet.delete x s = s.
  Proof.
    induction s as [|z s IH]; simpl; [done|].
    intros Hnot. apply not_elem_of_cons in Hnot as [Hne Hnot].
    rewrite decide_False by done. by rewrite IH.
  Qed.

Lemma elem_of_add x y s : y ∈ JsSet.add x s <-> y ∈ s \/ y = x.
  Proof.
    unfold JsSet.add, JsSet.has. case_bool_decide.
    - naive_solver.
    - rewrite elem_of_app, list_elem_of_singleton. naive_solver.
  Qed.
End facts.
End JsSetFacts.

(** ** Running the statements *)

Ltac run_step :=
  unfold bind, gets, ret, emit, throw, try_catch, logChannel, console_error,
    set_channels, set_clientMap, set_ipConnections, deref, alloc, get_heap; simpl.

Section Runs.
Variable rewriteImageUrls : value -> value.
Variable JSON_stringify : object -> string.
Variable env : transport.

(** The chunk of an object of the store is [sse_chunk] of it. *)
Lemma message_chunk_object (p : loc) pm h :
  h !! p = Some pm -> message_chunk JSON_stringify h p = sse_chunk JSON_stringify pm.
Proof. intros Hp. unfold message_chunk, JSON_text, sse_chunk. by rewrite Hp. Qed.

(** One delivery of [p], whose chunk is [chunk]: the call returns, the
    store and the address bindings are as before, one write was tried and
    no transformer called. *)
Lemma sendToClient_run channel (p : message_value) chunk res w :
  message_chunk JSON_stringify (heap w) p = chunk ->
  exists w' tr,
    sendToClient JSON_stringify env channel p res w = (Return tt, w')
    /\ heap w' = heap w
    /\ ipConnections (reg w') = ipConnections (reg w)
    /\ trace w' = (trace w ++ tr)%list
    /\ omap write_attempt tr = [(res, chunk)]
    /\ omap rewrite_call tr = []
    /\ omap write_done tr =
         (if throws (write env res chunk) then []
          else [(res, chunk)])
    /\ (forall r, JsMap.get r (clientMap (reg w')) =
          if throws (write env res chunk)
          then (if decide (res = r) then None else JsMap.get r (clientMap (reg w)))
          else JsMap.get r (clientMap (reg w)))
    /\ (forall c, JsMap.get c (channels (reg w')) =
          if throws (write env res chunk)
          then (if decide (channel = c) then JsSet.delete res <$> JsMap.get c (channels (reg w))
                else JsMap.get c (channels (reg w)))
          else JsMap.get c (channels (reg w))).
Proof.
  intros Hp. unfold sendToClient, res_write. unfold message_chunk in Hp. run_step. rewrite Hp.
  destruct (write env res _) as [err|] eqn:Hw; run_step.
  - destruct (JsMap.get res (clientMap (reg w))) as [info|] eqn:Hinfo; simpl;
      destruct (JsMap.get channel (channels (reg w))) as [cc|] eqn:Hcc; simpl;
      eexists _, _; (split; [reflexivity|]); simpl;
      (split; [reflexivity|]); (split; [reflexivity|]);
      (split; [rewrite <- ?app_assoc; reflexivity|]); simpl;
      (split; [reflexivity|]); (split; [reflexivity|]); (split; [reflexivity|]).
    all: split; [intros r; destruct (decide (res = r)) as [->|Hne];
                 [apply JsMapFacts.get_delete_eq | by apply JsMapFacts.get_delete_ne]|].
    all: intros c; destruct (decide (channel = c)) as [<-|Hne]; try done.
    + by rewrite JsMapFacts.get_set_eq, Hcc.
    + by rewrite JsMapFacts.get_set_ne.
    + by rewrite Hcc.
    + by rewrite JsMapFacts.get_set_eq, Hcc.
    + by rewrite JsMapFacts.get_set_ne.
    + by rewrite Hcc.
  - eexists _, _. split; [reflexivity|]. simpl. by repeat split.
Qed.

(** The whole loop of deliveries. *)
Lemma forEach_sendToClient_run channel (p : message_value) chunk clients w :
  message_chunk JSON_stringify (heap w) p = chunk ->
  exists w' tr,
    forEach clients (sendToClient JSON_stringify env channel p) w = (Return tt, w')
    /\ heap w' = heap w
    /\ ipConnections (reg w') = ipConnections (reg w)
    /\ trace w' = (trace w ++ tr)%list
    /\ omap write_attempt tr = map (fun res => (res, chunk)) clients
    /\ omap rewrite_call tr = []
    /\ omap write_done tr =
         map (fun res => (res, chunk))
           (filter (fun res => throws (write env res chunk) = false) clients).
Proof.
  revert w. induction clients as [|res clients IH]; intros w Hp.
  - exists w, []. simpl. rewrite app_nil_r. by repeat split.
  - destruct (sendToClient_run channel p chunk res w Hp)
      as (w1 & tr1 & Hrun1 & Hheap1 & Hip1 & Htr1 & Hwa1 & Hrw1 & Hwd1 & _).
    destruct (IH w1) as (w2 & tr2 & Hrun2 & Hheap2 & Hip2 & Htr2 & Hwa2 & Hrw2 & Hwd2);
      [by rewrite Hheap1|].
    exists w2, (tr1 ++ tr2)%list. simpl. unfold bind. rewrite Hrun1, Hrun2.
    split; [done|]. split; [congruence|]. split; [congruence|].
    split; [by rewrite Htr2, Htr1, app_assoc|].
    rewrite !omap_app, Hwa1, Hwa2, Hrw1, Hrw2, Hwd1, Hwd2.
    split; [done|]. split; [done|].
    rewrite filter_cons. destruct (throws _) eqn:Hth.
    + by rewrite decide_False.
    + by rewrite decide_True.
Qed.

(** What goes out for a message with the properties [msg]: the
    transformed copy for a view message with a truthy view, the message
    itself otherwise. *)
Lemma processMessage_run (message : message_value) msg w :
  processMessage rewriteImageUrls message msg w =
  if is_view_message msg && truthy (prop "view" msg)
  then (Return (Ref (fresh (dom (heap w)))),
        World (reg w)
          (<[fresh (dom (heap w)) := JsMap.set "view" (rewriteImageUrls (prop "view" msg)) msg]>
             (heap w))
          (trace w ++ [RewriteImageUrls (prop "view" msg)]))
  else (Return message, w).
Proof.
  unfold processMessage.
  destruct (is_view_message msg); [destruct (truthy _)|]; reflexivity.
Qed.

Lemma fresh_loc_unused (h : gmap loc object) : h !! fresh (dom h) = None.
Proof. apply not_elem_of_dom, is_fresh. Qed.

(** The broadcast, when the channel has an entry and the message is an
    object. *)
Lemma broadcastToChannel_run channel (message : loc) msg clients w :
  JsMap.get channel (channels (reg w)) = Some clients ->
  heap w !! message = Some msg ->
  exists w' tr,
    broadcastToChannel rewriteImageUrls JSON_stringify env channel message w = (Return tt, w')
    /\ ipConnections (reg w') = ipConnections (reg w)
    /\ trace w' = (trace w ++ tr)%list
    /\ (if is_view_message msg && truthy (prop "view" msg)
        then let copy := JsMap.set "view" (rewriteImageUrls (prop "view" msg)) msg in
             heap w' = <[fresh (dom (heap w)) := copy]> (heap w)
             /\ omap rewrite_call tr = [prop "view" msg]
             /\ omap write_attempt tr = map (fun res => (res, sse_chunk JSON_stringify copy)) clients
             /\ omap write_done tr =
                  map (fun res => (res, sse_chunk JSON_stringify copy))
                    (filter (fun res => throws (write env res (sse_chunk JSON_stringify copy)) = false)
                       clients)
        else heap w' = heap w
             /\ omap rewrite_call tr = []
             /\ omap write_attempt tr = map (fun res => (res, sse_chunk JSON_stringify msg)) clients
             /\ omap write_done tr =
                  map (fun res => (res, sse_chunk JSON_stringify msg))
                    (filter (fun res => throws (write env res (sse_chunk JSON_stringify msg)) = false)
                       clients)).
Proof.
  intros Hch Hmsg. unfold broadcastToChannel.
  unfold bind at 1. unfold gets at 1. simpl. rewrite Hch.
  unfold bind at 1. unfold properties_of, deref at 1. rewrite Hmsg.
  unfold bind at 1. rewrite processMessage_run.
  destruct (is_view_message msg && truthy (prop "view" msg)) eqn:Hview.
  - set (copy := JsMap.set "view" _ msg).
    set (w1 := World _ _ _).
    destruct (forEach_sendToClient_run channel (Ref (fresh (dom (heap w))))
                (sse_chunk JSON_stringify copy) clients w1)
      as (w2 & tr & Hrun & Hheap & Hip & Htr & Hwa & Hrw & Hwd).
    { apply message_chunk_object. simpl. apply lookup_insert_eq. }
    exists w2, ([RewriteImageUrls (prop "view" msg)] ++ tr)%list.
    split; [exact Hrun|]. split; [exact Hip|].
    split; [by rewrite Htr; simpl; rewrite <- app_assoc|].
    split; [exact Hheap|]. rewrite !omap_app, Hrw, Hwa, Hwd. done.
  - destruct (forEach_sendToClient_run channel message (sse_chunk JSON_stringify msg) clients w
                (message_chunk_object message msg _ Hmsg))
      as (w2 & tr & Hrun & Hheap & Hip & Htr & Hwa & Hrw & Hwd).
    exists w2, tr. by repeat split.
Qed.

(** The exported entry point logs, then broadcasts. *)
Lemma sendToChannel_run channel (message : loc) msg clients w :
  JsMap.get channel (channels (reg w)) = Some clients ->
  heap w !! message = Some msg ->
  exists w' tr,
    sendToChannel rewriteImageUrls JSON_stringify env channel message w = (Return tt, w')
    /\ ipConnections (reg w') = ipConnections (reg w)
    /\ trace w' = (trace w ++ tr)%list
    /\ (if is_view_message msg && truthy (prop "view" msg)
        then let copy := JsMap.set "view" (rewriteImageUrls (prop "view" msg)) msg in
             heap w' = <[fresh (dom (heap w)) := copy]> (heap w)
             /\ omap rewrite_call tr = [prop "view" msg]
             /\ omap write_attempt tr = map (fun res => (res, sse_chunk JSON_stringify copy)) clients
             /\ omap write_done tr =
                  map (fun res => (res, sse_chunk JSON_stringify copy))
                    (filter (fun res => throws (write env res (sse_chunk JSON_stringify copy)) = false)
                       clients)
        else heap w' = heap w
             /\ omap rewrite_call tr = []
             /\ omap write_attempt tr = map (fun res => (res, sse_chunk JSON_stringify msg)) clients
             /\ omap write_done tr =
                  map (fun res => (res, sse_chunk JSON_stringify msg))
                    (filter (fun res => throws (write env res (sse_chunk JSON_stringify msg)) = false)
                       clients)).
Proof.
  intros Hch Hmsg. unfold sendToChannel, logChannel. unfold bind at 1, emit at 1.
  set (w0 := World (reg w) (heap w) _).
  destruct (broadcastToChannel_run channel message msg clients w0 Hch Hmsg)
    as (w' & tr & Hrun & Hip & Htr & Hcase).
  exists w', ([LogChannel "Publishing message to channel" channel (Reference message)] ++ tr)%list.
  split; [exact Hrun|]. split; [exact Hip|].
  split; [by rewrite Htr; simpl; rewrite <- app_assoc|].
  rewrite !omap_app. exact Hcase.
Qed.

(** Without an entry for the channel nothing happens but the log line. *)
Lemma sendToChannel_no_channel channel (message : message_value) w :
  JsMap.get channel (channels (reg w)) = None ->
  sendToChannel rewriteImageUrls JSON_stringify env channel message w =
  (Return tt,
   World (reg w) (heap w)
     (trace w ++ [LogChannel "Publishing message to channel" channel (Reference message)])).
Proof.
  intros Hch. unfold sendToChannel, broadcastToChannel. run_step. by rewrite Hch.
Qed.

(** A message whose property [type] cannot be read makes the broadcast
    throw, once the channel has an entry; the indexes and the store are as
    before. *)
Lemma sendToChannel_unreadable channel (message : message_value) clients e w :
  JsMap.get channel (channels (reg w)) = Some clients ->
  (forall w', properties_of message w' = (Throw e, w')) ->
  sendToChannel rewriteImageUrls JSON_stringify env channel message w =
  (Throw e,
   World (reg w) (heap w)
     (trace w ++ [LogChannel "Publishing message to channel" channel (Reference message)])).
Proof.
  intros Hch Hmsg.
  unfold sendToChannel, broadcastToChannel, logChannel, bind, emit, gets.
  cbn [reg heap trace]. rewrite Hch. by rewrite Hmsg.
Qed.

(** The message [undefined], also as a location that holds nothing. *)
Lemma sendToChannel_no_object channel (message : loc) clients w :
  JsMap.get channel (channels (reg w)) = Some clients ->
  heap w !! message = None ->
  sendToChannel rewriteImageUrls JSON_stringify env channel message w =
  (Throw (Error "TypeError" "Cannot read properties of undefined (reading 'type')"),
   World (reg w) (heap w)
     (trace w ++ [LogChannel "Publishing message to channel" channel (Reference message)])).
Proof.
  intros Hch Hmsg.
  unfold sendToChannel, broadcastToChannel, logChannel, bind, emit, gets, properties_of, deref.
  cbn [reg heap trace]. rewrite Hch. cbn [reg heap trace]. by rewrite Hmsg.
Qed.

(** A boolean, a number or a string goes out as it is: one write for each
    member, with its JSON text. *)
Lemma sendToChannel_primitive channel json clients w :
  JsMap.get channel (channels (reg w)) = Some clients ->
  exists w' tr,
    sendToChannel rewriteImageUrls JSON_stringify env channel (Primitive json) w = (Return tt, w')
    /\ heap w' = heap w
    /\ ipConnections (reg w') = ipConnections (reg w)
    /\ trace w' = (trace w ++ tr)%list
    /\ omap rewrite_call tr = []
    /\ omap write_attempt tr = map (fun res => (res, "data: " +:+ json +:+ LF +:+ LF)) clients
    /\ omap write_done tr =
         map (fun res => (res, "data: " +:+ json +:+ LF +:+ LF))
           (filter (fun res => throws (write env res ("data: " +:+ json +:+ LF +:+ LF)) = false)
              clients).
Proof.
  intros Hch. unfold sendToChannel, logChannel. unfold bind at 1, emit at 1.
  set (w0 := World (reg w) (heap w) _).
  unfold broadcastToChannel. unfold bind at 1. unfold gets at 1. cbn [reg w0]. rewrite Hch.
  unfold bind at 1. unfold properties_of, ret at 1.
  unfold bind at 1. rewrite processMessage_run. cbn [is_view_message prop JsMap.get andb].
  change (strict_eq_string VUndefined "initial_view" || strict_eq_string VUndefined "view_change")
    with false. cbn [andb].
  destruct (forEach_sendToClient_run channel (Primitive json)
              ("data: " +:+ json +:+ LF +:+ LF) clients w0 eq_refl)
    as (w2 & tr & Hrun & Hheap & Hip & Htr & Hwa & Hrw & Hwd).
  exists w2, ([LogChannel "Publishing message to channel" channel (Reference (Primitive json))]
                ++ tr)%list.
  split; [exact Hrun|]. split; [exact Hheap|]. split; [exact Hip|].
  split; [by rewrite Htr; simpl; rewrite <- app_assoc|].
  rewrite !omap_app. by repeat split.
Qed.

(** *** Subscribing *)

(** One connection of the address: [destroy] is called unless the flag is
    up, a throw is swallowed, and the handle leaves the set of the channel
    named in the binding and the metadata map. *)
Lemma closeExisting_run connInfo w :
  exists w' tr,
    closeExisting env connInfo w = (Return tt, w')
    /\ heap w' = heap w
    /\ ipConnections (reg w') = ipConnections (reg w)
    /\ trace w' = (trace w ++ tr)%list
    /\ omap destroy_call tr =
         (if destroyed env (ConnInfo.res connInfo) then [] else [ConnInfo.res connInfo])
    /\ (forall r, JsMap.get r (clientMap (reg w')) =
          if decide (ConnInfo.res connInfo = r) then None else JsMap.get r (clientMap (reg w)))
    /\ (forall c, JsMap.get c (channels (reg w')) =
          if decide (ConnInfo.channel connInfo = c)
          then JsSet.delete (ConnInfo.res connInfo) <$> JsMap.get c (channels (reg w))
          else JsMap.get c (channels (reg w))).
Proof.
  unfold closeExisting, res_destroy. run_step.
  destruct (destroyed env (ConnInfo.res connInfo)); simpl;
    [|destruct (destroy env (ConnInfo.res connInfo)); run_step];
    destruct (JsMap.get (ConnInfo.channel connInfo) (channels (reg w))) as [cc|] eqn:Hcc; simpl;
    eexists _, _; (split; [reflexivity|]); simpl;
    (split; [reflexivity|]); (split; [reflexivity|]);
    (split; [first [by rewrite app_nil_r | reflexivity]|]);
    (split; [reflexivity|]).
  all: split; [intros r; destruct (decide (ConnInfo.res connInfo = r)) as [->|Hne];
               [apply JsMapFacts.get_delete_eq | by apply JsMapFacts.get_delete_ne]|].
  all: intros c; destruct (decide (ConnInfo.channel connInfo = c)) as [<-|Hne];
    rewrite ?Hcc; try done.
  all: first [by rewrite JsMapFacts.get_set_eq | by rewrite JsMapFacts.get_set_ne].
Qed.

(** All the connections of the address. *)
Lemma forEach_closeExisting_run conns w :
  exists w' tr,
    forEach conns (closeExisting env) w = (Return tt, w')
    /\ heap w' = heap w
    /\ ipConnections (reg w') = ipConnections (reg w)
    /\ trace w' = (trace w ++ tr)%list
    /\ (forall r info, JsMap.get r (clientMap (reg w')) = Some info ->
          JsMap.get r (clientMap (reg w)) = Some info)
    /\ (forall c, JsMap.get c (channels (reg w')) = None <->
          JsMap.get c (channels (reg w)) = None).
Proof.
  revert w. induction conns as [|connInfo conns IH]; intros w.
  - exists w, []. simpl. rewrite app_nil_r. by repeat split.
  - destruct (closeExisting_run connInfo w)
      as (w1 & tr1 & Hrun1 & Hheap1 & Hip1 & Htr1 & _ & Hcm1 & Hch1).
    destruct (IH w1) as (w2 & tr2 & Hrun2 & Hheap2 & Hip2 & Htr2 & Hcm2 & Hch2).
    exists w2, (tr1 ++ tr2)%list. simpl. unfold bind. rewrite Hrun1, Hrun2.
    split; [done|]. split; [congruence|]. split; [congruence|].
    split; [by rewrite Htr2, Htr1, app_assoc|]. split.
    + intros r info Hget. apply Hcm2 in Hget. rewrite Hcm1 in Hget.
      by destruct (decide (ConnInfo.res connInfo = r)).
    + intros c. rewrite Hch2, Hch1.
      destruct (decide (ConnInfo.channel connInfo = c)); [|done].
      by destruct (JsMap.get c (channels (reg w))).
Qed.

(** The first half of [subscribeClient]: it returns, the address has no
    binding afterwards, and it creates no channel entry and no record. *)
Lemma closeSameIp_run channel clientId ip w :
  exists w' tr,
    closeSameIp env channel clientId ip w = (Return tt, w')
    /\ heap w' = heap w
    /\ trace w' = (trace w ++ tr)%list
    /\ JsMap.get ip (ipConnections (reg w')) = None
    /\ (forall a, a <> ip ->
          JsMap.get a (ipConnections (reg w')) = JsMap.get a (ipConnections (reg w)))
    /\ (forall r info, JsMap.get r (clientMap (reg w')) = Some info ->
          JsMap.get r (clientMap (reg w)) = Some info)
    /\ (forall c, JsMap.get c (channels (reg w')) = None <->
          JsMap.get c (channels (reg w)) = None).
Proof.
  unfold closeSameIp. unfold bind at 1, gets at 1.
  destruct (JsMap.get ip (ipConnections (reg w))) as [conns|] eqn:Hip.
  - unfold logChannel. unfold bind at 1, emit at 1. unfold bind at 1.
    set (w0 := World (reg w) (heap w) _).
    destruct (forEach_closeExisting_run conns w0)
      as (w1 & tr & Hrun & Hheap & Hips & Htr & Hcm & Hch).
    rewrite Hrun. unfold set_ipConnections. eexists _, _.
    split; [reflexivity|]. simpl. split; [exact Hheap|].
    split; [by rewrite Htr; simpl; rewrite <- app_assoc|].
    split; [apply JsMapFacts.get_delete_eq|].
    split; [|split; [exact Hcm | exact Hch]].
    intros a Hne. rewrite JsMapFacts.get_delete_ne by done. by rewrite Hips.
  - exists w, []. unfold ret. rewrite app_nil_r. by repeat split.
Qed.

(** The first half when the address has exactly one binding. *)
Lemma closeSameIp_single channel clientId ip connInfo w :
  JsMap.get ip (ipConnections (reg w)) = Some [connInfo] ->
  exists w' tr,
    closeSameIp env channel clientId ip w = (Return tt, w')
    /\ heap w' = heap w
    /\ trace w' = (trace w ++ tr)%list
    /\ omap destroy_call tr =
         (if destroyed env (ConnInfo.res connInfo) then [] else [ConnInfo.res connInfo])
    /\ JsMap.get ip (ipConnections (reg w')) = None
    /\ (forall r, JsMap.get r (clientMap (reg w')) =
          if decide (ConnInfo.res connInfo = r) then None else JsMap.get r (clientMap (reg w)))
    /\ (forall c, JsMap.get c (channels (reg w')) =
          if decide (ConnInfo.channel connInfo = c)
          then JsSet.delete (ConnInfo.res connInfo) <$> JsMap.get c (channels (reg w))
          else JsMap.get c (channels (reg w))).
Proof.
  intros Hip. unfold closeSameIp. unfold bind at 1, gets at 1. rewrite Hip.
  unfold logChannel. unfold bind at 1, emit at 1. unfold bind at 1.
  set (w0 := World (reg w) (heap w) _).
  destruct (closeExisting_run connInfo w0)
    as (w1 & tr & Hrun & Hheap & Hips & Htr & Hdc & Hcm & Hch).
  simpl forEach. unfold bind at 1. rewrite Hrun. unfold ret, set_ipConnections.
  eexists _, ([_] ++ tr)%list. split; [reflexivity|]. simpl.
  split; [exact Hheap|]. split; [by rewrite Htr; simpl; rewrite <- app_assoc|].
  split; [exact Hdc|]. split; [apply JsMapFacts.get_delete_eq|]. by split.
Qed.

(** The second half of [subscribeClient]. *)
Lemma register_run channel res clientId ip w :
  exists w' tr,
    register channel res clientId ip w = (Return tt, w')
    /\ heap w' = heap w
    /\ trace w' = (trace w ++ tr)%list
    /\ omap destroy_call tr = []
    /\ (forall c, JsMap.get c (channels (reg w')) =
          if decide (channel = c)
          then Some (JsSet.add res (default [] (JsMap.get c (channels (reg w)))))
          else JsMap.get c (channels (reg w)))
    /\ (forall r, JsMap.get r (clientMap (reg w')) =
          if decide (res = r) then Some (ClientInfo.Make clientId channel ip)
          else JsMap.get r (clientMap (reg w)))
    /\ (forall a, JsMap.get a (ipConnections (reg w')) =
          if decide (ip = a)
          then Some (default [] (JsMap.get a (ipConnections (reg w)))
                       ++ [ConnInfo.Make res channel])%list
          else JsMap.get a (ipConnections (reg w)))
    /\ (JsMap.get channel (channels (reg w)) = None ->
        channels (reg w') = (channels (reg w) ++ [(channel, [res])])%list).
Proof.
  unfold register. run_step. unfold JsMap.has.
  destruct (JsMap.get channel (channels (reg w))) as [cc|] eqn:Hcc;
    destruct (JsMap.get ip (ipConnections (reg w))) as [conns|] eqn:Hip; simpl;
    rewrite ?JsMapFacts.get_set_eq, ?Hcc, ?Hip; simpl;
    eexists _, _; (split; [reflexivity|]); simpl;
    (split; [reflexivity|]); (split; [rewrite <- ?app_assoc; reflexivity|]);
    (split; [reflexivity|]).
  all: split; [intros c; destruct (decide (channel = c)) as [<-|Hne];
    rewrite ?JsMapFacts.get_set_eq, ?Hcc; try done;
    by rewrite ?JsMapFacts.get_set_ne by done|].
  all: split; [intros r; destruct (decide (res = r)) as [<-|Hne];
    [by rewrite JsMapFacts.get_set_eq | by rewrite JsMapFacts.get_set_ne]|].
  all: split; [intros a; destruct (decide (ip = a)) as [<-|Hne];
    rewrite ?JsMapFacts.get_set_eq, ?Hip; try done;
    by rewrite ?JsMapFacts.get_set_ne by done|].
  all: try done.
  all: intros _; rewrite (JsMapFacts.set_absent channel [] _ Hcc).
  all: revert Hcc; clear; induction (channels (reg w)) as [|[k v] m IH]; simpl;
    [by rewrite decide_True | destruct (decide (channel = k)); [done | intros Hcc; by rewrite IH]].
Qed.

Lemma subscribeClient_returns channel res clientId ip w :
  fst (subscribeClient env channel res clientId ip w) = Return tt.
Proof.
  unfold subscribeClient, bind.
  destruct (closeSameIp_run channel clientId ip w) as (w1 & tr1 & Hrun1 & _).
  destruct (register_run channel res clientId ip w1) as (w2 & tr2 & Hrun2 & _).
  by rewrite Hrun1, Hrun2.
Qed.

(** *** Unsubscribing *)

Lemma unsubscribeClient_run channel res w :
  exists w',
    unsubscribeClient channel res w = (Return tt, w')
    /\ heap w' = heap w
    /\ (forall r info, JsMap.get r (clientMap (reg w')) = Some info ->
          JsMap.get r (clientMap (reg w)) = Some info)
    /\ (forall clients, JsMap.get channel (channels (reg w)) = Some clients ->
          JsMap.get channel (channels (reg w')) =
          if (JsSet.size (JsSet.delete res clients) =? 0)%nat then None
          else Some (JsSet.delete res clients))
    /\ (forall c, c <> channel ->
          JsMap.get c (channels (reg w')) = JsMap.get c (channels (reg w))).
Proof.
  unfold unsubscribeClient. run_step.
  destruct (JsMap.get channel (channels (reg w))) as [clients|] eqn:Hcc; simpl.
  2: { exists w. by repeat split. }
  assert (Hother : forall c, c <> channel ->
            JsMap.get c (JsMap.set channel (JsSet.delete res clients) (channels (reg w)))
            = JsMap.get c (channels (reg w)))
    by (intros c Hne; by apply JsMapFacts.get_set_ne).
  assert (Hother' : forall c, c <> channel ->
            JsMap.get c (JsMap.delete channel
                           (JsMap.set channel (JsSet.delete res clients) (channels (reg w))))
            = JsMap.get c (channels (reg w)))
    by (intros c Hne; rewrite JsMapFacts.get_delete_ne by done; by apply Hother).
  destruct (JsMap.get res (clientMap (reg w))) as [info|] eqn:Hinfo; simpl.
  - destruct (String.eqb (ClientInfo.ip info) ""); simpl;
      [|destruct (JsMap.get (ClientInfo.ip info) (ipConnections (reg w))) as [conns|]; simpl;
        [destruct (JsSet.size (delete_first_res res conns) =? 0)%nat; simpl|]];
      destruct (JsSet.size (JsSet.delete res clients) =? 0)%nat eqn:Hsize; simpl;
      eexists; (split; [reflexivity|]); simpl; (split; [reflexivity|]);
      (split; [intros r i Hget; by apply JsMapFacts.get_delete_Some in Hget as [_ Hget]|]);
      (split; [|first [exact Hother' | exact Hother]]);
      intros ? [= <-]; rewrite Hsize;
      first [apply JsMapFacts.get_delete_eq | apply JsMapFacts.get_set_eq].
  - destruct (JsSet.size (JsSet.delete res clients) =? 0)%nat eqn:Hsize; simpl;
      eexists; (split; [reflexivity|]); simpl; (split; [reflexivity|]);
      (split; [intros r i Hget; by apply JsMapFacts.get_delete_Some in Hget as [_ Hget]|]);
      (split; [|first [exact Hother' | exact Hother]]);
      intros ? [= <-]; rewrite Hsize;
      first [apply JsMapFacts.get_delete_eq | apply JsMapFacts.get_set_eq].
Qed.

(** [unsubscribeClient] never leaves an empty channel entry behind. *)
Lemma unsubscribeClient_keeps_invariant3 channel res w :
  invariant3 (reg w) -> invariant3 (reg (snd (unsubscribeClient channel res w))).
Proof.
  intros Hinv. destruct (unsubscribeClient_run channel res w)
    as (w' & Hrun & _ & _ & Hch & Hother).
  rewrite Hrun. simpl. intros c clients' Hget.
  destruct (decide (c = channel)) as [->|Hne].
  - destruct (JsMap.get channel (channels (reg w))) as [clients|] eqn:Hcc.
    + rewrite (Hch _ eq_refl) in Hget.
      destruct (JsSet.delete res clients) as [|x xs]; simpl in Hget; [done|].
      by injection Hget as <-.
    + unfold unsubscribeClient in Hrun. revert Hrun. run_step. rewrite Hcc.
      intros [= <-]. by rewrite Hcc in Hget.
  - rewrite Hother in Hget by done. by apply (Hinv c).
Qed.

(** A broadcast never touches the address bindings. *)
Lemma sendToChannel_keeps_bindings channel (message : message_value) w :
  ipConnections (reg (snd (sendToChannel rewriteImageUrls JSON_stringify env channel message w)))
  = ipConnections (reg w).
Proof.
  destruct (JsMap.get channel (channels (reg w))) as [clients|] eqn:Hch.
  - destruct message as [message| | |json].
    + destruct (heap w !! message) as [msg|] eqn:Hmsg.
      * destruct (sendToChannel_run channel message msg clients w Hch Hmsg)
          as (w' & tr & Hrun & Hip & _).
        by rewrite Hrun.
      * by rewrite (sendToChannel_no_object _ _ clients).
    + by rewrite (sendToChannel_unreadable _ Undefined clients _ w Hch (fun w' => eq_refl)).
    + by rewrite (sendToChannel_unreadable _ Null clients _ w Hch (fun w' => eq_refl)).
    + destruct (sendToChannel_primitive channel json clients w Hch)
        as (w' & tr & Hrun & _ & Hip & _).
      by rewrite Hrun.
  - by rewrite sendToChannel_no_channel.
Qed.

End Runs.

(** ** The listings *)

Section Listings.
Variable toISOString : Z -> string.

(** The [connectedAt] of a client id that [toISOString] accepts. *)
Lemma connectedAtOf_valid clientId w :
  valid_clientId clientId ->
  connectedAtOf toISOString (extractTimestamp clientId) w =
  (Return (match extractTimestamp clientId with
           | Some t => if (t =? 0)%Z then None else Some (toISOString t)
           | None => None
           end), w).
Proof.
  unfold valid_clientId, connectedAtOf.
  destruct (extractTimestamp clientId) as [t|]; [|done].
  intros Hvalid. destruct (t =? 0)%Z; [done|].
  apply Z.leb_le in Hvalid. by rewrite Hvalid.
Qed.

(** The views of one channel are built without a throw when the client
    ids are valid; a listing changes nothing. *)
Lemma collect_stats_run clients w :
  (forall r info, JsMap.get r (clientMap (reg w)) = Some info ->
                  valid_clientId (ClientInfo.clientId info)) ->
  exists views, collect clients (pushStatsClient toISOString) w = (Return views, w).
Proof.
  intros Hvalid. induction clients as [|res clients IH]; simpl.
  - by exists [].
  - destruct IH as [views IH]. unfold bind at 1. unfold pushStatsClient at 1.
    unfold bind at 1, gets at 1.
    destruct (JsMap.get res (clientMap (reg w))) as [info|] eqn:Hinfo.
    + unfold bind at 1. rewrite (connectedAtOf_valid _ _ (Hvalid _ _ Hinfo)).
      unfold ret at 1. unfold bind. rewrite IH. by eexists.
    + unfold ret at 1. unfold bind. rewrite IH. by eexists.
Qed.

(** An assignment to [stats], property by property. *)
Lemma assign_property channel entry stats name :
  name <> "__proto__" ->
  JsMap.get name (StatsObject.properties (assign channel entry stats)) =
  if decide (channel = name) then Some entry
  else JsMap.get name (StatsObject.properties stats).
Proof.
  intros Hname. unfold assign.
  destruct (String.eqb_spec channel "__proto__") as [->|Hne]; simpl.
  - by rewrite decide_False.
  - destruct (decide (channel = name)) as [->|Hc].
    + apply JsMapFacts.get_set_eq.
    + by apply JsMapFacts.get_set_ne.
Qed.

(** No assignment creates a property named [__proto__]. *)
Lemma assign_no_proto_property channel entry stats :
  JsMap.get "__proto__" (StatsObject.properties (assign channel entry stats))
  = JsMap.get "__proto__" (StatsObject.properties stats).
Proof.
  unfold assign. destruct (String.eqb_spec channel "__proto__") as [->|Hne]; simpl; [done|].
  by apply JsMapFacts.get_set_ne.
Qed.

Lemma assign_prototype channel entry stats :
  StatsObject.prototype (assign channel entry stats)
  = if decide (channel = "__proto__") then Some entry else StatsObject.prototype stats.
Proof.
  unfold assign. destruct (decide (channel = "__proto__")) as [->|Hne]; [done|].
  by rewrite (proj2 (String.eqb_neq _ _) Hne).
Qed.

(** The statistics, when they are returned, list a channel other than
    [__proto__] with the size of its set, and only the channels of the
    index. *)
Lemma statsOf_counts chs acc w stats w' :
  statsOf toISOString chs acc w = (Return stats, w') ->
  forall channel,
    channel <> "__proto__" ->
    ChannelStats.clientCount <$> JsMap.get channel (StatsObject.properties stats) =
    match JsMap.get channel (rev chs) with
    | Some clients => Some (JsSet.size clients)
    | None => ChannelStats.clientCount <$> JsMap.get channel (StatsObject.properties acc)
    end.
Proof.
  revert acc w. induction chs as [|[c clients] chs IH]; intros acc w; simpl.
  - by intros [= -> _] channel.
  - unfold bind at 1.
    destruct (collect clients (pushStatsClient toISOString) w) as [[views|e] w1];
      [|discriminate].
    intros Hrun channel Hname. rewrite (IH _ _ Hrun channel Hname), JsMapFacts.get_app. simpl.
    destruct (JsMap.get channel (rev chs)); [done|].
    rewrite assign_property by done.
    destruct (decide (c = channel)) as [->|Hne].
    + by rewrite decide_True.
    + rewrite decide_False; [done | congruence].
Qed.

(** They never have a property named [__proto__]. *)
Lemma statsOf_no_proto_property chs acc w stats w' :
  statsOf toISOString chs acc w = (Return stats, w') ->
  JsMap.get "__proto__" (StatsObject.properties stats)
  = JsMap.get "__proto__" (StatsObject.properties acc).
Proof.
  revert acc w. induction chs as [|[c clients] chs IH]; intros acc w; simpl.
  - by intros [= -> _].
  - unfold bind at 1.
    destruct (collect clients (pushStatsClient toISOString) w) as [[views|e] w1];
      [|discriminate].
    intros Hrun. rewrite (IH _ _ Hrun). apply assign_no_proto_property.
Qed.

Lemma getChannelStats_counts w stats :
  fst (getChannelStats toISOString w) = Return stats ->
  forall channel,
    channel <> "__proto__" ->
    ChannelStats.clientCount <$> JsMap.get channel (StatsObject.properties stats) =
    JsSet.size <$> JsMap.get channel (rev (channels (reg w))).
Proof.
  unfold getChannelStats, bind, gets.
  destruct (statsOf toISOString (channels (reg w)) (StatsObject.Make [] None) w)
    as [out w'] eqn:Hrun.
  simpl. intros -> channel Hname. rewrite (statsOf_counts _ _ _ _ _ Hrun channel Hname).
  by destruct (JsMap.get channel (rev (channels (reg w)))).
Qed.

Lemma getChannelStats_no_proto_property w stats :
  fst (getChannelStats toISOString w) = Return stats ->
  JsMap.get "__proto__" (StatsObject.properties stats) = None.
Proof.
  unfold getChannelStats, bind, gets.
  destruct (statsOf toISOString (channels (reg w)) (StatsObject.Make [] None) w)
    as [out w'] eqn:Hrun.
  simpl. intros ->. by rewrite (statsOf_no_proto_property _ _ _ _ _ Hrun).
Qed.

(** The statistics are returned when the client ids are valid. *)
Lemma statsOf_returns chs acc w :
  (forall r info, JsMap.get r (clientMap (reg w)) = Some info ->
                  valid_clientId (ClientInfo.clientId info)) ->
  exists stats, statsOf toISOString chs acc w = (Return stats, w).
Proof.
  intros Hvalid. revert acc. induction chs as [|[c clients] chs IH]; intros acc; simpl.
  - by exists acc.
  - destruct (collect_stats_run clients w Hvalid) as [views Hviews].
    unfold bind. rewrite Hviews. apply IH.
Qed.

Lemma getChannelStats_returns w :
  (forall r info, JsMap.get r (clientMap (reg w)) = Some info ->
                  valid_clientId (ClientInfo.clientId info)) ->
  exists stats, getChannelStats toISOString w = (Return stats, w).
Proof.
  intros Hvalid. unfold getChannelStats, bind, gets.
  apply (statsOf_returns _ _ _ Hvalid).
Qed.

(** The view of a client, by what its id ends in. *)
Lemma extractClientInfo_cases info w :
  extractClientInfo toISOString info w =
  match extractTimestamp (ClientInfo.clientId info) with
  | None =>
      (Return (ClientView.Make (ClientInfo.clientId info) (ClientInfo.channel info)
                 (ClientInfo.ip info) None None), w)
  | Some t =>
      if (t <=? max_time_value)%Z
      then (Return (ClientView.Make (ClientInfo.clientId info) (ClientInfo.channel info)
                      (ClientInfo.ip info) (Some (toISOString t)) (Some t)), w)
      else (Throw (Error "RangeError" "Invalid time value"), w)
  end.
Proof.
  unfold extractClientInfo, extractTimestamp, connectedAtOf, bind, ret, throw.
  destruct (last_part _) as [lastPart|]; [|done].
  destruct (parseInt lastPart) as [parsed|]; [|done].
  destruct (0 <? parsed)%Z eqn:Hpos; [|done].
  apply Z.ltb_lt in Hpos.
  rewrite (proj2 (Z.eqb_neq parsed 0)) by lia.
  rewrite Z.abs_eq by lia.
  by destruct (parsed <=? max_time_value)%Z.
Qed.

End Listings.

(** ** Broadcast: what is sent, and to whom *)

(** The test of line 13, by the value of [type]. *)
Lemma is_view_message_true (msg : object) :
  is_view_message msg = true
  <-> prop "type" msg = VString "initial_view" \/ prop "type" msg = VString "view_change".
Proof.
  unfold is_view_message, strict_eq_string.
  destruct (prop "type" msg) as [| | | | |t| |]; simpl;
    try (split; [discriminate | intros [|]; discriminate]).
  rewrite orb_true_iff, !String.eqb_eq. split; (intros [Ht|Ht]; [left|right]; congruence).
Qed.

Lemma is_view_message_false (msg : object) :
  is_view_message msg = false
  <-> prop "type" msg <> VString "initial_view" /\ prop "type" msg <> VString "view_change".
Proof.
  rewrite <- not_true_iff_false, is_view_message_true. tauto.
Qed.

(** C5.  A broadcast of a message whose [type] is ['initial_view'] or
    ['view_change'] and whose [view] is truthy calls [rewriteImageUrls]
    once, on the [view], and tries one write per subscriber of the
    channel; each write carries the serialization of a copy whose [view]
    is [rewriteImageUrls] of the original [view] and whose other
    properties are those of the message.  A broadcast of a message of any
    other type tries one write per subscriber with the serialization of
    the message itself, and does not call [rewriteImageUrls]. *)
Theorem broadcast_transforms_view_messages
    (rewriteImageUrls : value -> value) (JSON_stringify : object -> string)
    (env : transport) (channel : string) (message : loc) (msg : object)
    (clients : list response) (w : world) :
  JsMap.get channel (channels (reg w)) = Some clients ->
  heap w !! message = Some msg ->
  exists tr,
    trace (snd (sendToChannel rewriteImageUrls JSON_stringify env channel message w))
      = (trace w ++ tr)%list
    /\ (prop "type" msg = VString "initial_view" \/ prop "type" msg = VString "view_change" ->
        truthy (prop "view" msg) = true ->
        exists copy,
          prop "view" copy = rewriteImageUrls (prop "view" msg)
          /\ (forall name, name <> "view" -> prop name copy = prop name msg)
          /\ omap write_attempt tr
             = map (fun res => (res, sse_chunk JSON_stringify copy)) clients
          /\ omap rewrite_call tr = [prop "view" msg])
    /\ (prop "type" msg <> VString "initial_view" ->
        prop "type" msg <> VString "view_change" ->
        omap write_attempt tr = map (fun res => (res, sse_chunk JSON_stringify msg)) clients
        /\ omap rewrite_call tr = []).
Proof.
  intros Hch Hmsg.
  destruct (sendToChannel_run rewriteImageUrls JSON_stringify env channel message msg clients w
              Hch Hmsg) as (w' & tr & Hrun & _ & Htr & Hcase).
  exists tr. rewrite Hrun. simpl. split; [exact Htr|]. split.
  - intros Hview%is_view_message_true Htruthy. rewrite Hview, Htruthy in Hcase. simpl in Hcase.
    destruct Hcase as (_ & Hrw & Hwa & _).
    exists (JsMap.set "view" (rewriteImageUrls (prop "view" msg)) msg).
    split; [|split; [|split; [exact Hwa | exact Hrw]]].
    + unfold prop. by rewrite JsMapFacts.get_set_eq.
    + intros name Hne. unfold prop. by rewrite JsMapFacts.get_set_ne.
  - intros Hinitial Hchange.
    rewrite (proj2 (is_view_message_false msg) (conj Hinitial Hchange)) in Hcase.
    simpl in Hcase. by destruct Hcase as (_ & Hrw & Hwa & _).
Qed.

Lemma broadcast_transforms_view_messages_witness :
  (exists tr,
     trace (snd (sendToChannel Sample.rewrite Sample.stringify Sample.broken1 "news" 0%nat
                   Sample.two))
       = (trace Sample.two ++ tr)%list
     /\ exists copy,
          prop "view" copy = VString "/proxy?url=a.png"
          /\ prop "type" copy = VString "initial_view"
          /\ prop "id" copy = VNumber 7
          /\ omap write_attempt tr
             = [(1%nat, sse_chunk Sample.stringify copy); (2%nat, sse_chunk Sample.stringify copy)]
          /\ omap rewrite_call tr = [VString "a.png"])
  /\ (exists tr,
        trace (snd (sendToChannel Sample.rewrite Sample.stringify Sample.broken1 "news" 2%nat
                      Sample.two))
          = (trace Sample.two ++ tr)%list
        /\ omap write_attempt tr
           = [(1%nat, sse_chunk Sample.stringify Sample.ping_message);
              (2%nat, sse_chunk Sample.stringify Sample.ping_message)]
        /\ omap rewrite_call tr = []).
Proof.
  assert (Hch : JsMap.get "news" (channels (reg Sample.two)) = Some [1%nat; 2%nat])
    by (vm_compute; reflexivity).
  assert (Hview : heap Sample.two !! 0%nat = Some Sample.view_message)
    by (vm_compute; reflexivity).
  assert (Hping : heap Sample.two !! 2%nat = Some Sample.ping_message)
    by (vm_compute; reflexivity).
  split.
  - destruct (broadcast_transforms_view_messages Sample.rewrite Sample.stringify Sample.broken1
                "news" 0%nat Sample.view_message [1%nat; 2%nat] Sample.two Hch Hview)
      as (tr & Htr & Hcopy & _).
    exists tr. split; [exact Htr|].
    destruct (Hcopy (or_introl eq_refl) eq_refl) as (copy & Hv & Hother & Hwa & Hrw).
    exists copy. split; [exact Hv|].
    split; [rewrite Hother; [reflexivity | discriminate]|].
    split; [rewrite Hother; [reflexivity | discriminate]|].
    split; [exact Hwa | exact Hrw].
  - destruct (broadcast_transforms_view_messages Sample.rewrite Sample.stringify Sample.broken1
                "news" 2%nat Sample.ping_message [1%nat; 2%nat] Sample.two Hch Hping)
      as (tr & Htr & _ & Hverbatim).
    exists tr. split; [exact Htr|].
    apply Hverbatim; discriminate.
Defined.

(** C10.  A view message ([initial_view] or [view_change]) whose [view] is
    not truthy goes out as it is: one write per subscriber with the
    serialization of the message itself, no call of [rewriteImageUrls],
    and no copy made in the store. *)
Theorem broadcast_view_message_without_view
    (rewriteImageUrls : value -> value) (JSON_stringify : object -> string)
    (env : transport) (channel : string) (message : loc) (msg : object)
    (clients : list response) (w : world) :
  JsMap.get channel (channels (reg w)) = Some clients ->
  heap w !! message = Some msg ->
  is_view_message msg = true ->
  truthy (prop "view" msg) = false ->
  exists tr,
    trace (snd (sendToChannel rewriteImageUrls JSON_stringify env channel message w))
      = (trace w ++ tr)%list
    /\ omap write_attempt tr = map (fun res => (res, sse_chunk JSON_stringify msg)) clients
    /\ omap rewrite_call tr = []
    /\ heap (snd (sendToChannel rewriteImageUrls JSON_stringify env channel message w)) = heap w.
Proof.
  intros Hch Hmsg Hview Htruthy.
  destruct (sendToChannel_run rewriteImageUrls JSON_stringify env channel message msg clients w
              Hch Hmsg) as (w' & tr & Hrun & _ & Htr & Hcase).
  rewrite Hview, Htruthy in Hcase. simpl in Hcase.
  destruct Hcase as (Hheap & Hrw & Hwa & _).
  exists tr. rewrite Hrun. simpl. by repeat split.
Qed.

Lemma broadcast_view_message_without_view_witness :
  exists tr,
    trace (snd (sendToChannel Sample.rewrite Sample.stringify Sample.healthy "news" 1%nat
                  Sample.two))
      = (trace Sample.two ++ tr)%list
    /\ omap write_attempt tr
       = map (fun res => (res, sse_chunk Sample.stringify Sample.bare_view_message)) [1%nat; 2%nat]
    /\ omap rewrite_call tr = []
    /\ heap (snd (sendToChannel Sample.rewrite Sample.stringify Sample.healthy "news" 1%nat
                    Sample.two)) = heap Sample.two.
Proof.
  apply (broadcast_view_message_without_view Sample.rewrite Sample.stringify Sample.healthy
           "news" 1%nat Sample.bare_view_message [1%nat; 2%nat] Sample.two); reflexivity.
Defined.

(** C9.  A broadcast leaves every object of the store as it was, the
    caller's message among them; when the message is transformed, what is
    written is the serialization of a new object, at a location that was
    unused before. *)
Theorem broadcast_keeps_the_callers_message
    (rewriteImageUrls : value -> value) (JSON_stringify : object -> string)
    (env : transport) (channel : string) (message : loc) (w : world) :
  (forall l o,
      heap w !! l = Some o ->
      heap (snd (sendToChannel rewriteImageUrls JSON_stringify env channel message w)) !! l
        = Some o)
  /\ (forall msg clients,
        JsMap.get channel (channels (reg w)) = Some clients ->
        heap w !! message = Some msg ->
        is_view_message msg = true ->
        truthy (prop "view" msg) = true ->
        exists copy_loc tr,
          heap w !! copy_loc = None
          /\ heap (snd (sendToChannel rewriteImageUrls JSON_stringify env channel message w))
               !! copy_loc
             = Some (JsMap.set "view" (rewriteImageUrls (prop "view" msg)) msg)
          /\ trace (snd (sendToChannel rewriteImageUrls JSON_stringify env channel message w))
             = (trace w ++ tr)%list
          /\ omap write_attempt tr
             = map (fun res =>
                      (res, sse_chunk JSON_stringify
                              (JsMap.set "view" (rewriteImageUrls (prop "view" msg)) msg)))
                 clients).
Proof.
  split.
  - intros l o Hl.
    destruct (JsMap.get channel (channels (reg w))) as [clients|] eqn:Hch.
    + destruct (heap w !! message) as [msg|] eqn:Hmsg.
      * destruct (sendToChannel_run rewriteImageUrls JSON_stringify env channel message msg
                    clients w Hch Hmsg) as (w' & tr & Hrun & _ & _ & Hcase).
        rewrite Hrun. simpl.
        destruct (is_view_message msg && truthy (prop "view" msg)).
        -- destruct Hcase as (-> & _). rewrite lookup_insert_ne; [done|].
           intros Heq. rewrite <- Heq, fresh_loc_unused in Hl. done.
        -- destruct Hcase as (-> & _). done.
      * by rewrite (sendToChannel_no_object _ _ _ _ _ clients).
    + by rewrite sendToChannel_no_channel.
  - intros msg clients Hch Hmsg Hview Htruthy.
    destruct (sendToChannel_run rewriteImageUrls JSON_stringify env channel message msg
                clients w Hch Hmsg) as (w' & tr & Hrun & _ & Htr & Hcase).
    rewrite Hview, Htruthy in Hcase. simpl in Hcase.
    destruct Hcase as (Hheap & _ & Hwa & _).
    exists (fresh (dom (heap w))), tr. rewrite Hrun. simpl.
    split; [apply fresh_loc_unused|]. split; [|by split].
    rewrite Hheap. apply lookup_insert_eq.
Qed.

Lemma broadcast_keeps_the_callers_message_witness :
  heap Sample.two !! 0%nat = Some Sample.view_message
  /\ heap (snd (sendToChannel Sample.rewrite Sample.stringify Sample.broken1 "news" 0%nat
                  Sample.two)) !! 0%nat
     = Some Sample.view_message.
Proof.
  split; [reflexivity|].
  apply (proj1 (broadcast_keeps_the_callers_message Sample.rewrite Sample.stringify
                  Sample.broken1 "news" 0%nat Sample.two)).
  reflexivity.
Defined.

(** ** No operation throws *)

(** C6, as the code has it.  [subscribeClient], [unsubscribeClient] and
    [sendToChannel] return: whatever the state, the channel, the handle
    and the behaviour of the response objects (writes and closes that
    throw included), and for every message other than [undefined] and
    [null] (an object of the store, a boolean, a number or a string), none
    of them ends in a throw. *)
Theorem operations_return
    (rewriteImageUrls : value -> value) (JSON_stringify : object -> string)
    (env : transport) (w : world) (channel : string) (res : response)
    (clientId ip : string) (message : message_value) :
  message <> Undefined ->
  message <> Null ->
  (forall l : loc, message = Ref l -> is_Some (heap w !! l)) ->
  fst (subscribeClient env channel res clientId ip w) = Return tt
  /\ fst (unsubscribeClient channel res w) = Return tt
  /\ fst (sendToChannel rewriteImageUrls JSON_stringify env channel message w) = Return tt.
Proof.
  intros Hundefined Hnull Hobject. split; [apply subscribeClient_returns|]. split.
  - destruct (unsubscribeClient_run channel res w) as (w' & Hrun & _). by rewrite Hrun.
  - destruct (JsMap.get channel (channels (reg w))) as [clients|] eqn:Hch.
    + destruct message as [l| | |json]; [|done|done|].
      * destruct (Hobject l eq_refl) as [msg Hmsg].
        destruct (sendToChannel_run rewriteImageUrls JSON_stringify env channel l msg
                    clients w Hch Hmsg) as (w' & tr & Hrun & _).
        by rewrite Hrun.
      * destruct (sendToChannel_primitive rewriteImageUrls JSON_stringify env channel json
                    clients w Hch) as (w' & tr & Hrun & _).
        by rewrite Hrun.
    + by rewrite sendToChannel_no_channel.
Qed.

Lemma operations_return_witness :
  (fst (subscribeClient Sample.broken1 "sport" 3%nat "10.0.0.1-1700000000002" "10.0.0.1"
          Sample.two) = Return tt
   /\ fst (unsubscribeClient "sport" 3%nat Sample.two) = Return tt
   /\ fst (sendToChannel Sample.rewrite Sample.stringify Sample.broken1 "sport" 0%nat
             Sample.two) = Return tt)
  /\ (fst (subscribeClient Sample.broken1 "news" 1%nat "10.0.0.1-1700000000002" "10.0.0.1"
             Sample.two) = Return tt
      /\ fst (unsubscribeClient "news" 1%nat Sample.two) = Return tt
      /\ fst (sendToChannel Sample.rewrite Sample.stringify Sample.broken1 "news" 0%nat
                Sample.two) = Return tt)
  /\ (fst (subscribeClient Sample.broken1 "news" 1%nat "10.0.0.1-1700000000002" "10.0.0.1"
             Sample.two) = Return tt
      /\ fst (unsubscribeClient "news" 1%nat Sample.two) = Return tt
      /\ fst (sendToChannel Sample.rewrite Sample.stringify Sample.broken1 "news"
                (Primitive "42") Sample.two) = Return tt).
Proof.
  assert (Hobject : forall l : loc, Ref 0%nat = Ref l -> is_Some (heap Sample.two !! l)).
  { intros l [= <-]. exists Sample.view_message. vm_compute. reflexivity. }
  split; [|split].
  - apply (operations_return Sample.rewrite Sample.stringify Sample.broken1 Sample.two
             "sport" 3%nat "10.0.0.1-1700000000002" "10.0.0.1" 0%nat);
      [discriminate | discriminate | exact Hobject].
  - apply (operations_return Sample.rewrite Sample.stringify Sample.broken1 Sample.two
             "news" 1%nat "10.0.0.1-1700000000002" "10.0.0.1" 0%nat);
      [discriminate | discriminate | exact Hobject].
  - apply (operations_return Sample.rewrite Sample.stringify Sample.broken1 Sample.two
             "news" 1%nat "10.0.0.1-1700000000002" "10.0.0.1" (Primitive "42"));
      [discriminate | discriminate | discriminate].
Defined.

(** C6, as it is stated, fails.  With one subscriber on "news", a
    broadcast of [null] or of [undefined] to "news" ends in a [TypeError]:
    line 13 reads [message.type] outside every [try]. *)
Lemma broadcast_of_null_throws :
  JsMap.get "news" (channels (reg Sample.one)) = Some [1%nat]
  /\ fst (sendToChannel Sample.rewrite Sample.stringify Sample.healthy "news" Null Sample.one)
     = Throw (Error "TypeError" "Cannot read properties of null (reading 'type')")
  /\ fst (sendToChannel Sample.rewrite Sample.stringify Sample.healthy "news" Undefined
            Sample.one)
     = Throw (Error "TypeError" "Cannot read properties of undefined (reading 'type')")
  /\ ~ (forall rewriteImageUrls JSON_stringify env w channel message,
          fst (sendToChannel rewriteImageUrls JSON_stringify env channel message w) = Return tt).
Proof.
  assert (Hnull : fst (sendToChannel Sample.rewrite Sample.stringify Sample.healthy "news" Null
                         Sample.one)
                  = Throw (Error "TypeError" "Cannot read properties of null (reading 'type')"))
    by (vm_compute; reflexivity).
  split; [vm_compute; reflexivity|]. split; [exact Hnull|].
  split; [vm_compute; reflexivity|].
  intros Htotal.
  rewrite (Htotal Sample.rewrite Sample.stringify Sample.healthy Sample.one "news" Null) in Hnull.
  discriminate Hnull.
Qed.

(** ** One subscription per address *)

(** C3.  When the address [ip] has one subscriber [old] (one binding, one
    record), a subscription of another handle [res] from [ip] calls
    [destroy] on [old] unless it is closed already, returns even if that
    call throws, takes [old] out of the set of its channel, out of the
    metadata map and out of the binding, and leaves [res] as the only
    subscriber of [ip]. *)
Theorem subscribe_evicts_same_address
    (env : transport) (w : world) (channel : string) (res : response)
    (clientId ip : string) (old : response) (oldInfo : ClientInfo.t) :
  JsMap.get ip (ipConnections (reg w)) = Some [ConnInfo.Make old (ClientInfo.channel oldInfo)] ->
  JsMap.get old (clientMap (reg w)) = Some oldInfo ->
  (forall r info, JsMap.get r (clientMap (reg w)) = Some info ->
                  ClientInfo.ip info = ip -> r = old) ->
  res <> old ->
  exists w' tr,
    subscribeClient env channel res clientId ip w = (Return tt, w')
    /\ trace w' = (trace w ++ tr)%list
    /\ omap destroy_call tr = (if destroyed env old then [] else [old])
    /\ (old ∉ default [] (JsMap.get (ClientInfo.channel oldInfo) (channels (reg w'))))
    /\ JsMap.get old (clientMap (reg w')) = None
    /\ JsMap.get ip (ipConnections (reg w')) = Some [ConnInfo.Make res channel]
    /\ JsMap.get res (clientMap (reg w')) = Some (ClientInfo.Make clientId channel ip)
    /\ res ∈ default [] (JsMap.get channel (channels (reg w')))
    /\ (forall r info, JsMap.get r (clientMap (reg w')) = Some info ->
                       ClientInfo.ip info = ip -> r = res).
Proof.
  intros Hip Hold Honly Hne.
  destruct (closeSameIp_single env channel clientId ip _ w Hip)
    as (w1 & tr1 & Hrun1 & _ & Htr1 & Hdc1 & Hip1 & Hcm1 & Hch1).
  destruct (register_run channel res clientId ip w1)
    as (w2 & tr2 & Hrun2 & _ & Htr2 & Hdc2 & Hch2 & Hcm2 & Hip2 & _).
  simpl in Hdc1, Hcm1, Hch1.
  exists w2, (tr1 ++ tr2)%list. unfold subscribeClient, bind. rewrite Hrun1, Hrun2.
  split; [done|]. split; [by rewrite Htr2, Htr1, app_assoc|].
  split; [by rewrite omap_app, Hdc1, Hdc2, app_nil_r|].
  split.
  { rewrite Hch2, Hch1. destruct (decide (channel = ClientInfo.channel oldInfo)) as [->|Hc].
    - rewrite decide_True by done. simpl. rewrite JsSetFacts.elem_of_add.
      intros [Hin|Heq]; [|congruence].
      destruct (JsMap.get (ClientInfo.channel oldInfo) (channels (reg w))); simpl in Hin.
      + by apply JsSetFacts.not_elem_of_delete in Hin.
      + by apply elem_of_nil in Hin.
    - rewrite decide_True by done.
      destruct (JsMap.get (ClientInfo.channel oldInfo) (channels (reg w))); simpl.
      + apply JsSetFacts.not_elem_of_delete.
      + apply not_elem_of_nil. }
  split.
  { rewrite Hcm2, decide_False by done. rewrite Hcm1. by rewrite decide_True. }
  split.
  { rewrite Hip2, decide_True by done. by rewrite Hip1. }
  split.
  { rewrite Hcm2. by rewrite decide_True. }
  split.
  { rewrite Hch2, decide_True by done. simpl. apply JsSetFacts.elem_of_add. by right. }
  intros r info Hget Hinfo. rewrite Hcm2 in Hget.
  destruct (decide (res = r)) as [|Hr]; [done|].
  rewrite Hcm1 in Hget. destruct (decide (old = r)) as [|Ho]; [done|].
  exfalso. apply Ho. symmetry. by apply (Honly r info).
Qed.

Lemma subscribe_evicts_same_address_witness :
  exists w' tr,
    subscribeClient Sample.broken1 "sport" 3%nat "10.0.0.1-1700000000002" "10.0.0.1"
      Sample.two = (Return tt, w')
    /\ trace w' = (trace Sample.two ++ tr)%list
    /\ omap destroy_call tr = [1%nat]
    /\ (1%nat ∉ default [] (JsMap.get "news" (channels (reg w'))))
    /\ JsMap.get 1%nat (clientMap (reg w')) = None
    /\ JsMap.get "10.0.0.1" (ipConnections (reg w')) = Some [ConnInfo.Make 3%nat "sport"]
    /\ JsMap.get 3%nat (clientMap (reg w'))
       = Some (ClientInfo.Make "10.0.0.1-1700000000002" "sport" "10.0.0.1")
    /\ 3%nat ∈ default [] (JsMap.get "sport" (channels (reg w')))
    /\ (forall r info, JsMap.get r (clientMap (reg w')) = Some info ->
                       ClientInfo.ip info = "10.0.0.1" -> r = 3%nat).
Proof.
  apply (subscribe_evicts_same_address Sample.broken1 Sample.two "sport" 3%nat
           "10.0.0.1-1700000000002" "10.0.0.1" 1%nat
           (ClientInfo.Make "10.0.0.1-1700000000000" "news" "10.0.0.1")).
  - reflexivity.
  - reflexivity.
  - intros r info Hget Hinfo. vm_compute in Hget.
    destruct r as [|[|[|r]]]; try discriminate; [reflexivity|].
    injection Hget as <-. discriminate.
  - discriminate.
Defined.

(** ** Channels come and go with their subscribers *)

(** The life of a channel entry, where the statistics are returned.
    When channel [X], a name other than [__proto__], has the single
    subscriber [r] and [r] unsubscribes, [X] has no entry in the channel
    index and no property in any statistics returned; a subscription to
    [X] after that creates the entry anew, and any statistics returned
    give [X] the client count 1.  The statistics are returned, both times,
    when the client ids carry time stamps that [toISOString] accepts. *)
Lemma channel_entry_follows_last_subscriber
    (toISOString : Z -> string) (env : transport) (w : world) (X : string)
    (r res : response) (clientId ip : string) :
  X <> "__proto__" ->
  JsMap.get X (channels (reg w)) = Some [r] ->
  exists w1 w2,
    unsubscribeClient X r w = (Return tt, w1)
    /\ JsMap.get X (channels (reg w1)) = None
    /\ (forall stats1, fst (getChannelStats toISOString w1) = Return stats1 ->
                       JsMap.get X (StatsObject.properties stats1) = None)
    /\ subscribeClient env X res clientId ip w1 = (Return tt, w2)
    /\ JsMap.get X (channels (reg w2)) = Some [res]
    /\ (forall stats2, fst (getChannelStats toISOString w2) = Return stats2 ->
                       ChannelStats.clientCount <$> JsMap.get X (StatsObject.properties stats2)
                       = Some 1%nat)
    /\ ((forall r' info, JsMap.get r' (clientMap (reg w)) = Some info ->
                         valid_clientId (ClientInfo.clientId info)) ->
        valid_clientId clientId ->
        exists stats1 stats2,
          fst (getChannelStats toISOString w1) = Return stats1
          /\ fst (getChannelStats toISOString w2) = Return stats2).
Proof.
  intros Hname HX.
  destruct (unsubscribeClient_run X r w) as (w1 & Hrun1 & _ & Hcm1 & Hch1 & _).
  specialize (Hch1 _ HX). simpl in Hch1. rewrite decide_True in Hch1 by done.
  simpl in Hch1.
  destruct (closeSameIp_run env X clientId ip w1)
    as (wc & trc & Hrunc & _ & _ & _ & _ & Hcmc & Hchc).
  destruct (register_run X res clientId ip wc)
    as (w2 & tr2 & Hrun2 & _ & _ & _ & Hch2 & Hcm2 & _ & Happ).
  assert (HXc : JsMap.get X (channels (reg wc)) = None) by (by apply Hchc).
  exists w1, w2.
  split; [exact Hrun1|]. split; [exact Hch1|]. split.
  { intros stats1 Hstats1.
    pose proof (getChannelStats_counts toISOString w1 stats1 Hstats1 X Hname) as Hcount.
    apply JsMapFacts.get_rev_None in Hch1. rewrite Hch1 in Hcount.
    by destruct (JsMap.get X (StatsObject.properties stats1)). }
  split; [unfold subscribeClient, bind; by rewrite Hrunc, Hrun2|].
  split; [rewrite Hch2, decide_True by done; by rewrite HXc|].
  split.
  { intros stats2 Hstats2.
    rewrite (getChannelStats_counts toISOString w2 stats2 Hstats2 X Hname).
    rewrite (Happ HXc), rev_app_distr. simpl. by rewrite decide_True. }
  intros Hvalid Hid.
  assert (Hvalid1 : forall r' info, JsMap.get r' (clientMap (reg w1)) = Some info ->
                                    valid_clientId (ClientInfo.clientId info))
    by (intros r' info Hget; eapply Hvalid, Hcm1, Hget).
  assert (Hvalid2 : forall r' info, JsMap.get r' (clientMap (reg w2)) = Some info ->
                                    valid_clientId (ClientInfo.clientId info)).
  { intros r' info Hget. rewrite Hcm2 in Hget.
    destruct (decide (res = r')); [by injection Hget as <-|].
    eapply Hvalid1, Hcmc, Hget. }
  destruct (getChannelStats_returns toISOString w1 Hvalid1) as (stats1 & Hstats1).
  destruct (getChannelStats_returns toISOString w2 Hvalid2) as (stats2 & Hstats2).
  exists stats1, stats2. by rewrite Hstats1, Hstats2.
Qed.

(** C7.  The channel "news" has the single subscriber [1]; when [1] has
    unsubscribed, "news" has no entry and the statistics are empty; then
    handle [2] subscribes to "news" with a client id that ends in a number
    just beyond the largest time value: the entry is there again, and
    [getChannelStats] throws where it should give "news" the client
    count 1.  And on a channel named [__proto__] that has got its single
    subscriber again, the statistics are returned without any property:
    the assignment has set the prototype of the result. *)
Theorem statistics_after_resubscription_fail :
  (JsMap.get "news" (channels (reg Sample.one)) = Some [1%nat]
   /\ JsMap.get "news" (channels (reg Sample.left)) = None
   /\ fst (getChannelStats Sample.iso Sample.left) = Return (StatsObject.Make [] None)
   /\ JsMap.get "news" (channels (reg Sample.back_late)) = Some [2%nat]
   /\ fst (getChannelStats Sample.iso Sample.back_late)
      = Throw (Error "RangeError" "Invalid time value"))
  /\ (JsMap.get "__proto__" (channels (reg Sample.proto_one)) = Some [1%nat]
      /\ JsMap.get "__proto__" (channels (reg Sample.proto_left)) = None
      /\ JsMap.get "__proto__" (channels (reg Sample.proto_back)) = Some [2%nat]
      /\ fst (getChannelStats Sample.iso Sample.proto_back)
         = Return (StatsObject.Make []
                     (Some (ChannelStats.Make 1
                              [StatsClient.Make "10.0.0.2-1700000000001" "10.0.0.2"
                                 (Some (Sample.iso 1700000000001)) (Some 1700000000001%Z)])))
      /\ StatsObject.ownKeys
           (StatsObject.Make []
              (Some (ChannelStats.Make 1
                       [StatsClient.Make "10.0.0.2-1700000000001" "10.0.0.2"
                          (Some (Sample.iso 1700000000001)) (Some 1700000000001%Z)]))) = []).
Proof. repeat split; vm_compute; reflexivity. Qed.

(** ** Unsubscribing twice *)

(** C4, as the code has it.  When the handle has no metadata record and is
    not in the set of the named channel, and that channel has no entry or
    a non-empty one, [unsubscribeClient] changes nothing: the three maps
    (and the trace) are as before. *)
Theorem unsubscribe_unknown_handle_is_noop (channel : string) (res : response) (w : world) :
  JsMap.get res (clientMap (reg w)) = None ->
  (forall clients, JsMap.get channel (channels (reg w)) = Some clients ->
                   (res ∉ clients) /\ clients <> []) ->
  unsubscribeClient channel res w = (Return tt, w).
Proof.
  intros Hinfo Hclients. destruct w as [[chs cm ips] h tr]. simpl in *.
  unfold unsubscribeClient. run_step. rewrite Hinfo.
  destruct (JsMap.get channel chs) as [clients|] eqn:Hcc; [|done].
  destruct (Hclients clients eq_refl) as [Hnot Hne]. simpl.
  rewrite (JsSetFacts.delete_not_elem _ _ Hnot).
  destruct clients as [|c clients]; [done|]. simpl.
  by rewrite (JsMapFacts.set_same _ _ _ Hcc), (JsMapFacts.delete_absent _ _ Hinfo).
Qed.

Lemma unsubscribe_unknown_handle_is_noop_witness :
  unsubscribeClient "news" 3%nat Sample.two = (Return tt, Sample.two).
Proof.
  apply (unsubscribe_unknown_handle_is_noop "news" 3%nat Sample.two).
  - reflexivity.
  - intros clients Hget. vm_compute in Hget. injection Hget as <-.
    split; [|discriminate].
    intros Hin. apply list_elem_of_In in Hin. simpl in Hin. intuition discriminate.
Defined.

(** C4, as it is stated, fails.  After a client on "news" was evicted by
    a subscription from its address to "sport", handle [1] is in none of
    the three maps; yet unsubscribing it from "news" changes the channel
    index, which loses the empty entry of "news". *)
Lemma unsubscribe_unknown_handle_changes_index :
  reg Sample.moved
    = Registry [("news", []); ("sport", [2%nat])]
        [(2%nat, ClientInfo.Make "10.0.0.1-1700000000001" "sport" "10.0.0.1")]
        [("10.0.0.1", [ConnInfo.Make 2%nat "sport"])]
  /\ JsMap.get 1%nat (clientMap (reg Sample.moved)) = None
  /\ channels (reg (snd (unsubscribeClient "news" 1%nat Sample.moved)))
     = [("sport", [2%nat])]
  /\ reg (snd (unsubscribeClient "news" 1%nat Sample.moved)) <> reg Sample.moved
  /\ ~ (forall channel res w,
          JsMap.get res (clientMap (reg w)) = None ->
          reg (snd (unsubscribeClient channel res w)) = reg w).
Proof.
  split; [vm_compute; reflexivity|]. split; [vm_compute; reflexivity|].
  split; [vm_compute; reflexivity|].
  assert (Hchanged : reg (snd (unsubscribeClient "news" 1%nat Sample.moved))
                     <> reg Sample.moved) by (vm_compute; intros [=]).
  split; [exact Hchanged|].
  intros Hnoop. apply Hchanged, Hnoop. vm_compute. reflexivity.
Qed.

(** ** Deviations *)

(** C8.  A client id whose last part parses as a positive number beyond
    the largest time value gets no view at all: [toISOString] throws, and
    so do both listings. *)
Theorem connectedAt_beyond_time_values_throws :
  clientMap (reg Sample.late)
    = [(1%nat, ClientInfo.Make "10.0.0.1-8640000000000001" "news" "10.0.0.1")]
  /\ last_part (split "-" "10.0.0.1-8640000000000001") = Some "8640000000000001"
  /\ parseInt "8640000000000001" = Some 8640000000000001%Z
  /\ fst (getConnectedClients Sample.iso None Sample.late)
     = Throw (Error "RangeError" "Invalid time value")
  /\ fst (getConnectedClients Sample.iso (Some "news") Sample.late)
     = Throw (Error "RangeError" "Invalid time value")
  /\ fst (getChannelStats Sample.iso Sample.late)
     = Throw (Error "RangeError" "Invalid time value").
Proof. repeat split; vm_compute; reflexivity. Qed.

(** C1.  After a broadcast in which the write to the only subscriber of
    "news" throws, "news" keeps an entry with an empty set, and the
    binding of the address still holds the handle, which has no metadata
    record any more. *)
Theorem broadcast_failure_breaks_invariants :
  reg Sample.dropped
    = Registry [("news", [])] [] [("10.0.0.1", [ConnInfo.Make 1%nat "news"])]
  /\ ~ invariant3 (reg Sample.dropped)
  /\ ~ binding_members_active (reg Sample.dropped).
Proof.
  assert (Hreg : reg Sample.dropped
                 = Registry [("news", [])] [] [("10.0.0.1", [ConnInfo.Make 1%nat "news"])])
    by (vm_compute; reflexivity).
  split; [exact Hreg|]. rewrite Hreg. split.
  - intros Hinv. by apply (Hinv "news" [] eq_refl).
  - intros Hinv.
    destruct (Hinv "10.0.0.1" [ConnInfo.Make 1%nat "news"] (ConnInfo.Make 1%nat "news") eq_refl)
      as [info Hinfo]; [apply list_elem_of_here | discriminate Hinfo].
Qed.

(** The same state in the letter of invariants 1 and 2: no record is
    left, so no subscriber sits in a wrong set. *)
Lemma dropped_subscriber_has_no_record :
  invariant1 (reg Sample.dropped) /\ invariant2 (reg Sample.dropped).
Proof.
  assert (Hmap : clientMap (reg Sample.dropped) = []) by (vm_compute; reflexivity).
  split.
  - intros res info channel clients Hget. rewrite Hmap in Hget. discriminate Hget.
  - intros res info ip conns connInfo Hget. rewrite Hmap in Hget. discriminate Hget.
Qed.

(** The loop that closes the connections of an address leaves an empty
    entry as well, when the new subscription goes to another channel. *)
Lemma eviction_leaves_empty_channel : ~ invariant3 (reg Sample.moved).
Proof.
  assert (Hnews : JsMap.get "news" (channels (reg Sample.moved)) = Some [])
    by (vm_compute; reflexivity).
  intros Hinv. exact (Hinv "news" [] Hnews eq_refl).
Qed.

(** C2.  With subscribers [1] and [2] on "news" and a write to [1] that
    throws: [2] receives the transformed message, [1] leaves the set of the
    channel and the metadata map, and the next broadcast writes to [2]
    only; but [1] stays in the binding of its address. *)
Theorem broadcast_failure_leaves_binding :
  channels (reg Sample.two) = [("news", [1%nat; 2%nat])]
  /\ omap write_attempt (trace Sample.half_sent)
     = [(1%nat, sse_chunk Sample.stringify (JsMap.set "view" (VString "/proxy?url=a.png")
                                              Sample.view_message));
        (2%nat, sse_chunk Sample.stringify (JsMap.set "view" (VString "/proxy?url=a.png")
                                              Sample.view_message))]
  /\ omap write_done (trace Sample.half_sent)
     = [(2%nat, sse_chunk Sample.stringify (JsMap.set "view" (VString "/proxy?url=a.png")
                                              Sample.view_message))]
  /\ channels (reg Sample.half_sent) = [("news", [2%nat])]
  /\ clientMap (reg Sample.half_sent)
     = [(2%nat, ClientInfo.Make "10.0.0.2-1700000000001" "news" "10.0.0.2")]
  /\ ipConnections (reg Sample.half_sent)
     = [("10.0.0.1", [ConnInfo.Make 1%nat "news"]); ("10.0.0.2", [ConnInfo.Make 2%nat "news"])]
  /\ omap write_attempt (trace Sample.sent_again)
     = (omap write_attempt (trace Sample.half_sent)
          ++ [(2%nat, sse_chunk Sample.stringify Sample.ping_message)])%list.
Proof. repeat split; vm_compute; reflexivity. Qed.

(** * Further properties of the channel manager *)

Section Effects.
Variable rewriteImageUrls : value -> value.
Variable JSON_stringify : object -> string.
Variable env : transport.

(** *** What [unsubscribeClient] does to the three maps *)

Lemma unsubscribeClient_missing_channel channel res w :
  JsMap.get channel (channels (reg w)) = None ->
  unsubscribeClient channel res w = (Return tt, w).
Proof. intros Hcc. unfold unsubscribeClient. run_step. by rewrite Hcc. Qed.

Lemma unsubscribeClient_effect channel res clients w :
  JsMap.get channel (channels (reg w)) = Some clients ->
  exists w',
    unsubscribeClient channel res w = (Return tt, w')
    /\ heap w' = heap w
    /\ (forall r, JsMap.get r (clientMap (reg w')) =
          if decide (res = r) then None else JsMap.get r (clientMap (reg w)))
    /\ (forall c, JsMap.get c (channels (reg w')) =
          if decide (channel = c)
          then (if (JsSet.size (JsSet.delete res clients) =? 0)%nat then None
                else Some (JsSet.delete res clients))
          else JsMap.get c (channels (reg w)))
    /\ (forall a, JsMap.get a (ipConnections (reg w')) =
          match JsMap.get res (clientMap (reg w)) with
          | Some info =>
              if String.eqb (ClientInfo.ip info) "" then JsMap.get a (ipConnections (reg w))
              else
                match JsMap.get (ClientInfo.ip info) (ipConnections (reg w)) with
                | Some conns =>
                    if decide (ClientInfo.ip info = a)
                    then (if (JsSet.size (delete_first_res res conns) =? 0)%nat then None
                          else Some (delete_first_res res conns))
                    else JsMap.get a (ipConnections (reg w))
                | None => JsMap.get a (ipConnections (reg w))
                end
          | None => JsMap.get a (ipConnections (reg w))
          end)
    /\ trace w' =
         (trace w ++
          match JsMap.get res (clientMap (reg w)) with
          | Some info =>
              [LogChannel "Client unsubscribed" channel
                 (Literal [("clientId", VString (ClientInfo.clientId info));
                           ("ip", VString (ClientInfo.ip info));
                           ("remainingClients",
                            number_of_nat (JsSet.size (JsSet.delete res clients)))])]
          | None => []
          end)%list.
Proof.
  intros Hcc. unfold unsubscribeClient. run_step. rewrite Hcc. simpl.
  assert (Hrec : forall (m : list (response * ClientInfo.t)) r,
            JsMap.get r (JsMap.delete res m) = if decide (res = r) then None else JsMap.get r m).
  { intros m r. destruct (decide (res = r)) as [->|Hne].
    - apply JsMapFacts.get_delete_eq.
    - by apply JsMapFacts.get_delete_ne. }
  assert (Hset : forall c,
            JsMap.get c (JsMap.set channel (JsSet.delete res clients) (channels (reg w)))
            = if decide (channel = c) then Some (JsSet.delete res clients)
              else JsMap.get c (channels (reg w))).
  { intros c. destruct (decide (channel = c)) as [->|Hne].
    - apply JsMapFacts.get_set_eq.
    - by apply JsMapFacts.get_set_ne. }
  assert (Hdel : forall c,
            JsMap.get c (JsMap.delete channel
                           (JsMap.set channel (JsSet.delete res clients) (channels (reg w))))
            = if decide (channel = c) then None else JsMap.get c (channels (reg w))).
  { intros c. destruct (decide (channel = c)) as [->|Hne].
    - apply JsMapFacts.get_delete_eq.
    - rewrite JsMapFacts.get_delete_ne by done. by apply JsMapFacts.get_set_ne. }
  destruct (JsMap.get res (clientMap (reg w))) as [info|] eqn:Hinfo; simpl.
  - destruct (String.eqb (ClientInfo.ip info) "") eqn:Hip; simpl;
      [|destruct (JsMap.get (ClientInfo.ip info) (ipConnections (reg w))) as [conns|] eqn:Hconns;
        simpl;
        [destruct (JsSet.size (delete_first_res res conns) =? 0)%nat eqn:Hempty; simpl|]];
      destruct (JsSet.size (JsSet.delete res clients) =? 0)%nat eqn:Hsize; simpl;
      eexists; (split; [reflexivity|]); simpl; (split; [reflexivity|]);
      (split; [apply Hrec|]);
      (split; [intros c; rewrite ?Hdel, ?Hset; by destruct (decide (channel = c))|]);
      (split; [|by rewrite <- ?app_assoc]);
      try done.
    all: intros a; destruct (decide (ClientInfo.ip info = a)) as [<-|Hne].
    all: rewrite ?JsMapFacts.get_delete_eq, ?JsMapFacts.get_set_eq; try done.
    all: rewrite ?JsMapFacts.get_delete_ne by done; by rewrite JsMapFacts.get_set_ne.
  - destruct (JsSet.size (JsSet.delete res clients) =? 0)%nat eqn:Hsize; simpl;
      eexists; (split; [reflexivity|]); simpl; (split; [reflexivity|]);
      (split; [apply Hrec|]);
      (split; [intros c; rewrite ?Hdel, ?Hset; by destruct (decide (channel = c))|]);
      (split; [done|by rewrite app_nil_r]).
Qed.

(** A handle without record that is not in the set of the channel, when
    the channel has no entry or a non-empty one: nothing to do. *)
Lemma unsubscribeClient_nothing_to_do channel res w :
  JsMap.get res (clientMap (reg w)) = None ->
  (forall clients, JsMap.get channel (channels (reg w)) = Some clients ->
                   (res ∉ clients) /\ clients <> []) ->
  unsubscribeClient channel res w = (Return tt, w).
Proof.
  intros Hinfo Hclients. destruct w as [[chs cm ips] h tr]. simpl in *.
  unfold unsubscribeClient. run_step. rewrite Hinfo.
  destruct (JsMap.get channel chs) as [clients|] eqn:Hcc; [|done].
  destruct (Hclients clients eq_refl) as [Hnot Hne]. simpl.
  rewrite (JsSetFacts.delete_not_elem _ _ Hnot).
  destruct clients as [|c clients]; [done|]. simpl.
  by rewrite (JsMapFacts.set_same _ _ _ Hcc), (JsMapFacts.delete_absent _ _ Hinfo).
Qed.

(** *** What [subscribeClient] does to the three maps *)

Lemma filter_delete {A} `{EqDecision A} (P : A -> Prop) `{forall x, Decision (P x)}
    (x : A) (s : list A) :
  filter P (JsSet.delete x s) = filter (fun y => P y /\ y <> x) s.
Proof.
  induction s as [|y s IH]; simpl; [done|].
  destruct (decide (x = y)) as [->|Hne].
  - rewrite IH. rewrite (filter_cons_False (fun y0 => P y0 /\ y0 <> y)); [done|].
    by intros [_ ?].
  - rewrite !filter_cons, IH.
    destruct (decide (P y)).
    + rewrite decide_True; [done|]. split; [done|congruence].
    + rewrite decide_False; [done|]. by intros [? _].
Qed.

Lemma filter_all {A} (P : A -> Prop) `{forall x, Decision (P x)} (s : list A) :
  (forall x, x ∈ s -> P x) -> filter P s = s.
Proof.
  induction s as [|y s IH]; intros Hall; [done|].
  rewrite filter_cons_True by (apply Hall; left).
  rewrite IH; [done|]. intros x Hx. apply Hall. by right.
Qed.

Lemma filter_same {A} (P Q : A -> Prop) `{forall x, Decision (P x)}
    `{forall x, Decision (Q x)} (s : list A) :
  (forall x, x ∈ s -> P x <-> Q x) -> filter P s = filter Q s.
Proof.
  induction s as [|y s IH]; intros Hall; [done|].
  rewrite !filter_cons.
  assert (Hy : P y <-> Q y) by (apply Hall; left).
  rewrite IH by (intros x Hx; apply Hall; by right).
  destruct (decide (P y)), (decide (Q y)); tauto.
Qed.

(** Closing the connections [conns] of an address: their handles lose
    their records, each leaves the set of the channel its binding names,
    and nothing else changes; no write, no handler. *)
Lemma forEach_closeExisting_effect conns w :
  exists w',
    forEach conns (closeExisting env) w = (Return tt, w')
    /\ heap w' = heap w
    /\ ipConnections (reg w') = ipConnections (reg w)
    /\ (forall r, JsMap.get r (clientMap (reg w')) =
          if bool_decide (r ∈ map ConnInfo.res conns) then None
          else JsMap.get r (clientMap (reg w)))
    /\ (forall c, JsMap.get c (channels (reg w')) =
          filter (fun r => ConnInfo.Make r c ∉ conns) <$> JsMap.get c (channels (reg w)))
    /\ omap close_handler (trace w') = omap close_handler (trace w)
    /\ omap write_attempt (trace w') = omap write_attempt (trace w).
Proof.
  revert w. induction conns as [|[r0 c0] conns IH]; intros w.
  - exists w. simpl. unfold ret. repeat split; try done.
    intros c. destruct (JsMap.get c (channels (reg w))) as [s|]; [|done]. simpl.
    f_equal. symmetry. apply filter_all. intros x _. apply not_elem_of_nil.
  - assert (Hstep : exists w1,
        closeExisting env (ConnInfo.Make r0 c0) w = (Return tt, w1)
        /\ heap w1 = heap w
        /\ ipConnections (reg w1) = ipConnections (reg w)
        /\ (forall r, JsMap.get r (clientMap (reg w1)) =
              if decide (r0 = r) then None else JsMap.get r (clientMap (reg w)))
        /\ (forall c, JsMap.get c (channels (reg w1)) =
              if decide (c0 = c) then JsSet.delete r0 <$> JsMap.get c (channels (reg w))
              else JsMap.get c (channels (reg w)))
        /\ omap close_handler (trace w1) = omap close_handler (trace w)
        /\ omap write_attempt (trace w1) = omap write_attempt (trace w)).
    { destruct (closeExisting_run env (ConnInfo.Make r0 c0) w)
        as (w1 & tr & Hrun & Hheap & Hips & Htr & _ & Hcm & Hch).
      exists w1. repeat (split; [done|]).
      revert Hrun Htr. unfold closeExisting, res_destroy. run_step.
      destruct (destroyed env r0); simpl;
        [|destruct (destroy env r0); run_step];
        destruct (JsMap.get c0 (channels (reg w))); simpl;
        intros [= <-] _; simpl; by rewrite ?omap_app, ?app_nil_r. }
    destruct Hstep as (w1 & Hrun1 & Hheap1 & Hips1 & Hcm1 & Hch1 & Hh1 & Hw1).
    destruct (IH w1) as (w2 & Hrun2 & Hheap2 & Hips2 & Hcm2 & Hch2 & Hh2 & Hw2).
    exists w2. simpl. unfold bind. rewrite Hrun1, Hrun2.
    split; [done|]. split; [congruence|]. split; [congruence|].
    split; [|split; [|split; congruence]].
    + intros r. rewrite Hcm2, Hcm1. simpl.
      destruct (decide (r0 = r)) as [->|Hne].
      * rewrite (bool_decide_true (r ∈ r :: _)) by left. by case_bool_decide.
      * case_bool_decide as Hin; case_bool_decide as Hin'; try done.
        -- exfalso. apply Hin'. by right.
        -- exfalso. apply elem_of_cons in Hin' as [?|?]; [congruence|done].
    + intros c. rewrite Hch2, Hch1.
      destruct (decide (c0 = c)) as [->|Hne];
        destruct (JsMap.get c (channels (reg w))) as [s|]; simpl; try done; f_equal.
      * rewrite filter_delete. apply filter_same. intros x _.
        rewrite elem_of_cons. split.
        -- intros [Hnot Hx] [[= ?]|?]; [done|done].
        -- intros Hnot. split; [intros ?; apply Hnot; by right|].
           intros ->. apply Hnot. by left.
      * apply filter_same. intros x _. rewrite elem_of_cons. split.
        -- intros Hnot [[= ? ?]|?]; [congruence|done].
        -- intros Hnot ?. apply Hnot. by right.
Qed.

(** The second half registers the handler, once, and writes nothing. *)
Lemma register_trace channel res clientId ip w :
  omap close_handler (trace (snd (register channel res clientId ip w)))
    = (omap close_handler (trace w) ++ [(res, channel)])%list
  /\ omap write_attempt (trace (snd (register channel res clientId ip w)))
     = omap write_attempt (trace w).
Proof.
  unfold register. run_step. unfold JsMap.has.
  destruct (JsMap.get channel (channels (reg w))) as [cc|] eqn:Hcc;
    destruct (JsMap.get ip (ipConnections (reg w))) as [conns|] eqn:Hip; simpl;
    rewrite ?JsMapFacts.get_set_eq, ?Hcc, ?Hip; simpl;
    rewrite <- ?app_assoc, !omap_app; simpl; by rewrite ?app_nil_r.
Qed.

(** The result of [subscribeClient], map by map; [conns] are the bindings
    the address had. *)
Lemma subscribeClient_effect channel res clientId ip w :
  exists w',
    subscribeClient env channel res clientId ip w = (Return tt, w')
    /\ heap w' = heap w
    /\ (forall r, JsMap.get r (clientMap (reg w')) =
          if decide (res = r) then Some (ClientInfo.Make clientId channel ip)
          else if bool_decide
                    (r ∈ map ConnInfo.res (default [] (JsMap.get ip (ipConnections (reg w)))))
               then None
               else JsMap.get r (clientMap (reg w)))
    /\ (forall c, JsMap.get c (channels (reg w')) =
          let before :=
            filter (fun r => ConnInfo.Make r c
                             ∉ default [] (JsMap.get ip (ipConnections (reg w))))
              <$> JsMap.get c (channels (reg w)) in
          if decide (channel = c) then Some (JsSet.add res (default [] before)) else before)
    /\ (forall a, JsMap.get a (ipConnections (reg w')) =
          if decide (ip = a) then Some [ConnInfo.Make res channel]
          else JsMap.get a (ipConnections (reg w)))
    /\ omap close_handler (trace w') = (omap close_handler (trace w) ++ [(res, channel)])%list
    /\ omap write_attempt (trace w') = omap write_attempt (trace w).
Proof.
  assert (Hclose : exists w1,
      closeSameIp env channel clientId ip w = (Return tt, w1)
      /\ heap w1 = heap w
      /\ (forall r, JsMap.get r (clientMap (reg w1)) =
            if bool_decide
                 (r ∈ map ConnInfo.res (default [] (JsMap.get ip (ipConnections (reg w)))))
            then None else JsMap.get r (clientMap (reg w)))
      /\ (forall c, JsMap.get c (channels (reg w1)) =
            filter (fun r => ConnInfo.Make r c
                             ∉ default [] (JsMap.get ip (ipConnections (reg w))))
              <$> JsMap.get c (channels (reg w)))
      /\ (forall a, JsMap.get a (ipConnections (reg w1)) =
            if decide (ip = a) then None else JsMap.get a (ipConnections (reg w)))
      /\ omap close_handler (trace w1) = omap close_handler (trace w)
      /\ omap write_attempt (trace w1) = omap write_attempt (trace w)).
  { unfold closeSameIp. unfold bind at 1, gets at 1.
    destruct (JsMap.get ip (ipConnections (reg w))) as [conns|] eqn:Hip; simpl.
    - unfold logChannel. unfold bind at 1, emit at 1. unfold bind at 1.
      set (w0 := World (reg w) (heap w) _).
      destruct (forEach_closeExisting_effect conns w0)
        as (w1 & Hrun & Hheap & Hips & Hcm & Hch & Hh & Hw).
      rewrite Hrun. unfold set_ipConnections. eexists. split; [reflexivity|]. simpl.
      split; [exact Hheap|]. split; [exact Hcm|]. split; [exact Hch|].
      split; [|split].
      + intros a. rewrite Hips. simpl. destruct (decide (ip = a)) as [<-|Hne].
        * apply JsMapFacts.get_delete_eq.
        * by apply JsMapFacts.get_delete_ne.
      + rewrite Hh. unfold w0. simpl. by rewrite omap_app, app_nil_r.
      + rewrite Hw. unfold w0. simpl. by rewrite omap_app, app_nil_r.
    - exists w. unfold ret. repeat split; try done.
      + intros c. destruct (JsMap.get c (channels (reg w))) as [s|]; [|done]. simpl.
        f_equal. symmetry. apply filter_all. intros x _. apply not_elem_of_nil.
      + intros a. destruct (decide (ip = a)) as [<-|]; [done|done]. }
  destruct Hclose as (w1 & Hrun1 & Hheap1 & Hcm1 & Hch1 & Hips1 & Hh1 & Hw1).
  destruct (register_run channel res clientId ip w1)
    as (w2 & tr2 & Hrun2 & Hheap2 & Htr2 & _ & Hch2 & Hcm2 & Hips2 & _).
  exists w2. unfold subscribeClient, bind. rewrite Hrun1, Hrun2.
  split; [done|]. split; [congruence|].
  split; [intros r; by rewrite Hcm2, Hcm1|].
  split; [intros c; by rewrite Hch2, Hch1|].
  split.
  { intros a. rewrite Hips2, Hips1. by destruct (decide (ip = a)). }
  destruct (register_trace channel res clientId ip w1) as [Hh2 Hw2].
  rewrite Hrun2 in Hh2, Hw2. simpl in Hh2, Hw2. by rewrite Hh2, Hw2, Hh1, Hw1.
Qed.

(** *** What a broadcast does to the three maps *)

(** A delivery registers no handler. *)
Lemma sendToClient_handlers channel (p : message_value) res w :
  omap close_handler (trace (snd (sendToClient JSON_stringify env channel p res w)))
  = omap close_handler (trace w).
Proof.
  unfold sendToClient, res_write. run_step.
  destruct (write env res _); run_step;
    [destruct (JsMap.get res (clientMap (reg w))); simpl;
     destruct (JsMap.get channel (channels (reg w)))|];
    simpl; rewrite <- ?app_assoc, ?omap_app; simpl; by rewrite ?app_nil_r.
Qed.

(** The loop of deliveries of [p], whose chunk is [chunk], over [todo]:
    the handles whose write throws lose their records and leave the set of
    the channel; the bindings, the other channels and the other records
    stay, and no handler is registered. *)
Lemma forEach_sendToClient_effect channel (p : message_value) chunk todo w :
  message_chunk JSON_stringify (heap w) p = chunk ->
  exists w',
    forEach todo (sendToClient JSON_stringify env channel p) w = (Return tt, w')
    /\ heap w' = heap w
    /\ ipConnections (reg w') = ipConnections (reg w)
    /\ (forall r, JsMap.get r (clientMap (reg w')) =
          if bool_decide (r ∈ todo /\ throws (write env r chunk) = true)
          then None else JsMap.get r (clientMap (reg w)))
    /\ (forall c, JsMap.get c (channels (reg w')) =
          if decide (channel = c)
          then filter (fun r => ~ (r ∈ todo
                                   /\ throws (write env r chunk) = true))
                 <$> JsMap.get c (channels (reg w))
          else JsMap.get c (channels (reg w)))
    /\ omap close_handler (trace w') = omap close_handler (trace w).
Proof.
  revert w. induction todo as [|res todo IH]; intros w Hp.
  - exists w. cbn [forEach]. unfold ret.
    split; [done|]. split; [done|]. split; [done|]. split; [|split; [|done]].
    + intros r. rewrite bool_decide_false; [done|]. by intros [?%elem_of_nil _].
    + intros c. destruct (decide (channel = c)); [|done].
      destruct (JsMap.get c (channels (reg w))) as [s|]; [|done]. simpl.
      f_equal. symmetry. apply filter_all. by intros x _ [?%elem_of_nil _].
  - destruct (sendToClient_run JSON_stringify env channel p chunk res w Hp)
      as (w1 & tr1 & Hrun1 & Hheap1 & Hips1 & Htr1 & Hwa1 & _ & _ & Hcm1 & Hch1).
    assert (Hh1 : omap close_handler (trace w1) = omap close_handler (trace w)).
    { pose proof (sendToClient_handlers channel p res w) as Hh.
      by rewrite Hrun1 in Hh. }
    destruct (IH w1) as (w2 & Hrun2 & Hheap2 & Hips2 & Hcm2 & Hch2 & Hh2);
      [by rewrite Hheap1|].
    exists w2. cbn [forEach]. unfold bind. rewrite Hrun1, Hrun2.
    split; [done|]. split; [congruence|]. split; [congruence|].
    split; [|split; [|congruence]].
    + intros r. rewrite Hcm2, Hcm1.
      destruct (throws (write env res chunk)) eqn:Hth.
      * destruct (decide (res = r)) as [->|Hne].
        -- rewrite (bool_decide_true (r ∈ r :: todo /\ _)); [by case_bool_decide|].
           split; [left|done].
        -- case_bool_decide as H1; case_bool_decide as H2; try done.
           ++ exfalso. apply H2. destruct H1. split; [by right|done].
           ++ exfalso. apply H1. destruct H2 as [[?|?]%elem_of_cons ?]; [congruence|done].
      * case_bool_decide as H1; case_bool_decide as H2; try done.
        -- exfalso. apply H2. destruct H1. split; [by right|done].
        -- exfalso. apply H1. destruct H2 as [[->|?]%elem_of_cons ?]; [congruence|done].
    + intros c. rewrite Hch2, Hch1.
      destruct (decide (channel = c)) as [->|Hne]; [|by destruct (throws _)].
      destruct (JsMap.get c (channels (reg w))) as [s|]; [|by destruct (throws _)].
      destruct (throws (write env res chunk)) eqn:Hth; simpl; f_equal.
      * rewrite filter_delete. apply filter_same. intros x _. rewrite elem_of_cons. split.
        -- intros [Hnot Hx] [[->|?] ?]; [done|]. by apply Hnot.
        -- intros Hnot. split; [intros [? ?]; apply Hnot; split; [by right|done]|].
           intros ->. apply Hnot. split; [by left|done].
      * apply filter_same. intros x _. rewrite elem_of_cons. split.
        -- intros Hnot [[->|?] ?]; [congruence|]. by apply Hnot.
        -- intros Hnot [? ?]. apply Hnot. split; [by right|done].
Qed.

(** The object that goes out for [msg]. *)
Lemma processMessage_object (message : loc) msg w :
  heap w !! message = Some msg ->
  exists (p : loc) w1,
    processMessage rewriteImageUrls message msg w = (Return (Ref p), w1)
    /\ reg w1 = reg w
    /\ omap close_handler (trace w1) = omap close_handler (trace w)
    /\ heap w1 !! p
       = Some (if is_view_message msg && truthy (prop "view" msg)
               then JsMap.set "view" (rewriteImageUrls (prop "view" msg)) msg
               else msg).
Proof.
  intros Hmsg. rewrite processMessage_run.
  destruct (is_view_message msg && truthy (prop "view" msg)).
  - eexists _, _. split; [reflexivity|]. simpl. split; [done|].
    split; [by rewrite omap_app, app_nil_r|]. apply lookup_insert_eq.
  - by exists message, w.
Qed.

(** The whole broadcast, for a channel with an entry and a message that is
    an object; [out] is what goes out. *)
Lemma sendToChannel_effect channel (message : loc) msg clients w :
  JsMap.get channel (channels (reg w)) = Some clients ->
  heap w !! message = Some msg ->
  let out := if is_view_message msg && truthy (prop "view" msg)
             then JsMap.set "view" (rewriteImageUrls (prop "view" msg)) msg
             else msg in
  exists w',
    sendToChannel rewriteImageUrls JSON_stringify env channel message w = (Return tt, w')
    /\ ipConnections (reg w') = ipConnections (reg w)
    /\ (forall r, JsMap.get r (clientMap (reg w')) =
          if bool_decide (r ∈ clients
                          /\ throws (write env r (sse_chunk JSON_stringify out)) = true)
          then None else JsMap.get r (clientMap (reg w)))
    /\ (forall c, JsMap.get c (channels (reg w')) =
          if decide (channel = c)
          then Some (filter (fun r => throws (write env r (sse_chunk JSON_stringify out)) = false)
                       clients)
          else JsMap.get c (channels (reg w)))
    /\ omap close_handler (trace w') = omap close_handler (trace w).
Proof.
  intros Hch Hmsg out.
  unfold sendToChannel, logChannel. unfold bind at 1, emit at 1.
  set (w0 := World (reg w) (heap w) _).
  unfold broadcastToChannel. unfold bind at 1. unfold gets at 1. simpl. rewrite Hch.
  unfold bind at 1. unfold properties_of, deref at 1. simpl. rewrite Hmsg.
  unfold bind at 1.
  destruct (processMessage_object message msg w0 Hmsg) as (p & w1 & Hrun1 & Hreg1 & Hh1 & Hp).
  rewrite Hrun1. fold out in Hp.
  destruct (forEach_sendToClient_effect channel p (sse_chunk JSON_stringify out) clients w1
              (message_chunk_object JSON_stringify p out _ Hp))
    as (w2 & Hrun2 & _ & Hips2 & Hcm2 & Hch2 & Hh2).
  exists w2. split; [exact Hrun2|]. rewrite Hreg1 in Hips2, Hcm2, Hch2. simpl in *.
  split; [exact Hips2|]. split; [exact Hcm2|]. split.
  - intros c. rewrite Hch2. destruct (decide (channel = c)) as [<-|]; [|done].
    rewrite Hch. simpl. f_equal. apply filter_same. intros x Hx.
    destruct (throws (write env x (sse_chunk JSON_stringify out))); split; try done.
    + intros Hnot. exfalso. by apply Hnot.
    + by intros _ [_ ?].
  - rewrite Hh2, Hh1. unfold w0. simpl. by rewrite omap_app, app_nil_r.
Qed.

(** The broadcast of a boolean, a number or a string, for a channel with
    an entry. *)
Lemma sendToChannel_primitive_effect channel json clients w :
  JsMap.get channel (channels (reg w)) = Some clients ->
  let chunk := "data: " +:+ json +:+ LF +:+ LF in
  exists w',
    sendToChannel rewriteImageUrls JSON_stringify env channel (Primitive json) w = (Return tt, w')
    /\ ipConnections (reg w') = ipConnections (reg w)
    /\ (forall r, JsMap.get r (clientMap (reg w')) =
          if bool_decide (r ∈ clients /\ throws (write env r chunk) = true)
          then None else JsMap.get r (clientMap (reg w)))
    /\ (forall c, JsMap.get c (channels (reg w')) =
          if decide (channel = c)
          then Some (filter (fun r => throws (write env r chunk) = false) clients)
          else JsMap.get c (channels (reg w))).
Proof.
  intros Hch chunk.
  unfold sendToChannel, logChannel. unfold bind at 1, emit at 1.
  set (w0 := World (reg w) (heap w) _).
  unfold broadcastToChannel. unfold bind at 1. unfold gets at 1. cbn [reg w0]. rewrite Hch.
  unfold bind at 1. unfold properties_of, ret at 1.
  unfold bind at 1. rewrite processMessage_run. cbn [is_view_message prop JsMap.get andb].
  change (strict_eq_string VUndefined "initial_view" || strict_eq_string VUndefined "view_change")
    with false. cbn [andb].
  destruct (forEach_sendToClient_effect channel (Primitive json) chunk clients w0 eq_refl)
    as (w2 & Hrun2 & _ & Hips2 & Hcm2 & Hch2 & _).
  exists w2. split; [exact Hrun2|]. split; [exact Hips2|]. split; [exact Hcm2|].
  intros c. rewrite Hch2. destruct (decide (channel = c)) as [<-|]; [|done].
  cbn [reg w0]. rewrite Hch. simpl. f_equal. apply filter_same. intros x Hx.
  destruct (throws (write env x chunk)); split; try done.
  + intros Hnot. exfalso. by apply Hnot.
  + by intros _ [_ ?].
Qed.

(** *** The links between the maps are kept *)

Lemma linked_unsubscribeClient channel res w :
  linked (reg w) -> linked (reg (snd (unsubscribeClient channel res w))).
Proof.
  intros Hlinked.
  destruct (JsMap.get channel (channels (reg w))) as [clients|] eqn:Hcc.
  2: { by rewrite unsubscribeClient_missing_channel. }
  destruct (unsubscribeClient_effect channel res clients w Hcc)
    as (w' & Hrun & _ & Hcm & Hch & Hips & _).
  rewrite Hrun. simpl. intros r1 info1 Hget. rewrite Hcm in Hget.
  destruct (decide (res = r1)) as [|Hne]; [done|].
  destruct (Hlinked r1 info1 Hget) as [(cl1 & Hcl1 & Hin1) Hbind1]. split.
  - rewrite Hch. destruct (decide (channel = ClientInfo.channel info1)) as [Heq|]; [|by eauto].
    rewrite <- Heq, Hcc in Hcl1. injection Hcl1 as <-.
    assert (Hin : r1 ∈ JsSet.delete res clients)
      by (apply JsSetFacts.elem_of_delete; split; [done|congruence]).
    destruct (JsSet.delete res clients) as [|x xs]; [by apply elem_of_nil in Hin|].
    simpl. by eauto.
  - rewrite Hips. destruct (JsMap.get res (clientMap (reg w))) as [info|] eqn:Hinfo; [|done].
    destruct (String.eqb (ClientInfo.ip info) ""); [done|].
    destruct (Hlinked res info Hinfo) as [_ Hbind]. rewrite Hbind.
    destruct (decide (ClientInfo.ip info = ClientInfo.ip info1)) as [Heq|]; [|done].
    rewrite Heq, Hbind1 in Hbind. by injection Hbind as -> _.
Qed.

Lemma linked_subscribeClient channel res clientId ip w :
  linked (reg w) -> linked (reg (snd (subscribeClient env channel res clientId ip w))).
Proof.
  intros Hlinked.
  destruct (subscribeClient_effect channel res clientId ip w)
    as (w' & Hrun & _ & Hcm & Hch & Hips & _).
  rewrite Hrun. simpl. intros r1 info1 Hget. rewrite Hcm in Hget.
  destruct (decide (res = r1)) as [<-|Hne].
  - injection Hget as <-. simpl. split.
    + rewrite Hch, decide_True by done. eexists. split; [done|].
      apply JsSetFacts.elem_of_add. by right.
    + rewrite Hips. by rewrite decide_True.
  - case_bool_decide as Hin; [done|].
    destruct (Hlinked r1 info1 Hget) as [(cl1 & Hcl1 & Hin1) Hbind1].
    assert (Hother : ip <> ClientInfo.ip info1).
    { intros ->. apply Hin. rewrite Hbind1. simpl. left. }
    split.
    + rewrite Hch, Hcl1. simpl.
      assert (Hkept : r1 ∈ filter
                (fun r => ConnInfo.Make r (ClientInfo.channel info1)
                          ∉ default [] (JsMap.get ip (ipConnections (reg w)))) cl1).
      { apply list_elem_of_filter. split; [|done].
        intros Hmem. apply Hin. apply list_elem_of_fmap. by eexists; split; [|exact Hmem]. }
      destruct (decide (channel = ClientInfo.channel info1)).
      * eexists. split; [done|]. apply JsSetFacts.elem_of_add. by left.
      * by eauto.
    + rewrite Hips. by rewrite decide_False.
Qed.

Lemma linked_sendToChannel channel (message : message_value) w :
  linked (reg w) ->
  linked (reg (snd (sendToChannel rewriteImageUrls JSON_stringify env channel message w))).
Proof.
  intros Hlinked.
  destruct (JsMap.get channel (channels (reg w))) as [clients|] eqn:Hch.
  2: { by rewrite sendToChannel_no_channel. }
  assert (Hkept : forall chunk w',
            ipConnections (reg w') = ipConnections (reg w) ->
            (forall r, JsMap.get r (clientMap (reg w')) =
               if bool_decide (r ∈ clients /\ throws (write env r chunk) = true)
               then None else JsMap.get r (clientMap (reg w))) ->
            (forall c, JsMap.get c (channels (reg w')) =
               if decide (channel = c)
               then Some (filter (fun r => throws (write env r chunk) = false) clients)
               else JsMap.get c (channels (reg w))) ->
            linked (reg w')).
  { intros chunk w' Hips Hcm Hchs r1 info1 Hget. rewrite Hcm in Hget.
    case_bool_decide as Hfail; [done|].
    destruct (Hlinked r1 info1 Hget) as [(cl1 & Hcl1 & Hin1) Hbind1].
    split; [|by rewrite Hips].
    rewrite Hchs. destruct (decide (channel = ClientInfo.channel info1)) as [Heq|]; [|by eauto].
    rewrite <- Heq, Hch in Hcl1. injection Hcl1 as <-.
    eexists. split; [done|]. apply list_elem_of_filter. split; [|done].
    destruct (throws _) eqn:Hth; [|done]. exfalso. by apply Hfail. }
  destruct message as [message| | |json].
  - destruct (heap w !! message) as [msg|] eqn:Hmsg.
    2: { by rewrite (sendToChannel_no_object _ _ _ _ _ clients). }
    destruct (sendToChannel_effect channel message msg clients w Hch Hmsg)
      as (w' & Hrun & Hips & Hcm & Hchs & _).
    rewrite Hrun. by apply (Hkept _ w' Hips Hcm Hchs).
  - by rewrite (sendToChannel_unreadable _ _ _ _ Undefined clients _ w Hch (fun w' => eq_refl)).
  - by rewrite (sendToChannel_unreadable _ _ _ _ Null clients _ w Hch (fun w' => eq_refl)).
  - destruct (sendToChannel_primitive_effect channel json clients w Hch)
      as (w' & Hrun & Hips & Hcm & Hchs).
    rewrite Hrun. by apply (Hkept _ w' Hips Hcm Hchs).
Qed.

End Effects.

(** Every operation keeps the links, whatever its arguments and whatever
    the response objects do. *)
Lemma linked_run_operation rewriteImageUrls JSON_stringify step w :
  linked (reg w) ->
  linked (reg (snd (run_operation rewriteImageUrls JSON_stringify step w))).
Proof.
  destruct step as [e [channel res clientId ip|channel res|channel message]];
    unfold run_operation; simpl.
  - apply linked_subscribeClient.
  - apply linked_unsubscribeClient.
  - apply linked_sendToChannel.
Qed.

Lemma linked_serve rewriteImageUrls JSON_stringify steps w :
  linked (reg w) -> linked (reg (serve rewriteImageUrls JSON_stringify steps w)).
Proof.
  revert w. induction steps as [|step steps IH]; intros w Hlinked; [done|].
  simpl. apply IH. by apply linked_run_operation.
Qed.

Lemma linked_empty : linked empty_registry.
Proof. intros res info Hget. discriminate Hget. Qed.

Lemma delete_added {A} `{EqDecision A} (x : A) (s : list A) :
  x ∉ s -> JsSet.delete x (JsSet.add x s) = s.
Proof.
  intros Hnot. unfold JsSet.add, JsSet.has. rewrite bool_decide_false by done.
  induction s as [|y s IH]; simpl.
  - by rewrite decide_True.
  - apply not_elem_of_cons in Hnot as [Hne Hnot].
    rewrite decide_False by done. by rewrite IH.
Qed.

(** ** Subscribing and unsubscribing, in any state *)

(** X1.  In every state, [subscribeClient] returns with the client
    registered: it has the record of the call, it is in the set of the
    channel, it is the one binding of its address, the bindings of the
    other addresses are as before, one ['close'] handler was registered
    for it and nothing was written to any client. *)
Theorem subscribe_establishes_subscription
    (env : transport) (w : world) (channel : string) (res : response)
    (clientId ip : string) :
  exists w',
    subscribeClient env channel res clientId ip w = (Return tt, w')
    /\ JsMap.get res (clientMap (reg w')) = Some (ClientInfo.Make clientId channel ip)
    /\ (exists clients,
          JsMap.get channel (channels (reg w')) = Some clients /\ res ∈ clients)
    /\ JsMap.get ip (ipConnections (reg w')) = Some [ConnInfo.Make res channel]
    /\ (forall a, a <> ip ->
          JsMap.get a (ipConnections (reg w')) = JsMap.get a (ipConnections (reg w)))
    /\ omap close_handler (trace w') = (omap close_handler (trace w) ++ [(res, channel)])%list
    /\ omap write_attempt (trace w') = omap write_attempt (trace w)
    /\ heap w' = heap w.
Proof.
  destruct (subscribeClient_effect env channel res clientId ip w)
    as (w' & Hrun & Hheap & Hcm & Hch & Hips & Hh & Hw).
  exists w'. split; [exact Hrun|].
  split; [by rewrite Hcm, decide_True|].
  split.
  { rewrite Hch, decide_True by done. eexists. split; [done|].
    apply JsSetFacts.elem_of_add. by right. }
  split; [by rewrite Hips, decide_True|].
  split; [intros a Hne; rewrite Hips; by rewrite decide_False|].
  by repeat split.
Qed.

(** X2.  [subscribeClient] leaves alone every client other than the new
    one that is not among the bindings of the subscribing address: its
    record is as before, and so is its membership in every channel set. *)
Theorem subscribe_leaves_other_clients
    (env : transport) (w : world) (channel : string) (res : response)
    (clientId ip : string) (other : response) :
  other <> res ->
  other ∉ map ConnInfo.res (default [] (JsMap.get ip (ipConnections (reg w)))) ->
  JsMap.get other (clientMap (reg (snd (subscribeClient env channel res clientId ip w))))
    = JsMap.get other (clientMap (reg w))
  /\ forall c,
       other ∈ default []
                 (JsMap.get c (channels (reg (snd (subscribeClient env channel res clientId ip w)))))
       <-> other ∈ default [] (JsMap.get c (channels (reg w))).
Proof.
  intros Hne Hnot.
  destruct (subscribeClient_effect env channel res clientId ip w)
    as (w' & Hrun & _ & Hcm & Hch & _).
  rewrite Hrun. simpl. split.
  - rewrite Hcm, decide_False by done. by rewrite bool_decide_false.
  - intros c. rewrite Hch. simpl.
    assert (Hfilter : forall s : list response,
              other ∈ filter (fun r => ConnInfo.Make r c
                                       ∉ default [] (JsMap.get ip (ipConnections (reg w)))) s
              <-> other ∈ s).
    { intros s. rewrite list_elem_of_filter. split; [by intros [_ ?]|].
      intros Hin. split; [|done]. intros Hmem. apply Hnot.
      apply list_elem_of_fmap. by eexists; split; [|exact Hmem]. }
    destruct (decide (channel = c)).
    + simpl. rewrite JsSetFacts.elem_of_add.
      destruct (JsMap.get c (channels (reg w))) as [s|]; simpl.
      * rewrite Hfilter. naive_solver.
      * rewrite elem_of_nil. naive_solver.
    + destruct (JsMap.get c (channels (reg w))) as [s|]; simpl; [apply Hfilter|done].
Qed.

Lemma subscribe_leaves_other_clients_witness :
  JsMap.get 2%nat
    (clientMap (reg (snd (subscribeClient Sample.broken1 "sport" 3%nat
                            "10.0.0.1-1700000000002" "10.0.0.1" Sample.two))))
  = JsMap.get 2%nat (clientMap (reg Sample.two)).
Proof.
  apply (subscribe_leaves_other_clients Sample.broken1 Sample.two "sport" 3%nat
           "10.0.0.1-1700000000002" "10.0.0.1" 2%nat).
  - discriminate.
  - vm_compute. intros Hin. apply list_elem_of_In in Hin. simpl in Hin.
    intuition discriminate.
Defined.

(** X3.  [unsubscribeClient] on a channel without entry changes nothing,
    even for a handle that has a record.  On a channel with an entry it
    returns, the handle has no record afterwards and is not in the set of
    the channel, the entry of the channel is gone exactly when no other
    member is left, and the other records and channels are as before. *)
Theorem unsubscribe_removes_client (channel : string) (res : response) (w : world) :
  (JsMap.get channel (channels (reg w)) = None ->
   unsubscribeClient channel res w = (Return tt, w))
  /\ (forall clients,
        JsMap.get channel (channels (reg w)) = Some clients ->
        exists w',
          unsubscribeClient channel res w = (Return tt, w')
          /\ JsMap.get res (clientMap (reg w')) = None
          /\ (res ∉ default [] (JsMap.get channel (channels (reg w'))))
          /\ (JsMap.get channel (channels (reg w')) = None
              <-> JsSet.delete res clients = [])
          /\ (forall r, r <> res ->
                JsMap.get r (clientMap (reg w')) = JsMap.get r (clientMap (reg w)))
          /\ (forall c, c <> channel ->
                JsMap.get c (channels (reg w')) = JsMap.get c (channels (reg w)))).
Proof.
  split; [apply unsubscribeClient_missing_channel|].
  intros clients Hcc.
  destruct (unsubscribeClient_effect channel res clients w Hcc)
    as (w' & Hrun & _ & Hcm & Hch & _).
  exists w'. split; [exact Hrun|].
  split; [by rewrite Hcm, decide_True|].
  split.
  { rewrite Hch, decide_True by done.
    destruct (JsSet.size (JsSet.delete res clients) =? 0)%nat; simpl.
    - apply not_elem_of_nil.
    - apply JsSetFacts.not_elem_of_delete. }
  split.
  { rewrite Hch, decide_True by done.
    destruct (JsSet.delete res clients); simpl; split; done. }
  split.
  - intros r Hne. rewrite Hcm. by rewrite decide_False.
  - intros c Hne. rewrite Hch. by rewrite decide_False.
Qed.

Lemma unsubscribe_removes_client_witness :
  (JsMap.get "sport" (channels (reg Sample.two)) = None
   /\ unsubscribeClient "sport" 1%nat Sample.two = (Return tt, Sample.two))
  /\ (JsMap.get "news" (channels (reg Sample.two)) = Some [1%nat; 2%nat]
      /\ exists w',
           unsubscribeClient "news" 1%nat Sample.two = (Return tt, w')
           /\ JsMap.get 1%nat (clientMap (reg w')) = None
           /\ (1%nat ∉ default [] (JsMap.get "news" (channels (reg w'))))).
Proof.
  pose proof (unsubscribe_removes_client "sport" 1%nat Sample.two) as [Hmissing _].
  pose proof (unsubscribe_removes_client "news" 1%nat Sample.two) as [_ Hentry].
  split.
  - split; [reflexivity|]. apply Hmissing. reflexivity.
  - split; [reflexivity|].
    destruct (Hentry [1%nat; 2%nat] eq_refl) as (w' & Hrun & Hrec & Hnot & _).
    exists w'. by repeat split.
Defined.

(** X4.  Unsubscribing twice is unsubscribing once: in every state, a
    second call of [unsubscribeClient] with the same arguments returns and
    leaves the maps, the store and the trace as the first call left
    them. *)
Theorem unsubscribe_twice_is_once (channel : string) (res : response) (w : world) :
  unsubscribeClient channel res (snd (unsubscribeClient channel res w))
  = (Return tt, snd (unsubscribeClient channel res w)).
Proof.
  destruct (JsMap.get channel (channels (reg w))) as [clients|] eqn:Hcc.
  - destruct (unsubscribeClient_effect channel res clients w Hcc)
      as (w' & Hrun & _ & Hcm & Hch & _).
    rewrite Hrun. simpl. apply unsubscribeClient_nothing_to_do.
    + by rewrite Hcm, decide_True.
    + intros clients'. rewrite Hch, decide_True by done.
      destruct (JsSet.delete res clients) as [|x xs] eqn:Hdel; simpl; [done|].
      intros [= <-]. split; [|done]. rewrite <- Hdel. apply JsSetFacts.not_elem_of_delete.
  - rewrite !(unsubscribeClient_missing_channel channel res w Hcc). simpl.
    by apply unsubscribeClient_missing_channel.
Qed.

(** X5.  Subscribe, then unsubscribe, and the registry answers every
    lookup as before: for a handle without record, from a non-empty
    address without binding, on a channel that has no entry or a non-empty
    set without the handle. *)
Theorem subscribe_then_unsubscribe_restores
    (env : transport) (w : world) (channel : string) (res : response)
    (clientId ip : string) :
  JsMap.get res (clientMap (reg w)) = None ->
  JsMap.get ip (ipConnections (reg w)) = None ->
  ip <> "" ->
  (forall clients, JsMap.get channel (channels (reg w)) = Some clients ->
                   (res ∉ clients) /\ clients <> []) ->
  let w2 := snd (unsubscribeClient channel res
                   (snd (subscribeClient env channel res clientId ip w))) in
  (forall c, JsMap.get c (channels (reg w2)) = JsMap.get c (channels (reg w)))
  /\ (forall r, JsMap.get r (clientMap (reg w2)) = JsMap.get r (clientMap (reg w)))
  /\ (forall a, JsMap.get a (ipConnections (reg w2)) = JsMap.get a (ipConnections (reg w)))
  /\ heap w2 = heap w.
Proof.
  intros Hrec Hip Hne Hclients w2. subst w2.
  destruct (subscribeClient_effect env channel res clientId ip w)
    as (w1 & Hrun1 & Hheap1 & Hcm1 & Hch1 & Hips1 & _).
  rewrite Hrun1. simpl. rewrite Hip in Hcm1, Hch1. simpl in Hcm1, Hch1.
  assert (Hbefore : forall c (s : option (list response)),
            filter (fun r => ConnInfo.Make r c ∉ []) <$> s = s).
  { intros c [s|]; [|done]. simpl. f_equal. apply filter_all.
    intros x _. apply not_elem_of_nil. }
  pose proof (Hch1 channel) as Hnow. rewrite decide_True, Hbefore in Hnow by done.
  destruct (unsubscribeClient_effect channel res _ w1 Hnow)
    as (w2 & Hrun2 & Hheap2 & Hcm2 & Hch2 & Hips2 & _).
  rewrite Hrun2. simpl.
  assert (Hset : JsSet.delete res
                   (JsSet.add res (default [] (JsMap.get channel (channels (reg w)))))
                 = default [] (JsMap.get channel (channels (reg w)))).
  { apply delete_added.
    destruct (JsMap.get channel (channels (reg w))) as [s|] eqn:Hs; simpl.
    - by apply (Hclients s).
    - apply not_elem_of_nil. }
  split; [|split; [|split; [|congruence]]].
  - intros c. rewrite Hch2, Hset.
    destruct (decide (channel = c)) as [<-|Hc].
    + destruct (JsMap.get channel (channels (reg w))) as [s|] eqn:Hs; simpl; [|done].
      destruct (Hclients s eq_refl) as [_ Hnonempty]. by destruct s.
    + rewrite Hch1, decide_False by done. apply Hbefore.
  - intros r. rewrite Hcm2, Hcm1.
    by destruct (decide (res = r)) as [<-|].
  - intros a. rewrite Hips2, Hcm1, decide_True by done. simpl.
    rewrite (proj2 (String.eqb_neq ip "")) by done.
    rewrite Hips1, decide_True by done. simpl.
    destruct (decide (res = res)); [|done]. simpl.
    destruct (decide (ip = a)) as [<-|]; [done|].
    rewrite Hips1. by rewrite decide_False.
Qed.

Lemma subscribe_then_unsubscribe_restores_witness :
  JsMap.get "news"
    (channels (reg (snd (unsubscribeClient "news" 3%nat
                           (snd (subscribeClient Sample.broken1 "news" 3%nat
                                   "10.0.0.3-1700000000003" "10.0.0.3" Sample.two))))))
  = JsMap.get "news" (channels (reg Sample.two))
  /\ JsMap.get "10.0.0.3"
       (ipConnections (reg (snd (unsubscribeClient "news" 3%nat
                                   (snd (subscribeClient Sample.broken1 "news" 3%nat
                                           "10.0.0.3-1700000000003" "10.0.0.3"
                                           Sample.two))))))
     = JsMap.get "10.0.0.3" (ipConnections (reg Sample.two)).
Proof.
  destruct (subscribe_then_unsubscribe_restores Sample.broken1 Sample.two "news" 3%nat
              "10.0.0.3-1700000000003" "10.0.0.3") as (Hch & _ & Hips & _).
  - reflexivity.
  - reflexivity.
  - discriminate.
  - intros clients Hget. vm_compute in Hget. injection Hget as <-.
    split; [|discriminate].
    intros Hin. apply list_elem_of_In in Hin. simpl in Hin. intuition discriminate.
  - exact (conj (Hch "news") (Hips "10.0.0.3")).
Defined.

(** X6.  A client subscribed with the empty address stays bound after it
    has unsubscribed: its record is gone, its binding is not. *)
Theorem empty_address_stays_bound
    (env : transport) (w : world) (channel : string) (res : response) (clientId : string) :
  let w2 := snd (unsubscribeClient channel res
                   (snd (subscribeClient env channel res clientId "" w))) in
  JsMap.get res (clientMap (reg w2)) = None
  /\ JsMap.get "" (ipConnections (reg w2)) = Some [ConnInfo.Make res channel].
Proof.
  intros w2. subst w2.
  destruct (subscribeClient_effect env channel res clientId "" w)
    as (w1 & Hrun1 & _ & Hcm1 & Hch1 & Hips1 & _).
  rewrite Hrun1. simpl.
  pose proof (Hch1 channel) as Hnow. rewrite decide_True in Hnow by done.
  destruct (unsubscribeClient_effect channel res _ w1 Hnow)
    as (w2 & Hrun2 & _ & Hcm2 & _ & Hips2 & _).
  rewrite Hrun2. simpl. split.
  - by rewrite Hcm2, decide_True.
  - rewrite Hips2, Hcm1, decide_True by done. simpl. by rewrite Hips1, decide_True.
Qed.

(** ** Broadcasts, in any state *)

(** X7.  A broadcast to a channel with an entry, of a message that is an
    object, removes the clients whose write throws and nobody else: the
    set of the channel keeps, in order, the members whose write returned;
    the records of the members whose write threw are gone and every other
    record is as before; the other channels and all the address bindings
    are as before. *)
Theorem broadcast_removes_exactly_failed
    (rewriteImageUrls : value -> value) (JSON_stringify : object -> string)
    (env : transport) (channel : string) (message : loc) (msg : object)
    (clients : list response) (w : world) :
  JsMap.get channel (channels (reg w)) = Some clients ->
  heap w !! message = Some msg ->
  let out := if is_view_message msg && truthy (prop "view" msg)
             then JsMap.set "view" (rewriteImageUrls (prop "view" msg)) msg
             else msg in
  let failed r := throws (write env r (sse_chunk JSON_stringify out)) in
  exists w',
    sendToChannel rewriteImageUrls JSON_stringify env channel message w = (Return tt, w')
    /\ JsMap.get channel (channels (reg w'))
       = Some (filter (fun r => failed r = false) clients)
    /\ (forall c, c <> channel ->
          JsMap.get c (channels (reg w')) = JsMap.get c (channels (reg w)))
    /\ (forall r, r ∈ clients -> failed r = true -> JsMap.get r (clientMap (reg w')) = None)
    /\ (forall r, ~ (r ∈ clients /\ failed r = true) ->
          JsMap.get r (clientMap (reg w')) = JsMap.get r (clientMap (reg w)))
    /\ ipConnections (reg w') = ipConnections (reg w).
Proof.
  intros Hch Hmsg out failed.
  destruct (sendToChannel_effect rewriteImageUrls JSON_stringify env channel message msg
              clients w Hch Hmsg) as (w' & Hrun & Hips & Hcm & Hchs & _).
  fold out in Hcm, Hchs. exists w'. split; [exact Hrun|].
  split; [by rewrite Hchs, decide_True|].
  split; [intros c Hne; rewrite Hchs; by rewrite decide_False|].
  split; [intros r Hin Hfail; rewrite Hcm; by rewrite bool_decide_true|].
  split; [intros r Hnot; rewrite Hcm; by rewrite bool_decide_false|].
  exact Hips.
Qed.

Lemma broadcast_removes_exactly_failed_witness :
  exists w',
    sendToChannel Sample.rewrite Sample.stringify Sample.broken1 "news" 0%nat Sample.two
      = (Return tt, w')
    /\ JsMap.get "news" (channels (reg w')) = Some [2%nat]
    /\ JsMap.get 1%nat (clientMap (reg w')) = None
    /\ JsMap.get 2%nat (clientMap (reg w')) = JsMap.get 2%nat (clientMap (reg Sample.two)).
Proof.
  destruct (broadcast_removes_exactly_failed Sample.rewrite Sample.stringify Sample.broken1
              "news" 0%nat Sample.view_message [1%nat; 2%nat] Sample.two eq_refl eq_refl)
    as (w' & Hrun & Hset & _ & Hgone & Hkept & _).
  exists w'. split; [exact Hrun|]. split; [exact Hset|]. split.
  - apply Hgone; [left|reflexivity].
  - apply Hkept. intros [_ Hfail]. discriminate Hfail.
Defined.

(** X8.  After a broadcast, the next broadcast to the channel writes to
    the clients whose write returned the first time, in order, and to no
    one else. *)
Theorem next_broadcast_skips_failed
    (rewriteImageUrls : value -> value) (JSON_stringify : object -> string)
    (env env' : transport) (channel : string) (message message' : loc)
    (msg msg' : object) (clients : list response) (w : world) :
  JsMap.get channel (channels (reg w)) = Some clients ->
  heap w !! message = Some msg ->
  heap w !! message' = Some msg' ->
  let out := if is_view_message msg && truthy (prop "view" msg)
             then JsMap.set "view" (rewriteImageUrls (prop "view" msg)) msg
             else msg in
  let w1 := snd (sendToChannel rewriteImageUrls JSON_stringify env channel message w) in
  exists tr,
    trace (snd (sendToChannel rewriteImageUrls JSON_stringify env' channel message' w1))
      = (trace w1 ++ tr)%list
    /\ map fst (omap write_attempt tr)
       = filter (fun r => throws (write env r (sse_chunk JSON_stringify out)) = false) clients.
Proof.
  intros Hch Hmsg Hmsg' out w1. subst w1.
  destruct (sendToChannel_effect rewriteImageUrls JSON_stringify env channel message msg
              clients w Hch Hmsg) as (w1 & Hrun1 & _ & _ & Hchs1 & _).
  fold out in Hchs1.
  assert (Hkept : heap w1 !! message' = Some msg').
  { destruct (sendToChannel_run rewriteImageUrls JSON_stringify env channel message msg
                clients w Hch Hmsg) as (w1' & tr1 & Hrun1' & _ & _ & Hcase).
    rewrite Hrun1 in Hrun1'. injection Hrun1' as <-.
    destruct (is_view_message msg && truthy (prop "view" msg)).
    - destruct Hcase as (-> & _). rewrite lookup_insert_ne; [done|].
      intros Heq. by rewrite <- Heq, fresh_loc_unused in Hmsg'.
    - by destruct Hcase as (-> & _). }
  rewrite Hrun1. simpl.
  pose proof (Hchs1 channel) as Hset. rewrite decide_True in Hset by done.
  destruct (sendToChannel_run rewriteImageUrls JSON_stringify env' channel message' msg'
              _ w1 Hset Hkept) as (w2 & tr & Hrun2 & _ & Htr & Hcase).
  exists tr. rewrite Hrun2. simpl. split; [exact Htr|].
  assert (Hwa : exists o, omap write_attempt tr
                 = map (fun res => (res, sse_chunk JSON_stringify o))
                     (filter (fun r => throws (write env r (sse_chunk JSON_stringify out)) = false)
                        clients)).
  { destruct (is_view_message msg' && truthy (prop "view" msg'));
      destruct Hcase as (_ & _ & Hwa & _); by eexists. }
  destruct Hwa as [o ->]. rewrite map_map. simpl. apply map_id.
Qed.

Lemma next_broadcast_skips_failed_witness :
  exists tr,
    trace (snd (sendToChannel Sample.rewrite Sample.stringify Sample.healthy "news" 2%nat
                  (snd (sendToChannel Sample.rewrite Sample.stringify Sample.broken1 "news"
                          0%nat Sample.two))))
      = (trace (snd (sendToChannel Sample.rewrite Sample.stringify Sample.broken1 "news"
                       0%nat Sample.two)) ++ tr)%list
    /\ map fst (omap write_attempt tr) = [2%nat].
Proof.
  apply (next_broadcast_skips_failed Sample.rewrite Sample.stringify Sample.broken1
           Sample.healthy "news" 0%nat 2%nat Sample.view_message Sample.ping_message
           [1%nat; 2%nat] Sample.two); reflexivity.
Defined.

(** X9.  A broadcast of a message that is no object.  To a channel
    without entry it returns after the log line, whatever the message is.
    To a channel with an entry (an empty one included), [undefined] and
    [null] make it throw a [TypeError]: the three maps and the store are as
    before and nothing is written; a boolean, a number or a string goes to
    every member as its JSON text, and [rewriteImageUrls] is not called. *)
Theorem broadcast_without_channel_or_object
    (rewriteImageUrls : value -> value) (JSON_stringify : object -> string)
    (env : transport) (channel : string) (message : message_value) (w : world) :
  (JsMap.get channel (channels (reg w)) = None ->
   sendToChannel rewriteImageUrls JSON_stringify env channel message w
   = (Return tt,
      World (reg w) (heap w)
        (trace w ++ [LogChannel "Publishing message to channel" channel (Reference message)])))
  /\ (is_Some (JsMap.get channel (channels (reg w))) ->
      message = Undefined \/ message = Null ->
      exists e,
        error_name e = "TypeError"
        /\ sendToChannel rewriteImageUrls JSON_stringify env channel message w
           = (Throw e,
              World (reg w) (heap w)
                (trace w ++ [LogChannel "Publishing message to channel" channel
                               (Reference message)])))
  /\ (forall clients json,
        JsMap.get channel (channels (reg w)) = Some clients ->
        message = Primitive json ->
        exists w' tr,
          sendToChannel rewriteImageUrls JSON_stringify env channel message w = (Return tt, w')
          /\ heap w' = heap w
          /\ trace w' = (trace w ++ tr)%list
          /\ omap write_attempt tr
             = map (fun res => (res, "data: " +:+ json +:+ LF +:+ LF)) clients
          /\ omap rewrite_call tr = []).
Proof.
  split; [apply sendToChannel_no_channel|]. split.
  - intros [clients Hch] [->| ->].
    + eexists. split; [|apply (sendToChannel_unreadable _ _ _ _ Undefined clients _ w Hch
                                 (fun w' => eq_refl))]. reflexivity.
    + eexists. split; [|apply (sendToChannel_unreadable _ _ _ _ Null clients _ w Hch
                                 (fun w' => eq_refl))]. reflexivity.
  - intros clients json Hch ->.
    destruct (sendToChannel_primitive rewriteImageUrls JSON_stringify env channel json clients w
                Hch) as (w' & tr & Hrun & Hheap & _ & Htr & Hrw & Hwa & _).
    by exists w', tr.
Qed.

Lemma broadcast_without_channel_or_object_witness :
  fst (sendToChannel Sample.rewrite Sample.stringify Sample.healthy "sport" Null Sample.two)
    = Return tt
  /\ (exists e,
        error_name e = "TypeError"
        /\ fst (sendToChannel Sample.rewrite Sample.stringify Sample.healthy "news" Undefined
                  Sample.moved) = Throw e)
  /\ (exists w' tr,
        sendToChannel Sample.rewrite Sample.stringify Sample.healthy "news" (Primitive "42")
          Sample.two = (Return tt, w')
        /\ trace w' = (trace Sample.two ++ tr)%list
        /\ omap write_attempt tr
           = [(1%nat, "data: 42" +:+ LF +:+ LF); (2%nat, "data: 42" +:+ LF +:+ LF)]).
Proof.
  assert (Hsport : JsMap.get "sport" (channels (reg Sample.two)) = None)
    by (vm_compute; reflexivity).
  assert (Hmoved : is_Some (JsMap.get "news" (channels (reg Sample.moved))))
    by (exists []; vm_compute; reflexivity).
  assert (Hnews : JsMap.get "news" (channels (reg Sample.two)) = Some [1%nat; 2%nat])
    by (vm_compute; reflexivity).
  pose proof (broadcast_without_channel_or_object Sample.rewrite Sample.stringify
                Sample.healthy "sport" Null Sample.two) as [Hnone _].
  pose proof (broadcast_without_channel_or_object Sample.rewrite Sample.stringify
                Sample.healthy "news" Undefined Sample.moved) as (_ & Hthrow & _).
  pose proof (broadcast_without_channel_or_object Sample.rewrite Sample.stringify
                Sample.healthy "news" (Primitive "42") Sample.two) as (_ & _ & Hplain).
  split; [by rewrite (Hnone Hsport)|]. split.
  - destruct (Hthrow Hmoved (or_introl eq_refl)) as (e & Hname & Hrun).
    exists e. split; [exact Hname|]. by rewrite Hrun.
  - destruct (Hplain [1%nat; 2%nat] "42" Hnews eq_refl) as (w' & tr & Hrun & _ & Htr & Hwa & _).
    exists w', tr. split; [exact Hrun|]. split; [exact Htr|]. exact Hwa.
Defined.

(** ** What holds after any sequence of operations *)

(** X10.  Start with no client and serve any operations, with any
    arguments, whatever the response objects do: every client that has a
    record is then in the set of the channel of its record, and is the one
    binding of the address of its record. *)
Theorem registered_clients_stay_linked
    (rewriteImageUrls : value -> value) (JSON_stringify : object -> string)
    (steps : list (transport * operation)) (h : gmap loc object) (tr : list event) :
  linked (reg (serve rewriteImageUrls JSON_stringify steps (World empty_registry h tr))).
Proof. apply linked_serve, linked_empty. Qed.

(** X11.  After any sequence of operations from the empty registry, no
    two clients with a record have the same address. *)
Theorem one_client_per_address
    (rewriteImageUrls : value -> value) (JSON_stringify : object -> string)
    (steps : list (transport * operation)) (h : gmap loc object) (tr : list event)
    (res1 res2 : response) (info1 info2 : ClientInfo.t) :
  let w := serve rewriteImageUrls JSON_stringify steps (World empty_registry h tr) in
  JsMap.get res1 (clientMap (reg w)) = Some info1 ->
  JsMap.get res2 (clientMap (reg w)) = Some info2 ->
  ClientInfo.ip info1 = ClientInfo.ip info2 ->
  res1 = res2.
Proof.
  intros w Hget1 Hget2 Hip.
  assert (Hlinked : linked (reg w)) by apply linked_serve, linked_empty.
  destruct (Hlinked _ _ Hget1) as [_ Hbind1].
  destruct (Hlinked _ _ Hget2) as [_ Hbind2].
  rewrite Hip, Hbind2 in Hbind1. by injection Hbind1 as -> _.
Qed.

Lemma one_client_per_address_witness :
  JsMap.get 2%nat (clientMap (reg (serve Sample.rewrite Sample.stringify Served.steps
                     (World empty_registry (heap Sample.start) []))))
    = Some (ClientInfo.Make "10.0.0.1-1700000000001" "sport" "10.0.0.1")
  /\ 2%nat = 2%nat.
Proof.
  assert (Hget : JsMap.get 2%nat (clientMap (reg (serve Sample.rewrite Sample.stringify Served.steps
                     (World empty_registry (heap Sample.start) []))))
                 = Some (ClientInfo.Make "10.0.0.1-1700000000001" "sport" "10.0.0.1"))
    by (vm_compute; reflexivity).
  split; [exact Hget|].
  exact (one_client_per_address Sample.rewrite Sample.stringify Served.steps
           (heap Sample.start) [] 2%nat 2%nat _ _ Hget Hget eq_refl).
Defined.

(** X12.  After any sequence of operations from the empty registry, a
    broadcast to the channel of a client that has a record, of a message
    that is an object, tries a write to that client. *)
Theorem registered_client_is_written_to
    (rewriteImageUrls : value -> value) (JSON_stringify : object -> string)
    (steps : list (transport * operation)) (h : gmap loc object) (tr : list event)
    (env : transport) (res : response) (info : ClientInfo.t) (message : loc) (msg : object) :
  let w := serve rewriteImageUrls JSON_stringify steps (World empty_registry h tr) in
  JsMap.get res (clientMap (reg w)) = Some info ->
  heap w !! message = Some msg ->
  exists tr' chunk,
    trace (snd (sendToChannel rewriteImageUrls JSON_stringify env (ClientInfo.channel info)
                  message w))
      = (trace w ++ tr')%list
    /\ (res, chunk) ∈ omap write_attempt tr'.
Proof.
  intros w Hget Hmsg.
  assert (Hlinked : linked (reg w)) by apply linked_serve, linked_empty.
  destruct (Hlinked _ _ Hget) as [(clients & Hch & Hin) _].
  destruct (sendToChannel_run rewriteImageUrls JSON_stringify env _ message msg clients w
              Hch Hmsg) as (w' & tr' & Hrun & _ & Htr & Hcase).
  rewrite Hrun. simpl.
  assert (Hwa : exists o, omap write_attempt tr'
                          = map (fun r => (r, sse_chunk JSON_stringify o)) clients).
  { destruct (is_view_message msg && truthy (prop "view" msg));
      destruct Hcase as (_ & _ & Hwa & _); by eexists. }
  destruct Hwa as [o Hwa].
  exists tr', (sse_chunk JSON_stringify o). split; [exact Htr|].
  rewrite Hwa. apply list_elem_of_fmap. by exists res.
Qed.

Lemma registered_client_is_written_to_witness :
  exists tr' chunk,
    trace (snd (sendToChannel Sample.rewrite Sample.stringify Sample.broken1 "sport" 2%nat
                  (serve Sample.rewrite Sample.stringify Served.steps
                     (World empty_registry (heap Sample.start) []))))
      = (trace (serve Sample.rewrite Sample.stringify Served.steps
                     (World empty_registry (heap Sample.start) [])) ++ tr')%list
    /\ (2%nat, chunk) ∈ omap write_attempt tr'.
Proof.
  assert (Hget : JsMap.get 2%nat (clientMap (reg (serve Sample.rewrite Sample.stringify Served.steps
                     (World empty_registry (heap Sample.start) []))))
                 = Some (ClientInfo.Make "10.0.0.1-1700000000001" "sport" "10.0.0.1"))
    by (vm_compute; reflexivity).
  assert (Hmsg : heap (serve Sample.rewrite Sample.stringify Served.steps
                     (World empty_registry (heap Sample.start) [])) !! 2%nat = Some Sample.ping_message)
    by (vm_compute; reflexivity).
  exact (registered_client_is_written_to Sample.rewrite Sample.stringify Served.steps
           (heap Sample.start) [] Sample.broken1 2%nat _ 2%nat Sample.ping_message Hget Hmsg).
Defined.

(** ** The listings, in any state *)

Section ListingFacts.
Variable toISOString : Z -> string.

Lemma connectedAtOf_keeps_world timestamp w :
  snd (connectedAtOf toISOString timestamp w) = w.
Proof.
  unfold connectedAtOf. destruct timestamp as [t|]; [|done].
  destruct (t =? 0)%Z; [done|]. by destruct (Z.abs t <=? max_time_value)%Z.
Qed.

Lemma collect_keeps_world {A B} (xs : list A) (body : A -> M (option B)) w :
  (forall x, snd (body x w) = w) -> snd (collect xs body w) = w.
Proof.
  intros Hbody. induction xs as [|x xs IH]; [done|].
  simpl. unfold bind at 1. specialize (Hbody x).
  destruct (body x w) as [[pushed|e] w1]; simpl in Hbody; subst w1; [|done].
  unfold bind. destruct (collect xs body w) as [[others|e] w1]; simpl in IH; by subst w1.
Qed.

Lemma pushStatsClient_keeps_world res w : snd (pushStatsClient toISOString res w) = w.
Proof.
  unfold pushStatsClient, bind, gets.
  destruct (JsMap.get res (clientMap (reg w))) as [info|]; [|done].
  pose proof (connectedAtOf_keeps_world (extractTimestamp (ClientInfo.clientId info)) w) as Hw.
  destruct (connectedAtOf _ _ w) as [[c|e] w1]; simpl in Hw; by subst w1.
Qed.

Lemma extractClientInfo_keeps_world info w : snd (extractClientInfo toISOString info w) = w.
Proof.
  unfold extractClientInfo, bind.
  pose proof (connectedAtOf_keeps_world (extractTimestamp (ClientInfo.clientId info)) w) as Hw.
  destruct (connectedAtOf _ _ w) as [[c|e] w1]; simpl in Hw; by subst w1.
Qed.

Lemma statsOf_keeps_world chs (acc : StatsObject.t) w : snd (statsOf toISOString chs acc w) = w.
Proof.
  revert acc. induction chs as [|[c clients] chs IH]; intros acc; [done|].
  simpl. unfold bind.
  pose proof (collect_keeps_world clients (pushStatsClient toISOString) w
                (fun x => pushStatsClient_keeps_world x w)) as Hw.
  destruct (collect clients _ w) as [[views|e] w1]; simpl in Hw; subst w1; [apply IH|done].
Qed.

(** With valid client ids the entry of a client is [stats_client]. *)
Lemma pushStatsClient_valid res w :
  (forall r info, JsMap.get r (clientMap (reg w)) = Some info ->
                  valid_clientId (ClientInfo.clientId info)) ->
  pushStatsClient toISOString res w
  = (Return (stats_client toISOString <$> JsMap.get res (clientMap (reg w))), w).
Proof.
  intros Hvalid. unfold pushStatsClient, bind, gets.
  destruct (JsMap.get res (clientMap (reg w))) as [info|] eqn:Hinfo; [|done].
  rewrite (connectedAtOf_valid toISOString _ _ (Hvalid _ _ Hinfo)).
  unfold ret, stats_client. simpl. do 3 f_equal.
  unfold extractTimestamp.
  destruct (last_part _) as [lastPart|]; [|done].
  destruct (parseInt lastPart) as [parsed|]; [|done].
  destruct (0 <? parsed)%Z eqn:Hpos; [|done]. simpl.
  apply Z.ltb_lt in Hpos. by rewrite (proj2 (Z.eqb_neq parsed 0)) by lia.
Qed.

Lemma extractClientInfo_valid info w :
  valid_clientId (ClientInfo.clientId info) ->
  extractClientInfo toISOString info w = (Return (client_view toISOString info), w).
Proof.
  intros Hvalid. rewrite extractClientInfo_cases. unfold client_view.
  unfold valid_clientId in Hvalid.
  destruct (extractTimestamp (ClientInfo.clientId info)) as [t|] eqn:Ht; [|done].
  assert (Hle : (t <=? max_time_value)%Z = true) by (apply Z.leb_le; lia).
  by rewrite Hle.
Qed.

Lemma collect_omap {A B} (xs : list A) (body : A -> M (option B)) (f : A -> option B) w :
  (forall x, x ∈ xs -> body x w = (Return (f x), w)) ->
  collect xs body w = (Return (omap f xs), w).
Proof.
  induction xs as [|x xs IH]; intros Hbody; [done|].
  simpl. unfold bind. rewrite Hbody by left.
  rewrite IH by (intros y Hy; apply Hbody; by right).
  unfold ret. by destruct (f x).
Qed.

Lemma omap_total {A B} (g : A -> B) (xs : list A) :
  omap (fun x => Some (g x)) xs = map g xs.
Proof. induction xs as [|x xs IH]; [done|]. simpl. by f_equal. Qed.

Lemma get_not_key {K V} `{EqDecision K} (k : K) (m : list (K * V)) :
  k ∉ map fst m -> JsMap.get k m = None.
Proof.
  induction m as [|[k' v] m IH]; [done|]. simpl.
  intros Hnot. apply not_elem_of_cons in Hnot as [Hne Hnot].
  rewrite decide_False by done. by apply IH.
Qed.

(** A new name goes last. *)
Lemma keys_set_new {V} (k : string) (v : V) (m : list (string * V)) :
  k ∉ map fst m -> map fst (JsMap.set k v m) = (map fst m ++ [k])%list.
Proof.
  intros Hnot. rewrite (JsMapFacts.set_absent k v m (get_not_key k m Hnot)).
  by rewrite map_app.
Qed.

(** The statistics of a channel index without double keys. *)
Lemma statsOf_unique chs acc w :
  (forall r info, JsMap.get r (clientMap (reg w)) = Some info ->
                  valid_clientId (ClientInfo.clientId info)) ->
  unique_keys chs ->
  exists stats,
    statsOf toISOString chs acc w = (Return stats, w)
    /\ (forall channel,
          channel <> "__proto__" ->
          JsMap.get channel (StatsObject.properties stats) =
          match JsMap.get channel chs with
          | Some clients => Some (channel_stats toISOString (reg w) clients)
          | None => JsMap.get channel (StatsObject.properties acc)
          end)
    /\ StatsObject.prototype stats =
         match JsMap.get "__proto__" chs with
         | Some clients => Some (channel_stats toISOString (reg w) clients)
         | None => StatsObject.prototype acc
         end
    /\ ((forall c, c ∈ map fst chs -> c ∉ map fst (StatsObject.properties acc)) ->
        map fst (StatsObject.properties stats)
        = (map fst (StatsObject.properties acc)
             ++ filter (fun c => c <> "__proto__") (map fst chs))%list).
Proof.
  intros Hvalid. revert acc. induction chs as [|[c clients] chs IH]; intros acc Hunique.
  - exists acc. split; [done|]. split; [done|]. split; [done|].
    intros _. by rewrite app_nil_r.
  - apply NoDup_cons in Hunique as [Hnot Hunique]. simpl. unfold bind.
    rewrite (collect_omap clients _
               (fun res => stats_client toISOString <$> JsMap.get res (clientMap (reg w))))
      by (intros x _; by apply pushStatsClient_valid).
    fold (channel_stats toISOString (reg w) clients).
    destruct (IH (assign c (channel_stats toISOString (reg w) clients) acc) Hunique)
      as (stats & Hrun & Hget & Hproto & Hkeys).
    exists stats. split; [exact Hrun|]. split; [|split].
    + intros channel Hname. rewrite (Hget channel Hname), assign_property by done.
      destruct (decide (channel = c)) as [->|Hne].
      * rewrite (get_not_key c chs Hnot). by rewrite decide_True.
      * destruct (JsMap.get channel chs); [done|]. rewrite decide_False; [done | congruence].
    + rewrite Hproto, assign_prototype.
      destruct (decide ("__proto__" = c)) as [<-|Hne].
      * rewrite (get_not_key "__proto__" chs Hnot). by rewrite decide_True.
      * destruct (JsMap.get "__proto__" chs); [done|]. rewrite decide_False; [done | congruence].
    + intros Hfresh.
      assert (Hc : c ∉ map fst (StatsObject.properties acc)) by (apply Hfresh; left).
      assert (Hacc : map fst (StatsObject.properties
                                (assign c (channel_stats toISOString (reg w) clients) acc))
                     = (map fst (StatsObject.properties acc)
                          ++ filter (fun c' => c' <> "__proto__") [c])%list).
      { unfold assign. destruct (decide (c = "__proto__")) as [->|Hne].
        - simpl. rewrite filter_cons_False by (by intros ?). by rewrite app_nil_r.
        - rewrite (proj2 (String.eqb_neq _ _) Hne). simpl.
          rewrite filter_cons_True by done. by apply keys_set_new. }
      rewrite Hkeys.
      * rewrite Hacc, <- app_assoc. f_equal.
        change (c :: map fst chs) with ([c] ++ map fst chs)%list. by rewrite filter_app.
      * intros c' Hin. rewrite Hacc. rewrite elem_of_app. intros [Hold|Hnew].
        -- revert Hold. apply Hfresh. by right.
        -- apply list_elem_of_filter in Hnew as [_ Hnew].
           apply list_elem_of_singleton in Hnew as ->. by apply Hnot.
Qed.

End ListingFacts.

(** X13.  The listings read and do not write: whether they return or
    throw, [getConnectedClients] and [getChannelStats] leave the three
    maps, the store and the trace as they were. *)
Theorem listings_change_nothing
    (toISOString : Z -> string) (channel : option string) (w : world) :
  snd (getConnectedClients toISOString channel w) = w
  /\ snd (getChannelStats toISOString w) = w.
Proof.
  split.
  - unfold getConnectedClients.
    assert (Hall : snd ((all <- gets clientMap ;;
                         collect all (fun entry =>
                           view <- extractClientInfo toISOString (snd entry) ;;
                           ret (Some view))) w) = w).
    { unfold bind at 1, gets. apply collect_keeps_world. intros x. unfold bind.
      pose proof (extractClientInfo_keeps_world toISOString (snd x) w) as Hw.
      destruct (extractClientInfo _ _ w) as [[v|e] w1]; simpl in Hw; by subst w1. }
    destruct channel as [[|c s]|]; [exact Hall| |exact Hall].
    unfold bind, gets.
    destruct (JsMap.get (String c s) (channels (reg w))) as [clients|]; [|done].
    apply collect_keeps_world. intros x. unfold pushClient, bind, gets.
    destruct (JsMap.get x (clientMap (reg w))) as [info|]; [|done].
    pose proof (extractClientInfo_keeps_world toISOString info w) as Hw.
    destruct (extractClientInfo _ _ w) as [[v|e] w1]; simpl in Hw; by subst w1.
  - unfold getChannelStats, bind, gets. apply statsOf_keeps_world.
Qed.

(** X14.  With client ids that [toISOString] accepts, and a channel index
    without double keys, [getChannelStats] returns an object that has one
    property for each channel of the index other than [__proto__], and no
    other property: its value has the size of the set as client count (0
    for an entry whose set is empty) and, in order, one entry for each
    member that has a record; members without record are counted but not
    listed.  The properties are enumerated with the array indexes first, in
    ascending order, then the other names in the order of the index.  A
    channel named [__proto__] gets no property: its statistics become the
    prototype of the object. *)
Theorem stats_follow_the_channel_index (toISOString : Z -> string) (w : world) :
  (forall r info, JsMap.get r (clientMap (reg w)) = Some info ->
                  valid_clientId (ClientInfo.clientId info)) ->
  unique_keys (channels (reg w)) ->
  exists stats,
    fst (getChannelStats toISOString w) = Return stats
    /\ (forall channel,
          channel <> "__proto__" ->
          JsMap.get channel (StatsObject.properties stats)
          = channel_stats toISOString (reg w) <$> JsMap.get channel (channels (reg w)))
    /\ JsMap.get "__proto__" (StatsObject.properties stats) = None
    /\ StatsObject.prototype stats
       = channel_stats toISOString (reg w) <$> JsMap.get "__proto__" (channels (reg w))
    /\ StatsObject.ownKeys stats
       = enumeration_order (filter (fun c => c <> "__proto__") (map fst (channels (reg w)))).
Proof.
  intros Hvalid Hunique.
  pose proof (getChannelStats_no_proto_property toISOString w) as Hnone.
  revert Hnone. unfold getChannelStats, bind, gets.
  destruct (statsOf_unique toISOString (channels (reg w)) (StatsObject.Make [] None) w
              Hvalid Hunique) as (stats & Hrun & Hget & Hproto & Hkeys).
  rewrite Hrun. intros Hnone. exists stats. split; [done|]. split; [|split; [|split]].
  - intros channel Hname. rewrite (Hget channel Hname).
    by destruct (JsMap.get channel (channels (reg w))).
  - by apply Hnone.
  - rewrite Hproto. by destruct (JsMap.get "__proto__" (channels (reg w))).
  - unfold StatsObject.ownKeys. rewrite Hkeys; [done|].
    intros c _. apply not_elem_of_nil.
Qed.

Lemma stats_follow_the_channel_index_witness :
  exists stats,
    fst (getChannelStats Sample.iso Sample.mixed) = Return stats
    /\ JsMap.get "news" (StatsObject.properties stats) = Some (ChannelStats.Make 0 [])
    /\ ChannelStats.clientCount <$> JsMap.get "sport" (StatsObject.properties stats)
       = Some 1%nat
    /\ JsMap.get "other" (StatsObject.properties stats) = None
    /\ JsMap.get "__proto__" (StatsObject.properties stats) = None
    /\ ChannelStats.clientCount <$> StatsObject.prototype stats = Some 1%nat
    /\ StatsObject.ownKeys stats = ["7"; "news"; "sport"].
Proof.
  assert (Hvalid : forall r info,
             JsMap.get r (clientMap (reg Sample.mixed)) = Some info ->
             valid_clientId (ClientInfo.clientId info)).
  { intros r info Hget. vm_compute in Hget.
    destruct r as [|[|[|[|[|r]]]]]; try discriminate;
      injection Hget as <-; vm_compute; discriminate. }
  assert (Hunique : unique_keys (channels (reg Sample.mixed))).
  { vm_compute. repeat (apply NoDup_cons; split;
      [intros Hin; apply list_elem_of_In in Hin; simpl in Hin; intuition discriminate|]).
    apply NoDup_nil_2. }
  destruct (stats_follow_the_channel_index Sample.iso Sample.mixed Hvalid Hunique)
    as (stats & Hrun & Hget & Hnone & Hproto & Hkeys).
  exists stats. split; [exact Hrun|].
  split; [rewrite Hget by discriminate; vm_compute; reflexivity|].
  split; [rewrite Hget by discriminate; vm_compute; reflexivity|].
  split; [rewrite Hget by discriminate; vm_compute; reflexivity|].
  split; [exact Hnone|].
  split; [rewrite Hproto; vm_compute; reflexivity|].
  rewrite Hkeys. vm_compute. reflexivity.
Defined.

(** X15.  With client ids that [toISOString] accepts, [getConnectedClients]
    returns: without channel (or with the empty name) one view for each
    record, in the order of the records; for a channel with an entry one
    view for each member that has a record, in the order of the set; for a
    channel without entry the empty list.  Each view carries the client
    id, the channel and the address of the record. *)
Theorem connected_clients_follow_the_records (toISOString : Z -> string) (w : world) :
  (forall r info, JsMap.get r (clientMap (reg w)) = Some info ->
                  valid_clientId (ClientInfo.clientId info)) ->
  unique_keys (clientMap (reg w)) ->
  fst (getConnectedClients toISOString None w)
    = Return (map (fun entry => client_view toISOString (snd entry)) (clientMap (reg w)))
  /\ fst (getConnectedClients toISOString (Some "") w)
     = fst (getConnectedClients toISOString None w)
  /\ forall c s,
       fst (getConnectedClients toISOString (Some (String c s)) w)
       = Return (match JsMap.get (String c s) (channels (reg w)) with
                 | Some clients =>
                     omap (fun res => client_view toISOString
                                        <$> JsMap.get res (clientMap (reg w))) clients
                 | None => []
                 end).
Proof.
  intros Hvalid Hunique. split; [|split; [done|]].
  - unfold getConnectedClients, bind at 1, gets.
    assert (Hentries : forall entries : list (response * ClientInfo.t),
              (forall entry, entry ∈ entries ->
                             valid_clientId (ClientInfo.clientId (snd entry))) ->
              collect entries (fun entry =>
                view <- extractClientInfo toISOString (snd entry) ;; ret (Some view)) w
              = (Return (map (fun entry => client_view toISOString (snd entry)) entries), w)).
    { intros entries Hall.
      rewrite (collect_omap entries _
                 (fun entry => Some (client_view toISOString (snd entry)))).
      - by rewrite omap_total.
      - intros x Hx. unfold bind. by rewrite extractClientInfo_valid by (by apply Hall). }
    rewrite Hentries; [done|].
    intros [r info] Hin. simpl. apply (Hvalid r).
    clear Hvalid Hentries. revert Hunique Hin. unfold unique_keys.
    induction (clientMap (reg w)) as [|[r' info'] m IH]; intros Hunique Hin.
    + by apply elem_of_nil in Hin.
    + apply NoDup_cons in Hunique as [Hnot Hunique]. simpl.
      apply elem_of_cons in Hin as [[= -> ->]|Hin].
      * by rewrite decide_True.
      * rewrite decide_False; [by apply IH|].
        intros ->. apply Hnot. apply list_elem_of_fmap. by exists (r', info).
  - intros c s. unfold getConnectedClients, bind, gets.
    destruct (JsMap.get (String c s) (channels (reg w))) as [clients|]; [|done].
    rewrite (collect_omap clients _
               (fun res => client_view toISOString <$> JsMap.get res (clientMap (reg w))));
      [done|].
    intros x _. unfold pushClient, bind, gets.
    destruct (JsMap.get x (clientMap (reg w))) as [info|] eqn:Hinfo; [|done].
    by rewrite extractClientInfo_valid by (eapply Hvalid, Hinfo).
Qed.

Lemma connected_clients_follow_the_records_witness :
  fst (getConnectedClients Sample.iso None Sample.two)
  = Return (map (fun entry => client_view Sample.iso (snd entry)) (clientMap (reg Sample.two))).
Proof.
  apply (connected_clients_follow_the_records Sample.iso Sample.two).
  - intros r info Hget. vm_compute in Hget.
    destruct r as [|[|[|r]]]; try discriminate; injection Hget as <-; vm_compute; discriminate.
  - vm_compute. apply NoDup_cons. split.
    + intros Hin. apply list_elem_of_In in Hin. simpl in Hin. intuition discriminate.
    + apply NoDup_singleton.
Defined.

(** ** The time stamp of a generated client id *)

Section Timestamps.

Lemma small_digit (x : N) :
  (x < 10)%N ->
  digit_value (pretty_N_char x) = Some (Z.of_N x)
  /\ is_decimal_digit (pretty_N_char x) = true.
Proof.
  intros Hx.
  assert (Hcases : x = 0%N \/ x = 1%N \/ x = 2%N \/ x = 3%N \/ x = 4%N \/ x = 5%N
                   \/ x = 6%N \/ x = 7%N \/ x = 8%N \/ x = 9%N) by lia.
  destruct Hcases as [->|[->|[->|[->|[->|[->|[->|[->|[->| ->]]]]]]]]]; by vm_compute.
Qed.

(** Reading back the digits that [pretty] has written for [n]: the
    number read so far is shifted and [n] added. *)
Lemma parse_digits_pretty_go (n : N) :
  (0 < n)%N ->
  forall s acc,
    exists m, parse_digits 10 (pretty_N_go n s) acc
              = parse_digits 10 s (Some (default 0%Z acc * m + Z.of_N n)%Z).
Proof.
  induction n as [n IH] using (well_founded_induction N.lt_wf_0).
  intros Hpos s acc. rewrite pretty_N_go_step by done.
  assert (Hd : (n `mod` 10 < 10)%N) by (apply N.mod_lt; lia).
  destruct (small_digit _ Hd) as [Hvalue _].
  assert (Hn : Z.of_N n = (Z.of_N (n `div` 10) * 10 + Z.of_N (n `mod` 10))%Z).
  { rewrite (N.div_mod n 10) at 1 by lia. lia. }
  destruct (decide (n `div` 10 = 0)%N) as [Hq|Hq].
  - rewrite Hq, pretty_N_go_0. simpl. rewrite Hvalue.
    assert (Hlt : (Z.of_N (n `mod` 10) <? 10)%Z = true) by (apply Z.ltb_lt; lia).
    rewrite Hlt. exists 10%Z. do 2 f_equal. rewrite Hn, Hq. lia.
  - destruct (IH (n `div` 10)%N) with (s := String (pretty_N_char (n `mod` 10)) s) (acc := acc)
      as [m Hm].
    + apply N.div_lt; lia.
    + lia.
    + rewrite Hm. simpl. rewrite Hvalue.
      assert (Hlt : (Z.of_N (n `mod` 10) <? 10)%Z = true) by (apply Z.ltb_lt; lia).
      rewrite Hlt. exists (m * 10)%Z. do 2 f_equal. rewrite Hn. lia.
Qed.

Lemma all_digits_pretty_go (n : N) :
  forall s, all_digits s = true -> all_digits (pretty_N_go n s) = true.
Proof.
  induction n as [n IH] using (well_founded_induction N.lt_wf_0).
  intros s Hs. destruct (decide (n = 0)%N) as [->|Hn].
  - by rewrite pretty_N_go_0.
  - rewrite pretty_N_go_step by lia. apply IH.
    + apply N.div_lt; lia.
    + simpl. rewrite Hs.
      assert (Hd : (n `mod` 10 < 10)%N) by (apply N.mod_lt; lia).
      destruct (small_digit _ Hd) as [_ ->]. done.
Qed.

(** On a string of digits [parseInt] skips nothing, finds no sign and no
    hexadecimal prefix. *)
Lemma parseInt_all_digits (s : string) :
  all_digits s = true -> parseInt s = parse_digits 10 s None.
Proof.
  assert (Hsign : forall o : option Z,
            match o with Some n => Some (1 * n)%Z | None => None end = o)
    by (intros [[| |]|]; reflexivity).
  destruct s as [|c s]; [done|].
  destruct c as [[] [] [] [] [] [] [] []]; simpl; try discriminate; intros Hs;
    try (unfold parseInt; simpl; apply Hsign).
  destruct s as [|c s]; [done|].
  revert Hs.
  destruct c as [[] [] [] [] [] [] [] []]; simpl; try discriminate; intros Hs;
    unfold parseInt; simpl; apply Hsign.
Qed.

Lemma split_all_digits (s : string) : all_digits s = true -> split "-" s = [s].
Proof.
  induction s as [|c s IH]; [done|]. simpl. intros Hs.
  apply andb_true_iff in Hs as [Hc Hs].
  destruct (Ascii.eqb_spec c "-") as [->|_]; [discriminate Hc|].
  by rewrite IH.
Qed.

Lemma split_at_least_one (sep : ascii) (s : string) : split sep s <> [].
Proof.
  destruct s as [|c s]; [done|]. simpl.
  destruct (Ascii.eqb c sep); [done|]. by destruct (split sep s).
Qed.

Lemma split_with_separator (p s : string) :
  (2 <= length (split "-" (p +:+ String "-" s)))%nat.
Proof.
  induction p as [|c p IH]; simpl.
  - pose proof (split_at_least_one "-" s) as Hne.
    destruct (split "-" s); [done|]. simpl. lia.
  - destruct (Ascii.eqb c "-"); [simpl; lia|].
    destruct (split "-" (p +:+ String "-" s)); simpl in *; lia.
Qed.

Lemma last_part_last (parts : list string) : last_part parts = last parts.
Proof. unfold last_part. by rewrite last_lookup, Nat.sub_1_r. Qed.

(** The last part of a string is what follows its last separator. *)
Lemma last_split_after (p s : string) :
  last (split "-" (p +:+ String "-" s)) = last (split "-" s).
Proof.
  induction p as [|c p IH]; simpl.
  - pose proof (split_at_least_one "-" s) as Hne.
    destruct (split "-" s) as [|q qs]; [done|]. by rewrite last_cons_cons.
  - pose proof (split_with_separator p s) as Hlen.
    destruct (Ascii.eqb c "-").
    + destruct (split "-" (p +:+ String "-" s)) as [|q qs]; [simpl in Hlen; lia|].
      by rewrite last_cons_cons.
    + destruct (split "-" (p +:+ String "-" s)) as [|q [|q' qs]]; simpl in Hlen; try lia.
      by rewrite !last_cons_cons in *.
Qed.

End Timestamps.

(** X16.  A client id made of any prefix, a dash and the decimal digits of
    a positive time (the form [${req.ip}-${Date.now()}] of the comment at
    line 150) gives that time back as its time stamp, for a time up to
    2^53, which [parseInt] reads exactly; and when the time is a valid time
    value, the view of the client carries it, with its rendering by
    [toISOString]. *)
Theorem generated_clientId_gives_its_time
    (toISOString : Z -> string) (prefix channel ip : string) (n : N) (w : world) :
  (0 < n)%N ->
  ((Z.of_N n <= 9007199254740992)%Z ->
   extractTimestamp (prefix +:+ "-" +:+ pretty n) = Some (Z.of_N n))
  /\ ((Z.of_N n <= max_time_value)%Z ->
      extractClientInfo toISOString
        (ClientInfo.Make (prefix +:+ "-" +:+ pretty n) channel ip) w
      = (Return (ClientView.Make (prefix +:+ "-" +:+ pretty n) channel ip
                   (Some (toISOString (Z.of_N n))) (Some (Z.of_N n))), w)).
Proof.
  intros Hpos.
  assert (Hpretty : pretty n = pretty_N_go n "").
  { unfold pretty, pretty_N. rewrite decide_False; [done|lia]. }
  assert (Hdigits : all_digits (pretty n) = true)
    by (rewrite Hpretty; by apply all_digits_pretty_go).
  assert (Htime : extractTimestamp (prefix +:+ "-" +:+ pretty n) = Some (Z.of_N n)).
  { unfold extractTimestamp.
    change ("-" +:+ pretty n) with (String "-" (pretty n)).
    rewrite last_part_last, last_split_after, (split_all_digits _ Hdigits). simpl.
    rewrite (parseInt_all_digits _ Hdigits), Hpretty.
    destruct (parse_digits_pretty_go n Hpos "" None) as [m ->]. simpl.
    replace (0 * m + Z.of_N n)%Z with (Z.of_N n) by lia.
    by rewrite (proj2 (Z.ltb_lt 0 (Z.of_N n))) by lia. }
  split; [intros _; exact Htime|].
  intros Hmax. rewrite extractClientInfo_cases. simpl. rewrite Htime.
  by rewrite (proj2 (Z.leb_le _ _) Hmax).
Qed.

Lemma generated_clientId_gives_its_time_witness :
  extractTimestamp ("10.0.0.1" +:+ "-" +:+ pretty 1700000000000%N) = Some 1700000000000%Z
  /\ extractClientInfo Sample.iso
       (ClientInfo.Make ("10.0.0.1" +:+ "-" +:+ pretty 1700000000000%N) "news" "10.0.0.1")
       Sample.start
     = (Return (ClientView.Make ("10.0.0.1" +:+ "-" +:+ pretty 1700000000000%N) "news"
                  "10.0.0.1" (Some (Sample.iso 1700000000000)) (Some 1700000000000%Z)),
        Sample.start).
Proof.
  destruct (generated_clientId_gives_its_time Sample.iso "10.0.0.1" "news" "10.0.0.1"
              1700000000000%N Sample.start) as [Htime Hview]; [reflexivity|].
  split.
  - apply Htime. vm_compute. discriminate.
  - apply Hview. vm_compute. discriminate.
Defined.

(** ** One binding per address, one close per binding *)

Lemma forEach_closeExisting_destroys env conns w :
  omap destroy_call (trace (snd (forEach conns (closeExisting env) w)))
  = (omap destroy_call (trace w)
       ++ map ConnInfo.res (filter (fun c => destroyed env (ConnInfo.res c) = false) conns))%list.
Proof.
  revert w. induction conns as [|connInfo conns IH]; intros w.
  - simpl. by rewrite app_nil_r.
  - destruct (closeExisting_run env connInfo w)
      as (w1 & tr & Hrun & _ & _ & Htr & Hdc & _).
    cbn [forEach]. unfold bind. rewrite Hrun, IH, Htr, omap_app, Hdc, <- app_assoc.
    f_equal. rewrite filter_cons.
    by destruct (destroyed env (ConnInfo.res connInfo)).
Qed.

(** X17.  [subscribeClient] calls [destroy] once on each connection bound
    to the subscribing address whose [destroyed] flag is down, in the
    order of the bindings, and on no other connection; whether those
    calls return or throw makes no difference to that. *)
Theorem subscribe_destroys_bound_connections
    (env : transport) (w : world) (channel : string) (res : response)
    (clientId ip : string) :
  omap destroy_call (trace (snd (subscribeClient env channel res clientId ip w)))
  = (omap destroy_call (trace w)
       ++ map ConnInfo.res
            (filter (fun c => destroyed env (ConnInfo.res c) = false)
               (default [] (JsMap.get ip (ipConnections (reg w))))))%list.
Proof.
  unfold subscribeClient. unfold bind at 1.
  assert (Hclose :
    omap destroy_call (trace (snd (closeSameIp env channel clientId ip w)))
    = (omap destroy_call (trace w)
         ++ map ConnInfo.res
              (filter (fun c => destroyed env (ConnInfo.res c) = false)
                 (default [] (JsMap.get ip (ipConnections (reg w))))))%list).
  { unfold closeSameIp. unfold bind at 1, gets at 1.
    destruct (JsMap.get ip (ipConnections (reg w))) as [conns|]; simpl.
    - unfold logChannel. unfold bind at 1, emit at 1. unfold bind at 1.
      set (w0 := World (reg w) (heap w) _).
      pose proof (forEach_closeExisting_destroys env conns w0) as Hloop.
      destruct (forEach_closeExisting_run env conns w0) as (w1 & tr & Hrun & _).
      rewrite Hrun in Hloop |- *. simpl in *. rewrite Hloop. unfold w0. simpl.
      by rewrite omap_app, app_nil_r.
    - by rewrite app_nil_r. }
  destruct (closeSameIp_run env channel clientId ip w) as (w1 & tr1 & Hrun1 & _).
  rewrite Hrun1 in Hclose |- *. simpl in Hclose.
  destruct (register_run channel res clientId ip w1)
    as (w2 & tr2 & Hrun2 & _ & Htr2 & Hdc2 & _).
  rewrite Hrun2. simpl. by rewrite Htr2, omap_app, Hdc2, app_nil_r.
Qed.

Lemma single_bindings_unsubscribeClient channel res w :
  single_bindings (reg w) -> single_bindings (reg (snd (unsubscribeClient channel res w))).
Proof.
  intros Hsingle.
  destruct (JsMap.get channel (channels (reg w))) as [clients|] eqn:Hcc.
  2: { by rewrite unsubscribeClient_missing_channel. }
  destruct (unsubscribeClient_effect channel res clients w Hcc)
    as (w' & Hrun & _ & _ & _ & Hips & _).
  rewrite Hrun. simpl. intros a conns' Hget. rewrite Hips in Hget.
  destruct (JsMap.get res (clientMap (reg w))) as [info|]; [|by apply (Hsingle a)].
  destruct (String.eqb (ClientInfo.ip info) ""); [by apply (Hsingle a)|].
  destruct (JsMap.get (ClientInfo.ip info) (ipConnections (reg w))) as [conns|] eqn:Hconns;
    [|by apply (Hsingle a)].
  destruct (decide (ClientInfo.ip info = a)); [|by apply (Hsingle a)].
  pose proof (Hsingle _ _ Hconns) as Hlen.
  destruct conns as [|c [|c' conns]]; try discriminate Hlen.
  simpl in Hget. destruct (decide (ConnInfo.res c = res)); simpl in Hget; [done|].
  by injection Hget as <-.
Qed.

Lemma single_bindings_run_operation rewriteImageUrls JSON_stringify step w :
  single_bindings (reg w) ->
  single_bindings (reg (snd (run_operation rewriteImageUrls JSON_stringify step w))).
Proof.
  intros Hsingle.
  destruct step as [env [channel res clientId ip|channel res|channel message]];
    unfold run_operation; simpl.
  - destruct (subscribeClient_effect env channel res clientId ip w)
      as (w' & Hrun & _ & _ & _ & Hips & _).
    rewrite Hrun. simpl. intros a conns Hget. rewrite Hips in Hget.
    destruct (decide (ip = a)); [by injection Hget as <-|by apply (Hsingle a)].
  - by apply single_bindings_unsubscribeClient.
  - intros a conns Hget. rewrite sendToChannel_keeps_bindings in Hget.
    by apply (Hsingle a).
Qed.

(** X18.  After any sequence of operations from the empty registry, every
    address that has a binding has exactly one: the set of an address
    never holds two connections, and never stays behind empty. *)
Theorem one_binding_per_address
    (rewriteImageUrls : value -> value) (JSON_stringify : object -> string)
    (steps : list (transport * operation)) (h : gmap loc object) (tr : list event) :
  single_bindings
    (reg (serve rewriteImageUrls JSON_stringify steps (World empty_registry h tr))).
Proof.
  assert (Hserve : forall w,
            single_bindings (reg w) ->
            single_bindings (reg (serve rewriteImageUrls JSON_stringify steps w))).
  { induction steps as [|step steps' IH]; intros w Hsingle; [done|].
    simpl. apply IH. by apply single_bindings_run_operation. }
  apply Hserve. intros ip conns Hget. discriminate Hget.
Qed.
